(** * Exchange-rate conversion: a shallow embedding of
      [hummingbot/core/utils/exchange_rate_conversion.py]

    The class [ExchangeRateConversion] keeps, per process, a resolved
    configuration, a merged rate table, one price snapshot per data feed and
    two log-suppression flags.  Its methods are embedded below as functions of
    a state-and-exception monad over a record that has one field per
    attribute of the class.

    Modelling conventions.
    - Python values that the code receives untyped (configuration entries,
      default rates, prices) are values of [pyval].  Python numbers are
      binary64 floats ([PrimFloat.float]); [int] and [Decimal] are not
      modelled.
    - Python [str] is [string]; [str.upper] and [str.lower] act on the ASCII
      letters only.
    - A Python [dict] is an insertion-ordered association list with unique
      keys ([dict]); dictionary keys are strings.
    - An exception leaves the attributes assigned before it in place, so the
      monad returns the state together with the outcome.
    - The two override hooks keep the object they are first given and change
      it in place afterwards.  Their argument is therefore an [argument]:
      either an object of its own or the very object the attribute holds. *)

From Stdlib Require Import String Ascii List Bool Arith Lia.
From Stdlib Require Import Floats.PrimFloat.
Import ListNotations.
Open Scope string_scope.
Open Scope list_scope.

Set Implicit Arguments.
Set Warnings "-register-all".

(* ===================================================================== *)
(** ** Strings *)
(* ===================================================================== *)

Module Str.

Definition upper_ascii (c : ascii) : ascii :=
  let n := nat_of_ascii c in
  if ((97 <=? n) && (n <=? 122))%nat then ascii_of_nat (n - 32) else c.

Definition lower_ascii (c : ascii) : ascii :=
  let n := nat_of_ascii c in
  if ((65 <=? n) && (n <=? 90))%nat then ascii_of_nat (n + 32) else c.

Fixpoint map_string (f : ascii -> ascii) (s : string) : string :=
  match s with
  | EmptyString => EmptyString
  | String c s' => String (f c) (map_string f s')
  end.

(** [s.upper()] *)
Definition upper (s : string) : string := map_string upper_ascii s.

(** [s.lower()] *)
Definition lower (s : string) : string := map_string lower_ascii s.

(** The characters of [s], each as a one-character string (what iterating
    over a Python string yields). *)
Fixpoint chars (s : string) : list string :=
  match s with
  | EmptyString => []
  | String c s' => String c EmptyString :: chars s'
  end.

End Str.

(* ===================================================================== *)
(** ** Dictionaries *)
(* ===================================================================== *)

Module Dict.

Section Ops.
Variable V : Type.

Definition t := list (string * V).

(** [d.get(k)] *)
Fixpoint get (d : t) (k : string) : option V :=
  match d with
  | [] => None
  | (k', v) :: d' => if String.eqb k k' then Some v else get d' k
  end.

(** [k in d] *)
Definition mem (d : t) (k : string) : bool :=
  match get d k with Some _ => true | None => false end.

(** [d[k] = v]: an existing key keeps its position, a new key goes last. *)
Fixpoint set (d : t) (k : string) (v : V) : t :=
  match d with
  | [] => [(k, v)]
  | (k', v') :: d' =>
      if String.eqb k k' then (k', v) :: d' else (k', v') :: set d' k v
  end.

(** [d.update(items)], also [{**d, **items}] on a copy of [d]. *)
Definition update (d : t) (items : list (string * V)) : t :=
  fold_left (fun acc kv => set acc (fst kv) (snd kv)) items d.

(** [{k: v for k, v in items}] *)
Definition of_items (items : list (string * V)) : t := update [] items.

(** [d.get(k, dflt)] *)
Definition get_default (d : t) (k : string) (dflt : V) : V :=
  match get d k with Some v => v | None => dflt end.

Definition keys (d : t) : list string := map fst d.

End Ops.

Arguments get {V} d k.
Arguments mem {V} d k.
Arguments set {V} d k v.
Arguments update {V} d items.
Arguments of_items {V} items.
Arguments get_default {V} d k dflt.
Arguments keys {V} d.

End Dict.

Definition dict (V : Type) : Type := Dict.t V.

(* ===================================================================== *)
(** ** Python values, exceptions and the primitive operations used *)
(* ===================================================================== *)

Inductive pyval : Type :=
| VNone
| VFloat (f : float)
| VStr (s : string)
| VList (l : list pyval)
| VDict (d : list (string * pyval)).

Inductive exn : Type :=
| KeyError
| IndexError
| TypeError
| AttributeError
| ZeroDivisionError
| ValueError (msg : string)
| Exception (msg : string)
| CancelledError.

Inductive result (A : Type) : Type :=
| Ok (a : A)
| Raise (e : exn).

Arguments Ok {A} a.
Arguments Raise {A} e.

(** [NaN = float("nan")] *)
Definition NaN : float := PrimFloat.nan.

Module Py.

(** [bool(v)], the test of [if v:] and of [v or w]. *)
Definition truthy (v : pyval) : bool :=
  match v with
  | VNone => false
  | VFloat f => negb (PrimFloat.eqb f PrimFloat.zero)
  | VStr s => negb (String.eqb s "")
  | VList l => match l with [] => false | _ => true end
  | VDict d => match d with [] => false | _ => true end
  end.

(** [v or w] *)
Definition or_ (v w : pyval) : pyval := if truthy v then v else w.

(** [e[i]] with an integer index. *)
Definition index (e : pyval) (i : nat) : result pyval :=
  match e with
  | VList l =>
      match nth_error l i with Some v => Ok v | None => Raise IndexError end
  | VStr s =>
      match String.get i s with
      | Some c => Ok (VStr (String c EmptyString))
      | None => Raise IndexError
      end
  | VDict _ => Raise KeyError
  | VNone | VFloat _ => Raise TypeError
  end.

(** [v[k]] with a string key. *)
Definition getitem (v : pyval) (k : string) : result pyval :=
  match v with
  | VDict d =>
      match Dict.get d k with Some x => Ok x | None => Raise KeyError end
  | _ => Raise TypeError
  end.

(** [v.items()] *)
Definition items (v : pyval) : result (list (string * pyval)) :=
  match v with
  | VDict d => Ok d
  | _ => Raise AttributeError
  end.

(** The elements [for e in v] runs over. *)
Definition iter (v : pyval) : result (list pyval) :=
  match v with
  | VList l => Ok l
  | VStr s => Ok (map VStr (Str.chars s))
  | VDict d => Ok (map VStr (Dict.keys d))
  | VNone | VFloat _ => Raise TypeError
  end.

(** [v.lower()] *)
Definition lower (v : pyval) : result string :=
  match v with
  | VStr s => Ok (Str.lower s)
  | _ => Raise AttributeError
  end.

(** A value used as a dictionary key whose [.upper()] is taken afterwards:
    lists and dicts are unhashable, and only a string has [upper]. *)
Definition str_key (v : pyval) : result string :=
  match v with
  | VStr s => Ok s
  | VList _ | VDict _ => Raise TypeError
  | VNone | VFloat _ => Raise AttributeError
  end.

(** [math.isnan(v)] *)
Definition isnan (v : pyval) : result bool :=
  match v with
  | VFloat f => Ok (PrimFloat.is_nan f)
  | _ => Raise TypeError
  end.

(** [v * x] for a float [x] *)
Definition mul (v : pyval) (x : float) : result float :=
  match v with
  | VFloat f => Ok (PrimFloat.mul f x)
  | _ => Raise TypeError
  end.

(** [x * v] for a float [x] *)
Definition rmul (x : float) (v : pyval) : result float :=
  match v with
  | VFloat f => Ok (PrimFloat.mul x f)
  | _ => Raise TypeError
  end.

(** [x / v] for a float [x]: Python raises on a zero divisor. *)
Definition div (x : float) (v : pyval) : result float :=
  match v with
  | VFloat f =>
      if PrimFloat.eqb f PrimFloat.zero then Raise ZeroDivisionError
      else Ok (PrimFloat.div x f)
  | _ => Raise TypeError
  end.

End Py.

(* ===================================================================== *)
(** ** Data feeds *)
(* ===================================================================== *)

(** How [asyncio.wait_for(data_feed.get_ready(), timeout)] ends.  The
    cancellation of the awaiting task is [ReadyFailed CancelledError]. *)
Inductive ready_outcome : Type :=
| Ready
| TimedOut
| ReadyFailed (e : exn).

Module DataFeed.

(** Modelled from the spec: the data feed providers ([DataFeedBase],
    [CoinCapDataFeed], [CoinGeckoDataFeed]) are not part of the sources.  A
    feed is what the Data Feed Provider contract of the specification lets the
    class observe: its [name], its full price snapshot [price_dict], its
    single-asset lookup [get_price] ([VNone] when the asset is absent), how
    waiting for [get_ready()] ends, and whether it is [started]. *)
Record t : Type := mk {
  name : string;
  price_dict : dict pyval;
  get_price : string -> pyval;
  get_ready : ready_outcome;
  started : bool
}.

(** [data_feed.start()] *)
Definition start (d : t) : t :=
  {| name := name d; price_dict := price_dict d; get_price := get_price d;
     get_ready := get_ready d; started := true |}.

(** [data_feed.stop()] *)
Definition stop (d : t) : t :=
  {| name := name d; price_dict := price_dict d; get_price := get_price d;
     get_ready := get_ready d; started := false |}.

End DataFeed.

(* ===================================================================== *)
(** ** The state of the class *)
(* ===================================================================== *)

(** The reports handed to the logger. *)
Inductive log_entry : Type :=
| ErrorInitiatingConfig
  (* error("Error initiating config for exchange rate conversion.") *)
| ErrorDefaultFeedMissing
  (* error("coin_gecko_api is not in one of the data feeds: ...") *)
| NetworkNoDataFound (asset_name source_name : string)
  (* network("No data found for {asset_name} in {source_name} data feed.",
             app_warning_msg=...) *)
| WarningErrorGettingData (source_name : string)
  (* warning("Error getting data from {source_name} data feed.") *)
| WarningErrorInitializingDataFeed (name : string)
  (* warning("Error initializing data feed - {name}.") *)
| ErrorSendingRequests.
  (* error("Error sending requests.") *)

(** [_exchange_rate_config]: a dict with exactly the two keys
    ["conversion_required"] and ["global_config"]. *)
Record Config : Type := mkConfig {
  conversion_required : dict pyval;
  global_config : dict pyval
}.

(** The attributes of the class and of its shared instance, together with
    what the imported modules supply. *)
Record ExchangeRateConversion : Type := mkERC {
  (** [global_config_map["exchange_rate_fetcher"].value] *)
  exchange_rate_fetcher : pyval;
  (** [global_config_map["exchange_rate_conversion"].value] *)
  exchange_rate_conversion : pyval;
  (** [CoinCapDataFeed.get_instance()] *)
  coin_cap_data_feed : DataFeed.t;
  (** [CoinGeckoDataFeed.get_instance()] *)
  coin_gecko_data_feed : DataFeed.t;
  (** whether the shared instance has been constructed *)
  _erc_shared_instance : bool;
  _exchange_rate_config_override : option (dict pyval);
  _data_feeds_override : option (list DataFeed.t);
  _update_interval : float;
  _data_feeds : list DataFeed.t;
  _exchange_rate_config : Config;
  _exchange_rate : dict pyval;
  _all_data_feed_exchange_rate : dict (dict pyval);
  _started : bool;
  (** whether the [asyncio.Event] is set *)
  _ready_notifier : bool;
  _show_update_exchange_rates_from_data_feeds_errors : bool;
  _show_wait_till_ready_errors : bool;
  (** whether a polling task is scheduled and not done *)
  _fetch_exchange_rate_task : bool;
  (** what [logger()] has been asked to report, oldest first *)
  log : list log_entry
}.

Definition with_exchange_rate_fetcher (v : pyval) (s : ExchangeRateConversion) : ExchangeRateConversion :=
  {| exchange_rate_fetcher := v;
     exchange_rate_conversion := exchange_rate_conversion s;
     coin_cap_data_feed := coin_cap_data_feed s;
     coin_gecko_data_feed := coin_gecko_data_feed s;
     _erc_shared_instance := _erc_shared_instance s;
     _exchange_rate_config_override := _exchange_rate_config_override s;
     _data_feeds_override := _data_feeds_override s;
     _update_interval := _update_interval s;
     _data_feeds := _data_feeds s;
     _exchange_rate_config := _exchange_rate_config s;
     _exchange_rate := _exchange_rate s;
     _all_data_feed_exchange_rate := _all_data_feed_exchange_rate s;
     _started := _started s;
     _ready_notifier := _ready_notifier s;
     _show_update_exchange_rates_from_data_feeds_errors := _show_update_exchange_rates_from_data_feeds_errors s;
     _show_wait_till_ready_errors := _show_wait_till_ready_errors s;
     _fetch_exchange_rate_task := _fetch_exchange_rate_task s;
     log := log s |}.

Definition with_exchange_rate_conversion (v : pyval) (s : ExchangeRateConversion) : ExchangeRateConversion :=
  {| exchange_rate_fetcher := exchange_rate_fetcher s;
     exchange_rate_conversion := v;
     coin_cap_data_feed := coin_cap_data_feed s;
     coin_gecko_data_feed := coin_gecko_data_feed s;
     _erc_shared_instance := _erc_shared_instance s;
     _exchange_rate_config_override := _exchange_rate_config_override s;
     _data_feeds_override := _data_feeds_override s;
     _update_interval := _update_interval s;
     _data_feeds := _data_feeds s;
     _exchange_rate_config := _exchange_rate_config s;
     _exchange_rate := _exchange_rate s;
     _all_data_feed_exchange_rate := _all_data_feed_exchange_rate s;
     _started := _started s;
     _ready_notifier := _ready_notifier s;
     _show_update_exchange_rates_from_data_feeds_errors := _show_update_exchange_rates_from_data_feeds_errors s;
     _show_wait_till_ready_errors := _show_wait_till_ready_errors s;
     _fetch_exchange_rate_task := _fetch_exchange_rate_task s;
     log := log s |}.

Definition with_coin_cap_data_feed (v : DataFeed.t) (s : ExchangeRateConversion) : ExchangeRateConversion :=
  {| exchange_rate_fetcher := exchange_rate_fetcher s;
     exchange_rate_conversion := exchange_rate_conversion s;
     coin_cap_data_feed := v;
     coin_gecko_data_feed := coin_gecko_data_feed s;
     _erc_shared_instance := _erc_shared_instance s;
     _exchange_rate_config_override := _exchange_rate_config_override s;
     _data_feeds_override := _data_feeds_override s;
     _update_interval := _update_interval s;
     _data_feeds := _data_feeds s;
     _exchange_rate_config := _exchange_rate_config s;
     _exchange_rate := _exchange_rate s;
     _all_data_feed_exchange_rate := _all_data_feed_exchange_rate s;
     _started := _started s;
     _ready_notifier := _ready_notifier s;
     _show_update_exchange_rates_from_data_feeds_errors := _show_update_exchange_rates_from_data_feeds_errors s;
     _show_wait_till_ready_errors := _show_wait_till_ready_errors s;
     _fetch_exchange_rate_task := _fetch_exchange_rate_task s;
     log := log s |}.

Definition with_coin_gecko_data_feed (v : DataFeed.t) (s : ExchangeRateConversion) : ExchangeRateConversion :=
  {| exchange_rate_fetcher := exchange_rate_fetcher s;
     exchange_rate_conversion := exchange_rate_conversion s;
     coin_cap_data_feed := coin_cap_data_feed s;
     coin_gecko_data_feed := v;
     _erc_shared_instance := _erc_shared_instance s;
     _exchange_rate_config_override := _exchange_rate_config_override s;
     _data_feeds_override := _data_feeds_override s;
     _update_interval := _update_interval s;
     _data_feeds := _data_feeds s;
     _exchange_rate_config := _exchange_rate_config s;
     _exchange_rate := _exchange_rate s;
     _all_data_feed_exchange_rate := _all_data_feed_exchange_rate s;
     _started := _started s;
     _ready_notifier := _ready_notifier s;
     _show_update_exchange_rates_from_data_feeds_errors := _show_update_exchange_rates_from_data_feeds_errors s;
     _show_wait_till_ready_errors := _show_wait_till_ready_errors s;
     _fetch_exchange_rate_task := _fetch_exchange_rate_task s;
     log := log s |}.

Definition with_erc_shared_instance (v : bool) (s : ExchangeRateConversion) : ExchangeRateConversion :=
  {| exchange_rate_fetcher := exchange_rate_fetcher s;
     exchange_rate_conversion := exchange_rate_conversion s;
     coin_cap_data_feed := coin_cap_data_feed s;
     coin_gecko_data_feed := coin_gecko_data_feed s;
     _erc_shared_instance := v;
     _exchange_rate_config_override := _exchange_rate_config_override s;
     _data_feeds_override := _data_feeds_override s;
     _update_interval := _update_interval s;
     _data_feeds := _data_feeds s;
     _exchange_rate_config := _exchange_rate_config s;
     _exchange_rate := _exchange_rate s;
     _all_data_feed_exchange_rate := _all_data_feed_exchange_rate s;
     _started := _started s;
     _ready_notifier := _ready_notifier s;
     _show_update_exchange_rates_from_data_feeds_errors := _show_update_exchange_rates_from_data_feeds_errors s;
     _show_wait_till_ready_errors := _show_wait_till_ready_errors s;
     _fetch_exchange_rate_task := _fetch_exchange_rate_task s;
     log := log s |}.

Definition with_exchange_rate_config_override (v : option (dict pyval)) (s : ExchangeRateConversion) : ExchangeRateConversion :=
  {| exchange_rate_fetcher := exchange_rate_fetcher s;
     exchange_rate_conversion := exchange_rate_conversion s;
     coin_cap_data_feed := coin_cap_data_feed s;
     coin_gecko_data_feed := coin_gecko_data_feed s;
     _erc_shared_instance := _erc_shared_instance s;
     _exchange_rate_config_override := v;
     _data_feeds_override := _data_feeds_override s;
     _update_interval := _update_interval s;
     _data_feeds := _data_feeds s;
     _exchange_rate_config := _exchange_rate_config s;
     _exchange_rate := _exchange_rate s;
     _all_data_feed_exchange_rate := _all_data_feed_exchange_rate s;
     _started := _started s;
     _ready_notifier := _ready_notifier s;
     _show_update_exchange_rates_from_data_feeds_errors := _show_update_exchange_rates_from_data_feeds_errors s;
     _show_wait_till_ready_errors := _show_wait_till_ready_errors s;
     _fetch_exchange_rate_task := _fetch_exchange_rate_task s;
     log := log s |}.

Definition with_data_feeds_override (v : option (list DataFeed.t)) (s : ExchangeRateConversion) : ExchangeRateConversion :=
  {| exchange_rate_fetcher := exchange_rate_fetcher s;
     exchange_rate_conversion := exchange_rate_conversion s;
     coin_cap_data_feed := coin_cap_data_feed s;
     coin_gecko_data_feed := coin_gecko_data_feed s;
     _erc_shared_instance := _erc_shared_instance s;
     _exchange_rate_config_override := _exchange_rate_config_override s;
     _data_feeds_override := v;
     _update_interval := _update_interval s;
     _data_feeds := _data_feeds s;
     _exchange_rate_config := _exchange_rate_config s;
     _exchange_rate := _exchange_rate s;
     _all_data_feed_exchange_rate := _all_data_feed_exchange_rate s;
     _started := _started s;
     _ready_notifier := _ready_notifier s;
     _show_update_exchange_rates_from_data_feeds_errors := _show_update_exchange_rates_from_data_feeds_errors s;
     _show_wait_till_ready_errors := _show_wait_till_ready_errors s;
     _fetch_exchange_rate_task := _fetch_exchange_rate_task s;
     log := log s |}.

Definition with_update_interval (v : float) (s : ExchangeRateConversion) : ExchangeRateConversion :=
  {| exchange_rate_fetcher := exchange_rate_fetcher s;
     exchange_rate_conversion := exchange_rate_conversion s;
     coin_cap_data_feed := coin_cap_data_feed s;
     coin_gecko_data_feed := coin_gecko_data_feed s;
     _erc_shared_instance := _erc_shared_instance s;
     _exchange_rate_config_override := _exchange_rate_config_override s;
     _data_feeds_override := _data_feeds_override s;
     _update_interval := v;
     _data_feeds := _data_feeds s;
     _exchange_rate_config := _exchange_rate_config s;
     _exchange_rate := _exchange_rate s;
     _all_data_feed_exchange_rate := _all_data_feed_exchange_rate s;
     _started := _started s;
     _ready_notifier := _ready_notifier s;
     _show_update_exchange_rates_from_data_feeds_errors := _show_update_exchange_rates_from_data_feeds_errors s;
     _show_wait_till_ready_errors := _show_wait_till_ready_errors s;
     _fetch_exchange_rate_task := _fetch_exchange_rate_task s;
     log := log s |}.

Definition with_data_feeds (v : list DataFeed.t) (s : ExchangeRateConversion) : ExchangeRateConversion :=
  {| exchange_rate_fetcher := exchange_rate_fetcher s;
     exchange_rate_conversion := exchange_rate_conversion s;
     coin_cap_data_feed := coin_cap_data_feed s;
     coin_gecko_data_feed := coin_gecko_data_feed s;
     _erc_shared_instance := _erc_shared_instance s;
     _exchange_rate_config_override := _exchange_rate_config_override s;
     _data_feeds_override := _data_feeds_override s;
     _update_interval := _update_interval s;
     _data_feeds := v;
     _exchange_rate_config := _exchange_rate_config s;
     _exchange_rate := _exchange_rate s;
     _all_data_feed_exchange_rate := _all_data_feed_exchange_rate s;
     _started := _started s;
     _ready_notifier := _ready_notifier s;
     _show_update_exchange_rates_from_data_feeds_errors := _show_update_exchange_rates_from_data_feeds_errors s;
     _show_wait_till_ready_errors := _show_wait_till_ready_errors s;
     _fetch_exchange_rate_task := _fetch_exchange_rate_task s;
     log := log s |}.

Definition with_exchange_rate_config (v : Config) (s : ExchangeRateConversion) : ExchangeRateConversion :=
  {| exchange_rate_fetcher := exchange_rate_fetcher s;
     exchange_rate_conversion := exchange_rate_conversion s;
     coin_cap_data_feed := coin_cap_data_feed s;
     coin_gecko_data_feed := coin_gecko_data_feed s;
     _erc_shared_instance := _erc_shared_instance s;
     _exchange_rate_config_override := _exchange_rate_config_override s;
     _data_feeds_override := _data_feeds_override s;
     _update_interval := _update_interval s;
     _data_feeds := _data_feeds s;
     _exchange_rate_config := v;
     _exchange_rate := _exchange_rate s;
     _all_data_feed_exchange_rate := _all_data_feed_exchange_rate s;
     _started := _started s;
     _ready_notifier := _ready_notifier s;
     _show_update_exchange_rates_from_data_feeds_errors := _show_update_exchange_rates_from_data_feeds_errors s;
     _show_wait_till_ready_errors := _show_wait_till_ready_errors s;
     _fetch_exchange_rate_task := _fetch_exchange_rate_task s;
     log := log s |}.

Definition with_exchange_rate (v : dict pyval) (s : ExchangeRateConversion) : ExchangeRateConversion :=
  {| exchange_rate_fetcher := exchange_rate_fetcher s;
     exchange_rate_conversion := exchange_rate_conversion s;
     coin_cap_data_feed := coin_cap_data_feed s;
     coin_gecko_data_feed := coin_gecko_data_feed s;
     _erc_shared_instance := _erc_shared_instance s;
     _exchange_rate_config_override := _exchange_rate_config_override s;
     _data_feeds_override := _data_feeds_override s;
     _update_interval := _update_interval s;
     _data_feeds := _data_feeds s;
     _exchange_rate_config := _exchange_rate_config s;
     _exchange_rate := v;
     _all_data_feed_exchange_rate := _all_data_feed_exchange_rate s;
     _started := _started s;
     _ready_notifier := _ready_notifier s;
     _show_update_exchange_rates_from_data_feeds_errors := _show_update_exchange_rates_from_data_feeds_errors s;
     _show_wait_till_ready_errors := _show_wait_till_ready_errors s;
     _fetch_exchange_rate_task := _fetch_exchange_rate_task s;
     log := log s |}.

Definition with_all_data_feed_exchange_rate (v : dict (dict pyval)) (s : ExchangeRateConversion) : ExchangeRateConversion :=
  {| exchange_rate_fetcher := exchange_rate_fetcher s;
     exchange_rate_conversion := exchange_rate_conversion s;
     coin_cap_data_feed := coin_cap_data_feed s;
     coin_gecko_data_feed := coin_gecko_data_feed s;
     _erc_shared_instance := _erc_shared_instance s;
     _exchange_rate_config_override := _exchange_rate_config_override s;
     _data_feeds_override := _data_feeds_override s;
     _update_interval := _update_interval s;
     _data_feeds := _data_feeds s;
     _exchange_rate_config := _exchange_rate_config s;
     _exchange_rate := _exchange_rate s;
     _all_data_feed_exchange_rate := v;
     _started := _started s;
     _ready_notifier := _ready_notifier s;
     _show_update_exchange_rates_from_data_feeds_errors := _show_update_exchange_rates_from_data_feeds_errors s;
     _show_wait_till_ready_errors := _show_wait_till_ready_errors s;
     _fetch_exchange_rate_task := _fetch_exchange_rate_task s;
     log := log s |}.

Definition with_started (v : bool) (s : ExchangeRateConversion) : ExchangeRateConversion :=
  {| exchange_rate_fetcher := exchange_rate_fetcher s;
     exchange_rate_conversion := exchange_rate_conversion s;
     coin_cap_data_feed := coin_cap_data_feed s;
     coin_gecko_data_feed := coin_gecko_data_feed s;
     _erc_shared_instance := _erc_shared_instance s;
     _exchange_rate_config_override := _exchange_rate_config_override s;
     _data_feeds_override := _data_feeds_override s;
     _update_interval := _update_interval s;
     _data_feeds := _data_feeds s;
     _exchange_rate_config := _exchange_rate_config s;
     _exchange_rate := _exchange_rate s;
     _all_data_feed_exchange_rate := _all_data_feed_exchange_rate s;
     _started := v;
     _ready_notifier := _ready_notifier s;
     _show_update_exchange_rates_from_data_feeds_errors := _show_update_exchange_rates_from_data_feeds_errors s;
     _show_wait_till_ready_errors := _show_wait_till_ready_errors s;
     _fetch_exchange_rate_task := _fetch_exchange_rate_task s;
     log := log s |}.

Definition with_ready_notifier (v : bool) (s : ExchangeRateConversion) : ExchangeRateConversion :=
  {| exchange_rate_fetcher := exchange_rate_fetcher s;
     exchange_rate_conversion := exchange_rate_conversion s;
     coin_cap_data_feed := coin_cap_data_feed s;
     coin_gecko_data_feed := coin_gecko_data_feed s;
     _erc_shared_instance := _erc_shared_instance s;
     _exchange_rate_config_override := _exchange_rate_config_override s;
     _data_feeds_override := _data_feeds_override s;
     _update_interval := _update_interval s;
     _data_feeds := _data_feeds s;
     _exchange_rate_config := _exchange_rate_config s;
     _exchange_rate := _exchange_rate s;
     _all_data_feed_exchange_rate := _all_data_feed_exchange_rate s;
     _started := _started s;
     _ready_notifier := v;
     _show_update_exchange_rates_from_data_feeds_errors := _show_update_exchange_rates_from_data_feeds_errors s;
     _show_wait_till_ready_errors := _show_wait_till_ready_errors s;
     _fetch_exchange_rate_task := _fetch_exchange_rate_task s;
     log := log s |}.

Definition with_show_update_exchange_rates_from_data_feeds_errors (v : bool) (s : ExchangeRateConversion) : ExchangeRateConversion :=
  {| exchange_rate_fetcher := exchange_rate_fetcher s;
     exchange_rate_conversion := exchange_rate_conversion s;
     coin_cap_data_feed := coin_cap_data_feed s;
     coin_gecko_data_feed := coin_gecko_data_feed s;
     _erc_shared_instance := _erc_shared_instance s;
     _exchange_rate_config_override := _exchange_rate_config_override s;
     _data_feeds_override := _data_feeds_override s;
     _update_interval := _update_interval s;
     _data_feeds := _data_feeds s;
     _exchange_rate_config := _exchange_rate_config s;
     _exchange_rate := _exchange_rate s;
     _all_data_feed_exchange_rate := _all_data_feed_exchange_rate s;
     _started := _started s;
     _ready_notifier := _ready_notifier s;
     _show_update_exchange_rates_from_data_feeds_errors := v;
     _show_wait_till_ready_errors := _show_wait_till_ready_errors s;
     _fetch_exchange_rate_task := _fetch_exchange_rate_task s;
     log := log s |}.

Definition with_show_wait_till_ready_errors (v : bool) (s : ExchangeRateConversion) : ExchangeRateConversion :=
  {| exchange_rate_fetcher := exchange_rate_fetcher s;
     exchange_rate_conversion := exchange_rate_conversion s;
     coin_cap_data_feed := coin_cap_data_feed s;
     coin_gecko_data_feed := coin_gecko_data_feed s;
     _erc_shared_instance := _erc_shared_instance s;
     _exchange_rate_config_override := _exchange_rate_config_override s;
     _data_feeds_override := _data_feeds_override s;
     _update_interval := _update_interval s;
     _data_feeds := _data_feeds s;
     _exchange_rate_config := _exchange_rate_config s;
     _exchange_rate := _exchange_rate s;
     _all_data_feed_exchange_rate := _all_data_feed_exchange_rate s;
     _started := _started s;
     _ready_notifier := _ready_notifier s;
     _show_update_exchange_rates_from_data_feeds_errors := _show_update_exchange_rates_from_data_feeds_errors s;
     _show_wait_till_ready_errors := v;
     _fetch_exchange_rate_task := _fetch_exchange_rate_task s;
     log := log s |}.

Definition with_fetch_exchange_rate_task (v : bool) (s : ExchangeRateConversion) : ExchangeRateConversion :=
  {| exchange_rate_fetcher := exchange_rate_fetcher s;
     exchange_rate_conversion := exchange_rate_conversion s;
     coin_cap_data_feed := coin_cap_data_feed s;
     coin_gecko_data_feed := coin_gecko_data_feed s;
     _erc_shared_instance := _erc_shared_instance s;
     _exchange_rate_config_override := _exchange_rate_config_override s;
     _data_feeds_override := _data_feeds_override s;
     _update_interval := _update_interval s;
     _data_feeds := _data_feeds s;
     _exchange_rate_config := _exchange_rate_config s;
     _exchange_rate := _exchange_rate s;
     _all_data_feed_exchange_rate := _all_data_feed_exchange_rate s;
     _started := _started s;
     _ready_notifier := _ready_notifier s;
     _show_update_exchange_rates_from_data_feeds_errors := _show_update_exchange_rates_from_data_feeds_errors s;
     _show_wait_till_ready_errors := _show_wait_till_ready_errors s;
     _fetch_exchange_rate_task := v;
     log := log s |}.

Definition with_log (v : list log_entry) (s : ExchangeRateConversion) : ExchangeRateConversion :=
  {| exchange_rate_fetcher := exchange_rate_fetcher s;
     exchange_rate_conversion := exchange_rate_conversion s;
     coin_cap_data_feed := coin_cap_data_feed s;
     coin_gecko_data_feed := coin_gecko_data_feed s;
     _erc_shared_instance := _erc_shared_instance s;
     _exchange_rate_config_override := _exchange_rate_config_override s;
     _data_feeds_override := _data_feeds_override s;
     _update_interval := _update_interval s;
     _data_feeds := _data_feeds s;
     _exchange_rate_config := _exchange_rate_config s;
     _exchange_rate := _exchange_rate s;
     _all_data_feed_exchange_rate := _all_data_feed_exchange_rate s;
     _started := _started s;
     _ready_notifier := _ready_notifier s;
     _show_update_exchange_rates_from_data_feeds_errors := _show_update_exchange_rates_from_data_feeds_errors s;
     _show_wait_till_ready_errors := _show_wait_till_ready_errors s;
     _fetch_exchange_rate_task := _fetch_exchange_rate_task s;
     log := v |}.

(* ===================================================================== *)
(** ** Exceptions and state: the monad of the methods *)
(* ===================================================================== *)

(** Pure computations that may raise. *)
Definition rbind {A B : Type} (r : result A) (k : A -> result B) : result B :=
  match r with
  | Ok a => k a
  | Raise e => Raise e
  end.

Notation "'let?' x ':=' r 'in' k" := (rbind r (fun x => k))
  (at level 10, x pattern, r at level 100, k at level 200).

(** [[f(x) for x in l]], stopping at the first exception. *)
Fixpoint rmap {A B : Type} (f : A -> result B) (l : list A) : result (list B) :=
  match l with
  | [] => Ok []
  | x :: l' =>
      let? y := f x in
      let? ys := rmap f l' in
      Ok (y :: ys)
  end.

(** A method: it reads and writes the attributes and returns or raises. *)
Definition M (A : Type) : Type :=
  ExchangeRateConversion -> result A * ExchangeRateConversion.

Definition ret {A : Type} (a : A) : M A := fun s => (Ok a, s).

Definition bind {A B : Type} (c : M A) (k : A -> M B) : M B :=
  fun s =>
    match c s with
    | (Ok a, s') => k a s'
    | (Raise e, s') => (Raise e, s')
    end.

Definition raise {A : Type} (e : exn) : M A := fun s => (Raise e, s).

Definition lift {A : Type} (r : result A) : M A := fun s => (r, s).

Definition gets {A : Type} (f : ExchangeRateConversion -> A) : M A :=
  fun s => (Ok (f s), s).

Definition modify (f : ExchangeRateConversion -> ExchangeRateConversion)
  : M unit :=
  fun s => (Ok tt, f s).

(** [try: c  except Exception: h].  The bodies guarded this way in
    [init_config] and [update_exchange_rates_from_data_feeds] await nothing,
    so no [CancelledError] arises inside them; the handler of [request_loop],
    whose body does await, treats the cancellation apart. *)
Definition try_except {A : Type} (c : M A) (h : exn -> M A) : M A :=
  fun s =>
    match c s with
    | (Ok a, s') => (Ok a, s')
    | (Raise e, s') => h e s'
    end.

Declare Scope erc_scope.
Delimit Scope erc_scope with erc.

Notation "x <- c ;; k" := (bind c (fun x => k))
  (at level 61, c at next level, right associativity) : erc_scope.
Notation "c ;; k" := (bind c (fun _ => k))
  (at level 61, right associativity) : erc_scope.

Open Scope erc_scope.

(** [if b: c] *)
Definition when (b : bool) (c : M unit) : M unit :=
  if b then c else ret tt.

(** [for x in l: body(x)] *)
Fixpoint for_each {A : Type} (l : list A) (body : A -> M unit) : M unit :=
  match l with
  | [] => ret tt
  | x :: l' => body x ;; for_each l' body
  end.

(** A [for] loop that carries a local variable. *)
Fixpoint for_fold {A B : Type} (l : list A) (acc : B) (body : B -> A -> M B)
  : M B :=
  match l with
  | [] => ret acc
  | x :: l' => acc' <- body acc x ;; for_fold l' acc' body
  end.

(** [logger().error(...)], [.warning(...)], [.network(...)] *)
Definition logger (e : log_entry) : M unit :=
  modify (fun s => with_log (log s ++ [e]) s).

(** The result and the final state of running a method. *)
Definition outcome {A : Type} (c : M A) (s : ExchangeRateConversion)
  : result A := fst (c s).

Definition exec {A : Type} (c : M A) (s : ExchangeRateConversion)
  : ExchangeRateConversion := snd (c s).

(* ===================================================================== *)
(** ** The methods of [ExchangeRateConversion] *)
(* ===================================================================== *)

Definition DEFAULT_DATA_FEED_NAME : string := "coin_gecko_api".

(** ** [init_config] *)

(** [e[0]: {"default": e[1], "source": e[2]}] (line 91).  A key that is not
    a string is rejected here: lists and dicts cannot be hashed, and any
    other value fails at [k.upper()] on line 98, before anything is
    assigned; both exceptions reach the same handler. *)
Definition conversion_item (e : pyval) : result (string * pyval) :=
  let? k := Py.index e 0 in
  let? d := Py.index e 1 in
  let? s := Py.index e 2 in
  let? key := Py.str_key k in
  Ok (key, VDict [("default", d); ("source", s)]).

(** [e[0]: {"default": NaN, "source": e[1]}] (line 92) *)
Definition fetcher_item (e : pyval) : result (string * pyval) :=
  let? k := Py.index e 0 in
  let? s := Py.index e 1 in
  let? key := Py.str_key k in
  Ok (key, VDict [("default", VFloat NaN); ("source", s)]).

(** [{k.upper(): v for k, v in d.items()}] (lines 97 and 98) *)
Definition upper_keys (d : pyval) : result (dict pyval) :=
  let? its := Py.items d in
  Ok (Dict.of_items (map (fun kv => (Str.upper (fst kv), snd kv)) its)).

(** Lines 85 to 98: the two mappings, before anything is assigned. *)
Definition resolve (s : ExchangeRateConversion)
  : result (dict pyval * dict pyval) :=
  let fetcher_global_config := Py.or_ (exchange_rate_fetcher s) (VList []) in
  let rate_conversion_config :=
    Py.or_ (exchange_rate_conversion s) (VList []) in
  let? raw :=
    match _exchange_rate_config_override s with
    | None =>
        let? es := Py.iter rate_conversion_config in
        let? conversion_required := rmap conversion_item es in
        let? es' := Py.iter fetcher_global_config in
        let? global_config := rmap fetcher_item es' in
        Ok (VDict (Dict.of_items conversion_required),
            VDict (Dict.of_items global_config))
    | Some override =>
        Ok (Dict.get_default override "conversion_required" (VDict []),
            Dict.get_default override "global_config" (VDict []))
    end in
  let? global_config := upper_keys (snd raw) in
  let? conversion_required := upper_keys (fst raw) in
  Ok (conversion_required, global_config).

(** [{k: v["default"] for k, v in global_config.items()}] (line 103) *)
Definition default_rates (global_config : dict pyval) : result (dict pyval) :=
  let? its :=
    rmap (fun kv => let? d := Py.getitem (snd kv) "default" in Ok (fst kv, d))
         global_config in
  Ok (Dict.of_items its).

Definition init_config : M unit :=
  try_except
    (s <- gets (fun s => s) ;;
     modify (with_data_feeds
               match _data_feeds_override s with
               | None => [coin_cap_data_feed s; coin_gecko_data_feed s]
               | Some feeds => feeds
               end) ;;
     cfg <- lift (resolve s) ;;
     modify (with_exchange_rate_config
               {| conversion_required := fst cfg;
                  global_config := Dict.update (snd cfg) (fst cfg) |}) ;;
     merged <- gets (fun s => global_config (_exchange_rate_config s)) ;;
     rates <- lift (default_rates merged) ;;
     modify (with_exchange_rate rates))
    (fun _ => logger ErrorInitiatingConfig).

(** ** Construction, singleton access and the override hooks *)

(** [stop] *)
Definition stop : M unit :=
  modify (fun s => with_data_feeds (map DataFeed.stop (_data_feeds s)) s) ;;
  modify (with_fetch_exchange_rate_task false) ;;
  modify (with_started false).

(** [start] *)
Definition start : M unit :=
  stop ;;
  modify (fun s =>
            with_data_feeds
              (map (fun d => if negb (DataFeed.started d)
                             then DataFeed.start d else d)
                   (_data_feeds s)) s) ;;
  modify (with_fetch_exchange_rate_task true) ;;
  modify (with_started true).

(** [__init__] *)
Definition __init__ : M unit :=
  modify (with_fetch_exchange_rate_task false) ;;
  init_config.

(** [get_instance] *)
Definition get_instance : M unit :=
  inst <- gets _erc_shared_instance ;;
  if negb inst then
    modify (with_erc_shared_instance true) ;;
    __init__
  else
    g <- gets (fun s => global_config (_exchange_rate_config s)) ;;
    if negb (Py.truthy (VDict g)) then init_config else ret tt.

(** What a caller passes to an override hook: an object other than the
    installed one, holding [a], or the object that the override attribute
    holds at the time of the call ([None] while nothing is installed).  The
    object handed over by the first call is the installed one from then on,
    so handing it over again is [Installed]; and after line 83 [_data_feeds]
    is that same list, so passing [cls._data_feeds] is [Installed] too.
    Changes a caller makes to the installed object between two calls are
    not modelled. *)
Inductive argument (A : Type) : Type :=
| Fresh (a : A)
| Installed.

Arguments Fresh {A} a.
Arguments Installed {A}.

(** The value of the argument, [installed] being the value of the override
    attribute. *)
Definition held {A : Type} (x : argument A) (installed : option A)
  : option A :=
  match x with
  | Fresh a => Some a
  | Installed => installed
  end.

(** What the argument holds when it is read, [installed] being what the
    installed object holds at that time. *)
Definition read {A : Type} (x : argument A) (installed : A) : A :=
  match x with
  | Fresh a => a
  | Installed => installed
  end.

(** [set_global_exchange_rate_config(config)] (lines 56 to 62).  The first
    call keeps the argument; a later call empties the installed dict and
    copies the argument into it, which is read after the [clear()]. *)
Definition set_global_exchange_rate_config (config : argument (dict pyval))
  : M unit :=
  override <- gets _exchange_rate_config_override ;;
  match override with
  | None =>
      modify (with_exchange_rate_config_override (held config None))
  | Some _ =>
      let cleared : dict pyval := [] in
      modify (with_exchange_rate_config_override
                (Some (Dict.update cleared (read config cleared))))
  end ;;
  init_config.

(** [set_data_feeds(data_feeds)] (lines 65 to 71), with the same two
    branches: [clear()] and then [extend(data_feeds)]. *)
Definition set_data_feeds (data_feeds : argument (list DataFeed.t))
  : M unit :=
  override <- gets _data_feeds_override ;;
  match override with
  | None =>
      modify (with_data_feeds_override (held data_feeds None))
  | Some _ =>
      let cleared : list DataFeed.t := [] in
      modify (with_data_feeds_override
                (Some (cleared ++ read data_feeds cleared)))
  end ;;
  init_config.

(** [set_update_interval(update_interval)] *)
Definition set_update_interval (update_interval : float) : M unit :=
  modify (with_update_interval update_interval).

(** ** The conversion API *)

(** [source == name], for an argument that may be [None]. *)
Definition source_is (source : option string) (name : string) : bool :=
  match source with
  | Some s => String.eqb s name
  | None => false
  end.

(** [source in d.keys()] *)
Definition source_in {V : Type} (source : option string) (d : dict V) : bool :=
  match source with
  | Some s => Dict.mem d s
  | None => false
  end.

(** [d[k]] *)
Definition subscript {V : Type} (d : dict V) (k : string) : result V :=
  match Dict.get d k with
  | Some v => Ok v
  | None => Raise KeyError
  end.

Definition invalid_source : exn :=
  Exception "Source name for exchange rate is not valid.".

Definition invalid_data_feed : exn := Exception "Data feed name not valid.".

(** [get_exchange_rate(source)] *)
Definition get_exchange_rate (source : option string) : M (dict pyval) :=
  all_exchange_rate <- gets _all_data_feed_exchange_rate ;;
  if source_is source "default" then
    if negb (Dict.mem all_exchange_rate DEFAULT_DATA_FEED_NAME) then
      logger ErrorDefaultFeedMissing ;;
      raise invalid_data_feed
    else lift (subscript all_exchange_rate DEFAULT_DATA_FEED_NAME)
  else if source_in source all_exchange_rate then
    match source with
    | Some name => lift (subscript all_exchange_rate name)
    | None => raise KeyError
    end
  else if source_is source "config" then gets _exchange_rate
  else raise invalid_source.

(** [adjust_token_rate(asset_name, price, source)] *)
Definition adjust_token_rate
  (asset_name : string) (price : float) (source : option string) : M float :=
  let asset_name := Str.upper asset_name in
  started <- gets _started ;;
  when (negb started) start ;;
  exchange_rate <- get_exchange_rate source ;;
  s <- gets (fun s => s) ;;
  if Dict.mem (conversion_required (_exchange_rate_config s)) asset_name
     && Dict.mem (_exchange_rate s) asset_name
  then
    rate <- lift (subscript exchange_rate asset_name) ;;
    lift (Py.mul rate price)
  else ret price.

Definition conversion_error (from_currency to_currency : string) : exn :=
  ValueError ("Unable to convert '" ++ from_currency ++ "' to '"
              ++ to_currency ++ "'. Aborting.").

(** [convert_token_value(amount, from_currency, to_currency, source)] *)
Definition convert_token_value
  (amount : float) (from_currency to_currency : string)
  (source : option string) : M float :=
  started <- gets _started ;;
  when (negb started) start ;;
  exchange_rate <- get_exchange_rate source ;;
  let from_currency := Str.upper from_currency in
  let to_currency := Str.upper to_currency in
  if String.eqb from_currency "ETH" && String.eqb to_currency "WETH"
     || String.eqb from_currency "WETH" && String.eqb to_currency "ETH"
  then ret amount
  else
    let from_currency_usd_rate :=
      Dict.get_default exchange_rate from_currency (VFloat NaN) in
    let to_currency_usd_rate :=
      Dict.get_default exchange_rate to_currency (VFloat NaN) in
    from_nan <- lift (Py.isnan from_currency_usd_rate) ;;
    any_nan <- (if from_nan then ret true
                else lift (Py.isnan to_currency_usd_rate)) ;;
    if any_nan then raise (conversion_error from_currency to_currency)
    else
      product <- lift (Py.rmul amount from_currency_usd_rate) ;;
      lift (Py.div product to_currency_usd_rate).

(** ** The polling loop *)

(** Lines 186 to 198: one asset of [global_config] against one feed.  The
    local variable [has_errors] is threaded through. *)
Definition refresh_asset (data_feed : DataFeed.t) (has_errors : bool)
  (item : string * pyval) : M bool :=
  let source_name := DataFeed.name data_feed in
  let asset_name := Str.upper (fst item) in
  let config := snd item in
  src <- lift (Py.getitem config "source") ;;
  src_lower <- lift (Py.lower src) ;;
  if String.eqb src_lower (Str.lower source_name) then
    let price := DataFeed.get_price data_feed asset_name in
    if Py.truthy price then
      modify (fun s =>
                with_exchange_rate
                  (Dict.set (_exchange_rate s) asset_name price) s) ;;
      ret has_errors
    else
      show <- gets _show_update_exchange_rates_from_data_feeds_errors ;;
      when show (logger (NetworkNoDataFound asset_name source_name)) ;;
      ret true
  else ret has_errors.

(** Lines 184 to 198: every asset of [global_config] against one feed.  An
    exception is reported under the name of the feed being visited, which is
    the value the variable [source_name] has in the handler of line 204, and
    raised again. *)
Definition refresh_feed (has_errors : bool) (data_feed : DataFeed.t)
  : M bool :=
  try_except
    (items <- gets (fun s => global_config (_exchange_rate_config s)) ;;
     for_fold items has_errors (refresh_asset data_feed))
    (fun e =>
       logger (WarningErrorGettingData (DataFeed.name data_feed)) ;;
       raise e).

(** [update_exchange_rates_from_data_feeds] *)
Definition update_exchange_rates_from_data_feeds : M unit :=
  feeds <- gets _data_feeds ;;
  for_each feeds
    (fun data_feed =>
       modify (fun s =>
                 with_all_data_feed_exchange_rate
                   (Dict.set (_all_data_feed_exchange_rate s)
                             (DataFeed.name data_feed)
                             (DataFeed.price_dict data_feed)) s)) ;;
  has_errors <- for_fold feeds false refresh_feed ;;
  when has_errors
    (modify (with_show_update_exchange_rates_from_data_feeds_errors false)).

(** Lines 209 to 214: waiting for one feed. *)
Definition await_ready (data_feed : DataFeed.t) : M unit :=
  match DataFeed.get_ready data_feed with
  | Ready => ret tt
  | TimedOut =>
      show <- gets _show_wait_till_ready_errors ;;
      when show
        (logger (WarningErrorInitializingDataFeed
                   (DataFeed.name data_feed)) ;;
         modify (with_show_wait_till_ready_errors false))
  | ReadyFailed e => raise e
  end.

(** [wait_till_ready] *)
Definition wait_till_ready : M unit :=
  feeds <- gets _data_feeds ;;
  for_each feeds await_ready.

(** One turn of the [while True] of [request_loop] (lines 218 to 225), up
    to the sleep.  The cancellation of the task by [stop] reaches the turn
    where it awaits a feed, as a [get_ready] that ends in [CancelledError];
    the first handler raises it again and every other exception is
    reported. *)
Definition request_loop_turn : M unit :=
  try_except
    (wait_till_ready ;;
     update_exchange_rates_from_data_feeds ;;
     modify (with_ready_notifier true))
    (fun e =>
       match e with
       | CancelledError => raise CancelledError
       | _ => logger ErrorSendingRequests
       end).

(* ===================================================================== *)
(** ** A process lifetime *)
(* ===================================================================== *)

(** The attributes as the class statement leaves them, for a given content
    of [global_config_map] and the two built-in feeds. *)
Definition initial (fetcher conversion : pyval)
  (coin_cap coin_gecko : DataFeed.t) : ExchangeRateConversion :=
  {| exchange_rate_fetcher := fetcher;
     exchange_rate_conversion := conversion;
     coin_cap_data_feed := coin_cap;
     coin_gecko_data_feed := coin_gecko;
     _erc_shared_instance := false;
     _exchange_rate_config_override := None;
     _data_feeds_override := None;
     _update_interval := 5%float;
     _data_feeds := [];
     _exchange_rate_config :=
       {| conversion_required := []; global_config := [] |};
     _exchange_rate := [];
     _all_data_feed_exchange_rate := [];
     _started := false;
     _ready_notifier := false;
     _show_update_exchange_rates_from_data_feeds_errors := true;
     _show_wait_till_ready_errors := true;
     _fetch_exchange_rate_task := false;
     log := [] |}.

(** What can happen to the class during a process lifetime: a call of one of
    its methods, or a change of what lies outside it (the configuration map
    is edited, the feeds fetch new prices or become ready). *)
Inductive op : Type :=
| GetInstance
| SetGlobalExchangeRateConfig (config : argument (dict pyval))
| SetDataFeeds (data_feeds : argument (list DataFeed.t))
| SetUpdateInterval (update_interval : float)
| InitConfig
| GetExchangeRate (source : option string)
| AdjustTokenRate (asset_name : string) (price : float)
    (source : option string)
| ConvertTokenValue (amount : float) (from_currency to_currency : string)
    (source : option string)
| UpdateExchangeRatesFromDataFeeds
| WaitTillReady
| RequestLoopTurn
| Start
| Stop
| Outside (fetcher conversion : pyval) (evolve : DataFeed.t -> DataFeed.t).

Definition outside (fetcher conversion : pyval)
  (evolve : DataFeed.t -> DataFeed.t) (s : ExchangeRateConversion)
  : ExchangeRateConversion :=
  with_exchange_rate_fetcher fetcher
    (with_exchange_rate_conversion conversion
       (with_coin_cap_data_feed (evolve (coin_cap_data_feed s))
          (with_coin_gecko_data_feed (evolve (coin_gecko_data_feed s))
             (with_data_feeds_override
                (option_map (map evolve) (_data_feeds_override s))
                (with_data_feeds (map evolve (_data_feeds s)) s))))).

(** The state after one operation, whether it returned or raised. *)
Definition run_op (o : op) (s : ExchangeRateConversion)
  : ExchangeRateConversion :=
  match o with
  | GetInstance => exec get_instance s
  | SetGlobalExchangeRateConfig config =>
      exec (set_global_exchange_rate_config config) s
  | SetDataFeeds data_feeds => exec (set_data_feeds data_feeds) s
  | SetUpdateInterval x => exec (set_update_interval x) s
  | InitConfig => exec init_config s
  | GetExchangeRate source => exec (get_exchange_rate source) s
  | AdjustTokenRate a p source => exec (adjust_token_rate a p source) s
  | ConvertTokenValue x f t source =>
      exec (convert_token_value x f t source) s
  | UpdateExchangeRatesFromDataFeeds =>
      exec update_exchange_rates_from_data_feeds s
  | WaitTillReady => exec wait_till_ready s
  | RequestLoopTurn => exec request_loop_turn s
  | Start => exec start s
  | Stop => exec stop s
  | Outside fetcher conversion evolve => outside fetcher conversion evolve s
  end.

(** The state after a sequence of operations, oldest first. *)
Definition run (ops : list op) (s : ExchangeRateConversion)
  : ExchangeRateConversion :=
  fold_left (fun s o => run_op o s) ops s.

(* ===================================================================== *)
(** ** Concrete feeds and configurations used in the examples *)
(* ===================================================================== *)

(** A feed that answers [get_price] from its snapshot, [VNone] standing
    for an absent asset. *)
Definition snapshot_feed (name : string) (prices : dict pyval)
  (ready : ready_outcome) : DataFeed.t :=
  {| DataFeed.name := name;
     DataFeed.price_dict := prices;
     DataFeed.get_price :=
       fun a => match Dict.get prices (Str.upper a) with
                | Some p => p
                | None => VNone
                end;
     DataFeed.get_ready := ready;
     DataFeed.started := false |}.

Definition coin_cap : DataFeed.t := snapshot_feed "coincap_api" [] Ready.
Definition coin_gecko : DataFeed.t := snapshot_feed "coin_gecko_api" [] Ready.

(** Scenario A of the specification, as written there: the default rate of
    USDT is the string ["1.0"]. *)
Definition scenario_fetcher : pyval :=
  VList [VList [VStr "BTC"; VStr "feedX"]].

Definition scenario_conversion : pyval :=
  VList [VList [VStr "USDT"; VStr "1.0"; VStr "feedX"]].

(** The same conversion list with the number [1.0] as default rate. *)
Definition scenario_conversion_numeric : pyval :=
  VList [VList [VStr "USDT"; VFloat 1%float; VStr "feedX"]].

Definition feedX (prices : dict pyval) : DataFeed.t :=
  snapshot_feed "feedX" prices Ready.

(** The class after import with the configuration of scenario A, the
    default rate being the number [1.0]. *)
Definition fresh : ExchangeRateConversion :=
  initial scenario_fetcher scenario_conversion_numeric coin_cap coin_gecko.

(** The same with the configuration exactly as scenario A writes it. *)
Definition fresh_as_written : ExchangeRateConversion :=
  initial scenario_fetcher scenario_conversion coin_cap coin_gecko.

(** The shared instance obtained and feedX installed as the only feed. *)
Definition configured (prices : dict pyval) : ExchangeRateConversion :=
  run [GetInstance; SetDataFeeds (Fresh [feedX prices])] fresh.

Definition good_prices : dict pyval :=
  [("BTC", VFloat 50000%float); ("USDT", VFloat 1%float)].

Definition zero_prices : dict pyval :=
  [("BTC", VFloat 0%float); ("USDT", VFloat 1%float)].

(** One cycle on good prices, after which feedX reports BTC at zero. *)
Definition zero_priced : ExchangeRateConversion :=
  run [UpdateExchangeRatesFromDataFeeds;
       Outside scenario_fetcher scenario_conversion_numeric
               (fun d => if String.eqb (DataFeed.name d) "feedX"
                         then feedX zero_prices else d)]
      (configured good_prices).

(** One completed cycle on good prices. *)
Definition refreshed_once : ExchangeRateConversion :=
  run [UpdateExchangeRatesFromDataFeeds] (configured good_prices).

(** A feed that is itself called ["config"], after one cycle. *)
Definition shadowed : ExchangeRateConversion :=
  run [GetInstance;
       SetDataFeeds
         (Fresh [snapshot_feed "config" [("X", VFloat 2%float)] Ready]);
       UpdateExchangeRatesFromDataFeeds] fresh.

(** USDT in the fetch list under feedY and in the conversion list under
    feedX. *)
Definition colliding : ExchangeRateConversion :=
  initial (VList [VList [VStr "usdt"; VStr "feedY"]])
          scenario_conversion_numeric coin_cap coin_gecko.

(** A conversion list whose only entry lacks its default and source. *)
Definition short_entry : ExchangeRateConversion :=
  initial scenario_fetcher (VList [VList [VStr "USDT"]]) coin_cap coin_gecko.

(** A conversion list with [default] as the default rate of USDT, and no
    fetch list. *)
Definition worded_default (default : pyval) : ExchangeRateConversion :=
  initial VNone (VList [VList [VStr "USDT"; default; VStr "feedX"]])
          coin_cap coin_gecko.

(** After a cycle on good prices, the conversion list is edited so that the
    default rate of USDT is the word ["abc"]. *)
Definition reworded : ExchangeRateConversion :=
  run [Outside scenario_fetcher
               (VList [VList [VStr "USDT"; VStr "abc"; VStr "feedX"]])
               (fun d => d)]
      refreshed_once.

(** An override whose only [global_config] entry has no default rate. *)
Definition headless : dict pyval :=
  [("conversion_required", VDict []);
   ("global_config", VDict [("ETH", VDict [("source", VStr "feedX")])])].

(** feedX installed with an empty snapshot: it serves neither BTC nor
    USDT. *)
Definition unserved : ExchangeRateConversion := configured [].

(** Two feeds that both time out. *)
Definition sluggish : ExchangeRateConversion :=
  run [GetInstance;
       SetDataFeeds
         (Fresh [snapshot_feed "feedX" [] TimedOut;
                 snapshot_feed "feedY" [] TimedOut])] fresh.

(* ===================================================================== *)
(** ** The vocabulary of the properties *)
(* ===================================================================== *)

(** A dictionary holds each key once. *)
Definition wf_dict {V : Type} (d : dict V) : Prop := NoDup (Dict.keys d).

(** The property [P] of the state survives the method [c], whether it
    returns or raises. *)
Definition stable {A : Type} (P : ExchangeRateConversion -> Prop) (c : M A)
  : Prop :=
  forall s, P s -> P (exec c s).

(** The feeds line 81 or 83 assigns. *)
Definition chosen_feeds (s : ExchangeRateConversion) : list DataFeed.t :=
  match _data_feeds_override s with
  | None => [coin_cap_data_feed s; coin_gecko_data_feed s]
  | Some feeds => feeds
  end.

(** The mappings line 99 assigns, from what lines 85 to 98 computed. *)
Definition committed (cfg : dict pyval * dict pyval) : Config :=
  {| conversion_required := fst cfg;
     global_config := Dict.update (snd cfg) (fst cfg) |}.

(** [global_config] holds every entry of [conversion_required]. *)
Definition overlay (c : Config) : Prop :=
  forall k v,
    Dict.get (conversion_required c) k = Some v ->
    Dict.get (global_config c) k = Some v.

Definition overlay_state (s : ExchangeRateConversion) : Prop :=
  overlay (_exchange_rate_config s).

(** The entry has a default rate to read on line 103. *)
Definition has_default (entry : pyval) : Prop :=
  exists d, Py.getitem entry "default" = Ok d.

(** Line 103, entry by entry. *)
Definition default_item (kv : string * pyval) : result (string * pyval) :=
  let? d := Py.getitem (snd kv) "default" in Ok (fst kv, d).

(** The state in which [get_exchange_rate] runs inside [adjust_token_rate]
    and [convert_token_value]: the polling loop has been started if it was
    not. *)
Definition awake (s : ExchangeRateConversion) : ExchangeRateConversion :=
  if _started s then s else exec start s.

(** The pair that line 170 takes to be of equal value. *)
Definition eth_weth (from_currency to_currency : string) : bool :=
  String.eqb from_currency "ETH" && String.eqb to_currency "WETH"
  || String.eqb from_currency "WETH" && String.eqb to_currency "ETH".

(** Lines 172 to 176 on a resolved table. *)
Definition converted (exchange_rate : dict pyval) (amount : float)
  (from_currency to_currency : string) : result float :=
  let from_rate := Dict.get_default exchange_rate from_currency (VFloat NaN) in
  let to_rate := Dict.get_default exchange_rate to_currency (VFloat NaN) in
  let? from_nan := Py.isnan from_rate in
  let? any_nan := (if from_nan then Ok true else Py.isnan to_rate) in
  if any_nan then Raise (conversion_error from_currency to_currency)
  else let? product := Py.rmul amount from_rate in Py.div product to_rate.

(** Line 187: the configured source names the feed, whatever the case. *)
Definition source_matches (data_feed : DataFeed.t) (config : pyval) : bool :=
  match Py.getitem config "source" with
  | Ok (VStr src) =>
      String.eqb (Str.lower src) (Str.lower (DataFeed.name data_feed))
  | _ => false
  end.

(** The price line 188 obtains for an item of [global_config]. *)
Definition price_of (data_feed : DataFeed.t) (item : string * pyval)
  : pyval :=
  DataFeed.get_price data_feed (Str.upper (fst item)).

(** The item is served by the feed: line 190 runs. *)
Definition found (data_feed : DataFeed.t) (item : string * pyval) : bool :=
  source_matches data_feed (snd item) && Py.truthy (price_of data_feed item).

(** The item is asked of the feed and not served: lines 192 to 198 run. *)
Definition missed (data_feed : DataFeed.t) (item : string * pyval) : bool :=
  source_matches data_feed (snd item)
  && negb (Py.truthy (price_of data_feed item)).

Definition rates_after_item (data_feed : DataFeed.t) (rates : dict pyval)
  (item : string * pyval) : dict pyval :=
  if found data_feed item
  then Dict.set rates (Str.upper (fst item)) (price_of data_feed item)
  else rates.

Definition rates_after_feed (items : dict pyval) (rates : dict pyval)
  (data_feed : DataFeed.t) : dict pyval :=
  fold_left (rates_after_item data_feed) items rates.

(** The merged rates after the loops of lines 183 to 198. *)
Definition rates_after (feeds : list DataFeed.t) (items : dict pyval)
  (rates : dict pyval) : dict pyval :=
  fold_left (rates_after_feed items) feeds rates.

(** The reports of lines 193 to 197, in the order of the visits. *)
Definition misses_of_feed (items : dict pyval) (data_feed : DataFeed.t)
  : list log_entry :=
  flat_map
    (fun item =>
       if missed data_feed item
       then [NetworkNoDataFound (Str.upper (fst item))
                                (DataFeed.name data_feed)]
       else [])
    items.

Definition misses (feeds : list DataFeed.t) (items : dict pyval)
  : list log_entry :=
  flat_map (misses_of_feed items) feeds.

(** The snapshots after the loop of lines 181 and 182. *)
Definition snapshots_after (feeds : list DataFeed.t)
  (snapshots : dict (dict pyval)) : dict (dict pyval) :=
  fold_left
    (fun acc d => Dict.set acc (DataFeed.name d) (DataFeed.price_dict d))
    feeds snapshots.

(** Every entry names its source by a string, so line 187 cannot raise. *)
Definition sources_typed (items : dict pyval) : Prop :=
  forall k config,
    In (k, config) items ->
    exists src, Py.getitem config "source" = Ok (VStr src).

(** [global_config] as [init_config] leaves it: each key once, in upper
    case. *)
Definition keys_normal (items : dict pyval) : Prop :=
  wf_dict items /\ forall k, In k (Dict.keys items) -> Str.upper k = k.

Definition nonempty {A : Type} (l : list A) : bool :=
  match l with [] => false | _ => true end.

(** The state with new merged rates and a longer log. *)
Definition refreshed (rates : dict pyval) (reports : list log_entry)
  (s : ExchangeRateConversion) : ExchangeRateConversion :=
  with_log (log s ++ reports) (with_exchange_rate rates s).

(** The reports a cycle adds: its misses, unless they are suppressed. *)
Definition shown (s : ExchangeRateConversion) (reports : list log_entry)
  : list log_entry :=
  if _show_update_exchange_rates_from_data_feeds_errors s
  then reports else [].

(** The state a completed cycle leaves. *)
Definition cycled (s : ExchangeRateConversion) : ExchangeRateConversion :=
  let feeds := _data_feeds s in
  let items := global_config (_exchange_rate_config s) in
  let s1 :=
    refreshed (rates_after feeds items (_exchange_rate s))
      (shown s (misses feeds items))
      (with_all_data_feed_exchange_rate
         (snapshots_after feeds (_all_data_feed_exchange_rate s)) s) in
  if nonempty (misses feeds items)
  then with_show_update_exchange_rates_from_data_feeds_errors false s1
  else s1.

Definition normal_state (s : ExchangeRateConversion) : Prop :=
  keys_normal (global_config (_exchange_rate_config s)).

Definition is_timeout_report (e : log_entry) : bool :=
  match e with WarningErrorInitializingDataFeed _ => true | _ => false end.

Definition is_miss_report (e : log_entry) : bool :=
  match e with NetworkNoDataFound _ _ => true | _ => false end.

(** The readiness-timeout reports made so far. *)
Definition timeout_reports (s : ExchangeRateConversion) : list log_entry :=
  filter is_timeout_report (log s).

(** The lookup-miss reports made so far. *)
Definition miss_reports (s : ExchangeRateConversion) : list log_entry :=
  filter is_miss_report (log s).

(** The first feed that times out, unless a feed fails before it. *)
Fixpoint first_timeout (feeds : list DataFeed.t) : option string :=
  match feeds with
  | [] => None
  | d :: feeds' =>
      match DataFeed.get_ready d with
      | Ready => first_timeout feeds'
      | TimedOut => Some (DataFeed.name d)
      | ReadyFailed _ => None
      end
  end.

Definition timeout_report (feeds : list DataFeed.t) : list log_entry :=
  match first_timeout feeds with
  | Some name => [WarningErrorInitializingDataFeed name]
  | None => []
  end.

(** The timeout flag is down and the timeout reports are [reports]. *)
Definition timeouts_muted (reports : list log_entry)
  (s : ExchangeRateConversion) : Prop :=
  _show_wait_till_ready_errors s = false /\ timeout_reports s = reports.

(** The miss flag is down and the miss reports are [reports]. *)
Definition misses_muted (reports : list log_entry)
  (s : ExchangeRateConversion) : Prop :=
  _show_update_exchange_rates_from_data_feeds_errors s = false
  /\ miss_reports s = reports.

(** No timeout report while the flag is up, exactly one once it is down. *)
Definition timeout_once (s : ExchangeRateConversion) : Prop :=
  length (timeout_reports s)
  = if _show_wait_till_ready_errors s then 0 else 1.

(** Whether a table entry is the float zero. *)
Definition is_zero_rate (entry : option pyval) : bool :=
  match entry with
  | Some (VFloat x) => PrimFloat.eqb x 0%float
  | _ => false
  end.

(* ===================================================================== *)
(** ** The vocabulary of the further properties *)
(* ===================================================================== *)

(** What the conversion API reads and the polling loop writes: the resolved
    configuration, the merged rates, the snapshots and the two flags. *)
Definition cache (s : ExchangeRateConversion)
  : Config * dict pyval * dict (dict pyval) * bool * bool :=
  (_exchange_rate_config s, _exchange_rate s, _all_data_feed_exchange_rate s,
   _show_update_exchange_rates_from_data_feeds_errors s,
   _show_wait_till_ready_errors s).

(** The entry names its source by a string, so line 187 does not raise. *)
Definition source_typed (config : pyval) : bool :=
  match Py.getitem config "source" with
  | Ok (VStr _) => true
  | _ => false
  end.

(** The feed's [get_ready()] ends in an exception other than a timeout. *)
Definition ready_fails (d : DataFeed.t) : bool :=
  match DataFeed.get_ready d with
  | ReadyFailed _ => true
  | _ => false
  end.

(** The exception of the first feed whose [get_ready()] fails. *)
Fixpoint first_failure (feeds : list DataFeed.t) : option exn :=
  match feeds with
  | [] => None
  | d :: feeds' =>
      match DataFeed.get_ready d with
      | ReadyFailed e => Some e
      | _ => first_failure feeds'
      end
  end.

(** The feed is called [name]. *)
Definition named (name : string) (d : DataFeed.t) : bool :=
  String.eqb (DataFeed.name d) name.

(** The shared instance obtained with a conversion list that gives BTC the
    default rate [0.0]. *)
Definition zero_cycled : ExchangeRateConversion :=
  run [GetInstance]
      (initial VNone
         (VList [VList [VStr "USDT"; VFloat 1%float; VStr "feedX"];
                 VList [VStr "BTC"; VFloat 0%float; VStr "feedX"]])
         coin_cap coin_gecko).

(** A cycle in which feedX reports nothing for USDT. *)
Definition partly_served : ExchangeRateConversion :=
  run [UpdateExchangeRatesFromDataFeeds]
      (configured [("BTC", VFloat 50000%float)]).

(** The only feed installed is not the one the configuration names. *)
Definition mismatched : ExchangeRateConversion :=
  run [GetInstance;
       SetDataFeeds (Fresh [snapshot_feed "feedY" good_prices Ready])]
      fresh.

(** [conversion_required] has each key once, in upper case. *)
Definition required_state (s : ExchangeRateConversion) : Prop :=
  keys_normal (conversion_required (_exchange_rate_config s)).

(** An override that names USDT only, installed on the shared instance. *)
Definition overridden : ExchangeRateConversion :=
  run [GetInstance;
       SetGlobalExchangeRateConfig
         (Fresh [("conversion_required",
                  VDict [("usdt", VDict [("default", VFloat 1%float);
                                         ("source", VStr "feedX")])])])]
      fresh.

(** A fetch list whose only entry lacks its source, and no conversion
    list. *)
Definition short_fetch : ExchangeRateConversion :=
  initial (VList [VList [VStr "BTC"]]) VNone coin_cap coin_gecko.

(** feedX times out and the feed after it fails with an exception. *)
Definition broken_feed : ExchangeRateConversion :=
  run [GetInstance;
       SetDataFeeds
         (Fresh [snapshot_feed "feedX" [] TimedOut;
                 snapshot_feed "feedY" [] (ReadyFailed TypeError)])]
      fresh.

(** An override whose [global_config] entry for ETH names no source,
    installed with feedX as the only feed. *)
Definition sourceless : ExchangeRateConversion :=
  run [GetInstance; SetDataFeeds (Fresh [feedX good_prices]);
       SetGlobalExchangeRateConfig
         (Fresh [("global_config",
                  VDict [("BTC", VDict [("default", VFloat NaN);
                                        ("source", VStr "feedX")]);
                         ("ETH", VDict [("default", VFloat NaN)])])])]
      fresh.

(** The readiness notifier is set. *)
Definition notified (s : ExchangeRateConversion) : Prop :=
  _ready_notifier s = true.

(** Two feeds answer to the source feedX: the first serves BTC, the
    second, spelled in upper case, has no price for it. *)
Definition two_feeds : ExchangeRateConversion :=
  run [GetInstance;
       SetDataFeeds
         (Fresh [snapshot_feed "feedX" good_prices Ready;
                 snapshot_feed "FEEDX" [] Ready])]
      fresh.

(** The entries a comprehension of lines 91 and 92 runs over:
    [for e in (value or [])]. *)
Definition entries (value : pyval) : result (list pyval) :=
  Py.iter (Py.or_ value (VList [])).

(** Two entries in each list, with asset names in lower case among
    them. *)
Definition two_entries : ExchangeRateConversion :=
  initial
    (VList [VList [VStr "BTC"; VStr "feedX"];
            VList [VStr "eth"; VStr "feedX"]])
    (VList [VList [VStr "USDT"; VStr "1.0"; VStr "feedX"];
            VList [VStr "dai"; VFloat 1%float; VStr "feedX"]])
    coin_cap coin_gecko.

(** How the two handlers of [request_loop] (lines 222 to 225) leave an
    exception [e] raised in state [s]. *)
Definition handled (e : exn) (s : ExchangeRateConversion)
  : result unit * ExchangeRateConversion :=
  match e with
  | CancelledError => (Raise CancelledError, s)
  | _ => (Ok tt, with_log (log s ++ [ErrorSendingRequests]) s)
  end.

(** A method that never ends in a cancellation. *)
Definition uncancelled {A : Type} (c : M A) : Prop :=
  forall s, fst (c s) <> Raise CancelledError.

(** The polling task is cancelled while it waits for feedX. *)
Definition cancelled : ExchangeRateConversion :=
  run [GetInstance;
       SetDataFeeds
         (Fresh [snapshot_feed "feedX" [] (ReadyFailed CancelledError)])]
      fresh.

(* ===================================================================== *)
(** * Properties *)
(* ===================================================================== *)

(** ** Facts about strings *)

Lemma upper_ascii_idem (c : ascii) :
  Str.upper_ascii (Str.upper_ascii c) = Str.upper_ascii c.
Proof.
  destruct c as [[] [] [] [] [] [] [] []]; reflexivity.
Qed.

Lemma upper_idem (s : string) : Str.upper (Str.upper s) = Str.upper s.
Proof.
  unfold Str.upper.
  induction s as [|c s IH]; simpl; [reflexivity|].
  now rewrite upper_ascii_idem, IH.
Qed.

(** ** Facts about dictionaries *)

Section DictFacts.
Variable V : Type.
Implicit Types (d : dict V) (k : string) (v : V)
  (items : list (string * V)).

Lemma get_set_eq d k v : Dict.get (Dict.set d k v) k = Some v.
Proof.
  induction d as [|[k' v'] d IH]; simpl.
  - now rewrite String.eqb_refl.
  - destruct (String.eqb k k') eqn:E; simpl; rewrite E; auto.
Qed.

Lemma get_set_neq d k k' v :
  k <> k' -> Dict.get (Dict.set d k' v) k = Dict.get d k.
Proof.
  intros N. induction d as [|[k0 v0] d IH]; simpl.
  - apply String.eqb_neq in N. now rewrite N.
  - destruct (String.eqb k' k0) eqn:E; simpl.
    + apply String.eqb_eq in E. subst k0.
      apply String.eqb_neq in N. now rewrite N.
    + now rewrite IH.
Qed.

Lemma get_none_keys d k : Dict.get d k = None <-> ~ In k (Dict.keys d).
Proof.
  induction d as [|[k' v'] d IH]; simpl.
  - tauto.
  - destruct (String.eqb k k') eqn:E.
    + apply String.eqb_eq in E. subst. split; [discriminate | tauto].
    + apply String.eqb_neq in E. rewrite IH. intuition congruence.
Qed.

Lemma get_some_in d k v : Dict.get d k = Some v -> In (k, v) d.
Proof.
  induction d as [|[k' v'] d IH]; simpl; [discriminate|].
  destruct (String.eqb k k') eqn:E.
  - apply String.eqb_eq in E. intros [= ->]. subst. now left.
  - auto.
Qed.

Lemma mem_true_get d k :
  Dict.mem d k = true <-> exists v, Dict.get d k = Some v.
Proof.
  unfold Dict.mem. destruct (Dict.get d k).
  - split; eauto.
  - split; [discriminate | intros [v [=]]].
Qed.

Lemma mem_false_get d k : Dict.mem d k = false <-> Dict.get d k = None.
Proof.
  unfold Dict.mem. destruct (Dict.get d k); split; congruence.
Qed.

Lemma set_fresh d k v :
  ~ In k (Dict.keys d) -> Dict.set d k v = d ++ [(k, v)].
Proof.
  induction d as [|[k' v'] d IH]; simpl; intros N; [reflexivity|].
  destruct (String.eqb k k') eqn:E.
  - apply String.eqb_eq in E. subst. tauto.
  - rewrite IH; tauto.
Qed.

Lemma keys_set_present d k v :
  In k (Dict.keys d) -> Dict.keys (Dict.set d k v) = Dict.keys d.
Proof.
  induction d as [|[k' v'] d IH]; simpl; intros I; [tauto|].
  destruct (String.eqb k k') eqn:E; simpl; [reflexivity|].
  apply String.eqb_neq in E. rewrite IH; [reflexivity|].
  destruct I; congruence.
Qed.

Lemma wf_set d k v : wf_dict d -> wf_dict (Dict.set d k v).
Proof.
  unfold wf_dict. intros W.
  destruct (in_dec string_dec k (Dict.keys d)) as [I|N].
  - now rewrite keys_set_present.
  - rewrite set_fresh by assumption. unfold Dict.keys in *.
    rewrite map_app. simpl.
    apply NoDup_app; [assumption | repeat constructor; simpl; tauto |].
    intros x Hx [<-|[]]. contradiction.
Qed.

Lemma wf_update d items : wf_dict d -> wf_dict (Dict.update d items).
Proof.
  unfold Dict.update. revert d.
  induction items as [|[k v] items IH]; simpl; intros d W; [assumption|].
  apply IH, wf_set, W.
Qed.

Lemma wf_of_items items : wf_dict (Dict.of_items items).
Proof. apply wf_update. constructor. Qed.

(** [{**d, **items}]: the entries of [items] win. *)
Lemma get_update d items k :
  wf_dict items ->
  Dict.get (Dict.update d items) k =
  match Dict.get items k with
  | Some v => Some v
  | None => Dict.get d k
  end.
Proof.
  unfold Dict.update, wf_dict. revert d.
  induction items as [|[k1 v1] items IH]; simpl; intros d W; [reflexivity|].
  inversion W as [|? ? N W']; subst.
  rewrite IH by assumption.
  destruct (String.eqb k k1) eqn:E.
  - apply String.eqb_eq in E. subst k1.
    apply get_none_keys in N. rewrite N. apply get_set_eq.
  - apply String.eqb_neq in E.
    destruct (Dict.get items k); [reflexivity|].
    now apply get_set_neq.
Qed.

Lemma in_set d k v k' v' :
  In (k, v) (Dict.set d k' v') -> In (k, v) d \/ (k, v) = (k', v').
Proof.
  induction d as [|[k0 v0] d IH]; simpl.
  - intros [E|[]]. right. congruence.
  - destruct (String.eqb k' k0) eqn:E; simpl.
    + apply String.eqb_eq in E. subst k0.
      intros [H|H]; [right; congruence | auto].
    + intros [H|H]; [auto|]. apply IH in H. tauto.
Qed.

Lemma in_update d items k v :
  In (k, v) (Dict.update d items) -> In (k, v) d \/ In (k, v) items.
Proof.
  unfold Dict.update. revert d.
  induction items as [|[k1 v1] items IH]; simpl; intros d H; [auto|].
  apply IH in H. destruct H as [H|H]; [|auto].
  apply in_set in H. destruct H as [H|H]; [auto|].
  right. left. congruence.
Qed.

Lemma update_fresh d items :
  wf_dict (d ++ items) -> Dict.update d items = d ++ items.
Proof.
  unfold Dict.update, wf_dict, Dict.keys. revert d.
  induction items as [|[k v] items IH]; simpl; intros d W.
  - now rewrite app_nil_r.
  - rewrite map_app in W. simpl in W.
    assert (N : ~ In k (map fst d)).
    { apply NoDup_remove_2 in W. intro I. apply W, in_or_app. now left. }
    rewrite set_fresh by exact N.
    rewrite IH; rewrite <- app_assoc; simpl; [reflexivity|].
    rewrite map_app. simpl. exact W.
Qed.

(** A comprehension over items with distinct keys is the list itself. *)
Lemma of_items_wf items : wf_dict items -> Dict.of_items items = items.
Proof. intros W. unfold Dict.of_items. now rewrite update_fresh. Qed.

End DictFacts.

(** ** Properties kept by a method, whether it returns or raises *)

Section Stable.
Variable P : ExchangeRateConversion -> Prop.

Lemma stable_ret {A : Type} (a : A) : stable P (ret a).
Proof. intros s H. exact H. Qed.

Lemma stable_raise {A : Type} (e : exn) : stable P (@raise A e).
Proof. intros s H. exact H. Qed.

Lemma stable_lift {A : Type} (r : result A) : stable P (lift r).
Proof. intros s H. exact H. Qed.

Lemma stable_gets {A : Type} (f : ExchangeRateConversion -> A) :
  stable P (gets f).
Proof. intros s H. exact H. Qed.

Lemma stable_modify f : (forall s, P s -> P (f s)) -> stable P (modify f).
Proof. intros Hf s H. apply Hf, H. Qed.

Lemma stable_bind {A B : Type} (c : M A) (k : A -> M B) :
  stable P c -> (forall a, stable P (k a)) -> stable P (bind c k).
Proof.
  intros Hc Hk s H. unfold exec, bind. specialize (Hc s H).
  unfold exec in Hc. destruct (c s) as [[a|e] s']; simpl in *.
  - apply Hk, Hc.
  - exact Hc.
Qed.

Lemma stable_try_except {A : Type} (c : M A) (h : exn -> M A) :
  stable P c -> (forall e, stable P (h e)) -> stable P (try_except c h).
Proof.
  intros Hc Hh s H. unfold exec, try_except. specialize (Hc s H).
  unfold exec in Hc. destruct (c s) as [[a|e] s']; simpl in *.
  - exact Hc.
  - apply Hh, Hc.
Qed.

Lemma stable_when (b : bool) (c : M unit) : stable P c -> stable P (when b c).
Proof. intros Hc. destruct b; [exact Hc | apply stable_ret]. Qed.

Lemma stable_for_each {A : Type} (l : list A) (body : A -> M unit) :
  (forall x, stable P (body x)) -> stable P (for_each l body).
Proof.
  intros Hb. induction l as [|x l IH]; simpl.
  - apply stable_ret.
  - apply stable_bind; auto.
Qed.

Lemma stable_for_fold {A B : Type} (l : list A) (acc : B)
  (body : B -> A -> M B) :
  (forall b x, stable P (body b x)) -> stable P (for_fold l acc body).
Proof.
  intros Hb. revert acc. induction l as [|x l IH]; simpl; intros acc.
  - apply stable_ret.
  - apply stable_bind; auto.
Qed.

Lemma stable_logger (e : log_entry) :
  (forall s, P s -> P (with_log (log s ++ [e]) s)) -> stable P (logger e).
Proof. intros H. apply stable_modify. exact H. Qed.

End Stable.

(** Splits a method along its control flow, leaving one goal per
    assignment. *)
Ltac stable_step :=
  lazymatch goal with
  | |- stable _ (bind _ _) => apply stable_bind; [|intros ?]
  | |- stable _ (ret _) => apply stable_ret
  | |- stable _ (raise _) => apply stable_raise
  | |- stable _ (lift _) => apply stable_lift
  | |- stable _ (gets _) => apply stable_gets
  | |- stable _ (try_except _ _) => apply stable_try_except; [|intros ?]
  | |- stable _ (when _ _) => apply stable_when
  | |- stable _ (for_each _ _) => apply stable_for_each; intros ?
  | |- stable _ (for_fold _ _ _) => apply stable_for_fold; intros ? ?
  | |- stable _ (logger _) => apply stable_logger; intros ? ?
  | |- stable _ (modify _) => apply stable_modify; intros ? ?
  | |- stable _ (if ?b then _ else _) => destruct b
  | |- stable _ (match ?x with _ => _ end) => destruct x
  | |- stable _ (refresh_asset _ _ _) => unfold refresh_asset
  | |- stable _ (await_ready _) => unfold await_ready
  end.

Ltac stable_split := repeat stable_step.

(** ** What [init_config] does, case by case *)

Lemma init_config_failed s e :
  resolve s = Raise e ->
  init_config s =
  (Ok tt, with_log (log s ++ [ErrorInitiatingConfig])
            (with_data_feeds (chosen_feeds s) s)).
Proof.
  intros R. unfold init_config, try_except, bind, gets, modify, lift.
  simpl. rewrite R. reflexivity.
Qed.

Lemma init_config_half s cfg e :
  resolve s = Ok cfg ->
  default_rates (global_config (committed cfg)) = Raise e ->
  init_config s =
  (Ok tt, with_log (log s ++ [ErrorInitiatingConfig])
            (with_exchange_rate_config (committed cfg)
               (with_data_feeds (chosen_feeds s) s))).
Proof.
  intros R D. unfold init_config, try_except, bind, gets, modify, lift.
  simpl. rewrite R. simpl. unfold committed in D. simpl in D. rewrite D.
  reflexivity.
Qed.

Lemma init_config_done s cfg rates :
  resolve s = Ok cfg ->
  default_rates (global_config (committed cfg)) = Ok rates ->
  init_config s =
  (Ok tt, with_exchange_rate rates
            (with_exchange_rate_config (committed cfg)
               (with_data_feeds (chosen_feeds s) s))).
Proof.
  intros R D. unfold init_config, try_except, bind, gets, modify, lift.
  simpl. rewrite R. simpl. unfold committed in D. simpl in D. rewrite D.
  reflexivity.
Qed.

(** [init_config] returns normally on every input. *)
Lemma init_config_returns s : outcome init_config s = Ok tt.
Proof.
  unfold outcome. destruct (resolve s) as [cfg|e] eqn:R.
  - destruct (default_rates (global_config (committed cfg))) eqn:D.
    + now rewrite (init_config_done _ R D).
    + now rewrite (init_config_half _ R D).
  - now rewrite (init_config_failed _ R).
Qed.

(** ** The overlay of the two mappings *)

Lemma upper_keys_wf d r : upper_keys d = Ok r -> wf_dict r.
Proof.
  unfold upper_keys. destruct (Py.items d) as [its|e]; simpl; [|discriminate].
  intros [= <-]. apply wf_of_items.
Qed.

Lemma resolve_wf s cfg :
  resolve s = Ok cfg -> wf_dict (fst cfg) /\ wf_dict (snd cfg).
Proof.
  unfold resolve. cbv zeta.
  match goal with |- rbind ?r _ = _ -> _ => destruct r as [raw|e] end;
    simpl; [|discriminate].
  destruct (upper_keys (snd raw)) as [g|e] eqn:G; simpl; [|discriminate].
  destruct (upper_keys (fst raw)) as [c|e] eqn:C; simpl; [|discriminate].
  intros [= <-]. simpl. split; eapply upper_keys_wf; eassumption.
Qed.

Lemma committed_overlay cfg : wf_dict (fst cfg) -> overlay (committed cfg).
Proof.
  intros W k v H. simpl in *. rewrite get_update by assumption.
  now rewrite H.
Qed.

Lemma committed_wf cfg :
  wf_dict (snd cfg) -> wf_dict (global_config (committed cfg)).
Proof. intros W. simpl. now apply wf_update. Qed.

Lemma init_config_overlay :
  stable (fun s => overlay (_exchange_rate_config s)) init_config.
Proof.
  intros s H. unfold exec.
  destruct (resolve s) as [cfg|e] eqn:R.
  - pose proof (resolve_wf _ R) as [Wc _].
    destruct (default_rates (global_config (committed cfg))) eqn:D.
    + rewrite (init_config_done _ R D). simpl. now apply committed_overlay.
    + rewrite (init_config_half _ R D). simpl. now apply committed_overlay.
  - rewrite (init_config_failed _ R). simpl. exact H.
Qed.

(** Unfolds the methods down to [init_config] and the assignments. *)
Ltac unfold_methods :=
  unfold get_instance, __init__, set_global_exchange_rate_config,
    set_data_feeds, set_update_interval, get_exchange_rate,
    adjust_token_rate, convert_token_value,
    update_exchange_rates_from_data_feeds, refresh_feed,
    wait_till_ready, request_loop_turn, start, stop.

Ltac stable_methods known :=
  repeat first [ known | progress unfold_methods | progress cbv zeta
               | stable_step ].

(** Turns a goal about [run_op] into one goal per method. *)
Ltac by_method P :=
  lazymatch goal with
  | |- forall s, P s -> P (exec ?c s) => change (stable P c)
  end.

Lemma run_op_overlay o s : overlay_state s -> overlay_state (run_op o s).
Proof.
  revert s. destruct o; simpl run_op;
    try (by_method overlay_state;
         stable_methods ltac:(apply init_config_overlay);
         simpl; auto; fail).
  intros s H. exact H.
Qed.

Lemma run_overlay ops s : overlay_state s -> overlay_state (run ops s).
Proof.
  unfold run. revert s.
  induction ops as [|o ops IH]; simpl; intros s H; [exact H|].
  apply IH, run_op_overlay, H.
Qed.

(** ** Default rates *)

Lemma rmap_ok_inv {A B : Type} (f : A -> result B) x l ys :
  rmap f (x :: l) = Ok ys ->
  exists y ys', f x = Ok y /\ rmap f l = Ok ys' /\ ys = y :: ys'.
Proof.
  simpl. destruct (f x) as [y|e]; simpl; [|discriminate].
  destruct (rmap f l) as [ys'|e]; simpl; [|discriminate].
  intros [= <-]. eauto.
Qed.

Lemma rmap_in {A B : Type} (f : A -> result B) l ys y :
  rmap f l = Ok ys -> In y ys -> exists x, In x l /\ f x = Ok y.
Proof.
  revert ys. induction l as [|x l IH]; intros ys H I.
  - simpl in H. injection H as <-. destruct I.
  - apply rmap_ok_inv in H. destruct H as (y0 & ys' & Hx & Hl & ->).
    destruct I as [<-|I].
    + exists x. split; [now left | assumption].
    + destruct (IH _ Hl I) as (x' & Hin & Hf).
      exists x'. split; [now right | assumption].
Qed.

Lemma rmap_total {A B : Type} (f : A -> result B) l :
  (forall x, In x l -> exists y, f x = Ok y) -> exists ys, rmap f l = Ok ys.
Proof.
  induction l as [|x l IH]; intros H; simpl.
  - eauto.
  - destruct (H x (or_introl eq_refl)) as [y ->].
    destruct IH as [ys ->]; [intros; apply H; now right|].
    simpl. eauto.
Qed.

Lemma default_items_keys g its :
  rmap default_item g = Ok its -> Dict.keys its = Dict.keys g.
Proof.
  revert its. induction g as [|[k v] g IH]; intros its H.
  - simpl in H. now injection H as <-.
  - apply rmap_ok_inv in H. destruct H as (y & ys & Hx & Hl & ->).
    unfold default_item in Hx. simpl in Hx.
    destruct (Py.getitem v "default"); simpl in Hx; [|discriminate].
    injection Hx as <-. simpl. f_equal. now apply IH.
Qed.

Lemma default_items_get g its k entry :
  rmap default_item g = Ok its ->
  Dict.get g k = Some entry ->
  exists d, Py.getitem entry "default" = Ok d /\ Dict.get its k = Some d.
Proof.
  revert its. induction g as [|[k' v] g IH]; intros its H G.
  - discriminate.
  - apply rmap_ok_inv in H. destruct H as (y & ys & Hx & Hl & ->).
    unfold default_item in Hx. simpl in Hx.
    destruct (Py.getitem v "default") as [d|] eqn:D; simpl in Hx;
      [|discriminate].
    injection Hx as <-. simpl in *.
    destruct (String.eqb k k').
    + injection G as <-. eauto.
    + eauto.
Qed.

Lemma default_rates_get g rates k entry :
  wf_dict g ->
  default_rates g = Ok rates ->
  Dict.get g k = Some entry ->
  exists d, Py.getitem entry "default" = Ok d /\ Dict.get rates k = Some d.
Proof.
  intros W H G. unfold default_rates in H.
  change (rmap _ g) with (rmap default_item g) in H.
  destruct (rmap default_item g) as [its|e] eqn:R; simpl in H;
    [|discriminate].
  injection H as <-.
  rewrite of_items_wf.
  - eapply default_items_get; eassumption.
  - unfold wf_dict. now rewrite (default_items_keys _ R).
Qed.

Lemma default_rates_total g :
  (forall k v, In (k, v) g -> has_default v) ->
  exists rates, default_rates g = Ok rates.
Proof.
  intros H. unfold default_rates.
  change (rmap _ g) with (rmap default_item g).
  destruct (rmap_total default_item g) as [its ->].
  - intros [k v] I. destruct (H _ _ I) as [d D].
    unfold default_item. simpl. rewrite D. simpl. eauto.
  - simpl. eauto.
Qed.

(** ** The entries built from the configuration lists *)

Lemma upper_keys_in items r k v :
  upper_keys (VDict (Dict.of_items items)) = Ok r ->
  In (k, v) r -> exists k0, In (k0, v) items.
Proof.
  unfold upper_keys. simpl. intros [= <-] I.
  apply in_update in I. destruct I as [[]|I].
  apply in_map_iff in I. destruct I as ([k0 v0] & E & I).
  simpl in E. injection E as _ ->.
  apply in_update in I. destruct I as [[]|I]. eauto.
Qed.

Lemma conversion_item_default e k v :
  conversion_item e = Ok (k, v) -> has_default v.
Proof.
  unfold conversion_item.
  destruct (Py.index e 0); simpl; [|discriminate].
  destruct (Py.index e 1) as [d|]; simpl; [|discriminate].
  destruct (Py.index e 2); simpl; [|discriminate].
  destruct (Py.str_key _); simpl; [|discriminate].
  intros [= _ <-]. exists d. reflexivity.
Qed.

Lemma fetcher_item_default e k v :
  fetcher_item e = Ok (k, v) -> Py.getitem v "default" = Ok (VFloat NaN).
Proof.
  unfold fetcher_item.
  destruct (Py.index e 0); simpl; [|discriminate].
  destruct (Py.index e 1); simpl; [|discriminate].
  destruct (Py.str_key _); simpl; [|discriminate].
  intros [= _ <-]. reflexivity.
Qed.

(** Without an override, what lines 91 to 98 produce. *)
Lemma resolve_lists s cfg :
  _exchange_rate_config_override s = None ->
  resolve s = Ok cfg ->
  (forall k v, In (k, v) (fst cfg) -> has_default v) /\
  (forall k v, In (k, v) (snd cfg) ->
               Py.getitem v "default" = Ok (VFloat NaN)).
Proof.
  intros O. unfold resolve. cbv zeta. rewrite O.
  destruct (Py.iter _) as [es|]; simpl; [|discriminate].
  destruct (rmap conversion_item es) as [citems|] eqn:C; simpl;
    [|discriminate].
  destruct (Py.iter _) as [es'|]; simpl; [|discriminate].
  destruct (rmap fetcher_item es') as [fitems|] eqn:F; simpl;
    [|discriminate].
  intros [= <-]. simpl. split; intros k v I.
  - destruct (@upper_keys_in citems _ k v eq_refl I) as [k0 I0].
    destruct (rmap_in _ _ _ C I0) as (e & _ & E).
    eapply conversion_item_default, E.
  - destruct (@upper_keys_in fitems _ k v eq_refl I) as [k0 I0].
    destruct (rmap_in _ _ _ F I0) as (e & _ & E).
    eapply fetcher_item_default, E.
Qed.

(** Without an override, line 103 cannot fail. *)
Lemma resolve_lists_total s cfg :
  _exchange_rate_config_override s = None ->
  resolve s = Ok cfg ->
  exists rates, default_rates (global_config (committed cfg)) = Ok rates.
Proof.
  intros O R. destruct (resolve_lists _ O R) as [Hc Hg].
  apply default_rates_total. intros k v I. simpl in I.
  apply in_update in I. destruct I as [I|I].
  - exists (VFloat NaN). eauto.
  - eauto.
Qed.

Lemma app_one_neq {A : Type} (l : list A) (x : A) : l ++ [x] <> l.
Proof.
  intros H. apply (f_equal (@length A)) in H.
  rewrite length_app in H. simpl in H. lia.
Qed.

(** [init_config] reports nothing exactly when both steps succeed. *)
Lemma init_config_quiet s :
  log (exec init_config s) = log s ->
  exists cfg rates,
    resolve s = Ok cfg /\
    default_rates (global_config (committed cfg)) = Ok rates /\
    exec init_config s =
    with_exchange_rate rates
      (with_exchange_rate_config (committed cfg)
         (with_data_feeds (chosen_feeds s) s)).
Proof.
  unfold exec. intros L.
  destruct (resolve s) as [cfg|e] eqn:R.
  - destruct (default_rates (global_config (committed cfg))) as [rates|e]
      eqn:D.
    + exists cfg, rates. now rewrite (init_config_done _ R D).
    + rewrite (init_config_half _ R D) in L. simpl in L.
      now apply app_one_neq in L.
  - rewrite (init_config_failed _ R) in L. simpl in L.
    now apply app_one_neq in L.
Qed.

(** ** The conversion API *)

Lemma awake_tables s :
  _all_data_feed_exchange_rate (awake s) = _all_data_feed_exchange_rate s /\
  _exchange_rate (awake s) = _exchange_rate s /\
  _exchange_rate_config (awake s) = _exchange_rate_config s.
Proof. unfold awake. destruct (_started s); repeat split; reflexivity. Qed.

Lemma get_exchange_rate_ext source s1 s2 :
  _all_data_feed_exchange_rate s1 = _all_data_feed_exchange_rate s2 ->
  _exchange_rate s1 = _exchange_rate s2 ->
  outcome (get_exchange_rate source) s1 = outcome (get_exchange_rate source) s2.
Proof.
  intros A R. unfold outcome, get_exchange_rate, bind, gets. rewrite A.
  destruct (source_is source "default").
  - destruct (Dict.mem _ DEFAULT_DATA_FEED_NAME); reflexivity.
  - destruct (source_in source _); [destruct source; reflexivity|].
    destruct (source_is source "config"); simpl; [|reflexivity].
    now rewrite R.
Qed.

Lemma get_exchange_rate_tables source s :
  _all_data_feed_exchange_rate (exec (get_exchange_rate source) s)
  = _all_data_feed_exchange_rate s /\
  _exchange_rate (exec (get_exchange_rate source) s) = _exchange_rate s /\
  _exchange_rate_config (exec (get_exchange_rate source) s)
  = _exchange_rate_config s.
Proof.
  unfold exec, get_exchange_rate, bind, gets.
  destruct (source_is source "default").
  - destruct (Dict.mem _ DEFAULT_DATA_FEED_NAME); repeat split; reflexivity.
  - destruct (source_in source _); [destruct source; repeat split; reflexivity|].
    destruct (source_is source "config"); repeat split; reflexivity.
Qed.

Lemma adjust_token_rate_unfold asset_name price source s :
  adjust_token_rate asset_name price source s =
  match get_exchange_rate source (awake s) with
  | (Ok exchange_rate, s1) =>
      (if Dict.mem (conversion_required (_exchange_rate_config s1))
                   (Str.upper asset_name)
          && Dict.mem (_exchange_rate s1) (Str.upper asset_name)
       then let? rate := subscript exchange_rate (Str.upper asset_name) in
            Py.mul rate price
       else Ok price, s1)
  | (Raise e, s1) => (Raise e, s1)
  end.
Proof.
  assert (K : forall s0,
    bind (get_exchange_rate source)
      (fun exchange_rate =>
         s <- gets (fun s => s) ;;
         if Dict.mem (conversion_required (_exchange_rate_config s))
                     (Str.upper asset_name)
            && Dict.mem (_exchange_rate s) (Str.upper asset_name)
         then
           rate <- lift (subscript exchange_rate (Str.upper asset_name)) ;;
           lift (Py.mul rate price)
         else ret price) s0 =
    match get_exchange_rate source s0 with
    | (Ok exchange_rate, s1) =>
        (if Dict.mem (conversion_required (_exchange_rate_config s1))
                     (Str.upper asset_name)
            && Dict.mem (_exchange_rate s1) (Str.upper asset_name)
         then let? rate := subscript exchange_rate (Str.upper asset_name) in
              Py.mul rate price
         else Ok price, s1)
    | (Raise e, s1) => (Raise e, s1)
    end).
  { intros s0. unfold bind at 1.
    destruct (get_exchange_rate source s0) as [[t|e] s1]; [|reflexivity].
    unfold bind, gets, lift, ret. simpl.
    destruct (_ && _); [|reflexivity].
    destruct (subscript t _); reflexivity. }
  unfold adjust_token_rate, awake, exec. cbv zeta.
  unfold bind at 1 2. unfold gets at 1. unfold when.
  destruct (_started s); simpl.
  - apply K.
  - apply K.
Qed.

Lemma convert_token_value_unfold amount from_currency to_currency source s :
  convert_token_value amount from_currency to_currency source s =
  match get_exchange_rate source (awake s) with
  | (Ok exchange_rate, s1) =>
      (if eth_weth (Str.upper from_currency) (Str.upper to_currency)
       then Ok amount
       else converted exchange_rate amount
              (Str.upper from_currency) (Str.upper to_currency), s1)
  | (Raise e, s1) => (Raise e, s1)
  end.
Proof.
  assert (K : forall s0,
    bind (get_exchange_rate source)
      (fun exchange_rate =>
         let from_currency := Str.upper from_currency in
         let to_currency := Str.upper to_currency in
         if String.eqb from_currency "ETH" && String.eqb to_currency "WETH"
            || String.eqb from_currency "WETH" && String.eqb to_currency "ETH"
         then ret amount
         else
           let from_currency_usd_rate :=
             Dict.get_default exchange_rate from_currency (VFloat NaN) in
           let to_currency_usd_rate :=
             Dict.get_default exchange_rate to_currency (VFloat NaN) in
           from_nan <- lift (Py.isnan from_currency_usd_rate) ;;
           any_nan <- (if from_nan then ret true
                       else lift (Py.isnan to_currency_usd_rate)) ;;
           if any_nan then raise (conversion_error from_currency to_currency)
           else
             product <- lift (Py.rmul amount from_currency_usd_rate) ;;
             lift (Py.div product to_currency_usd_rate)) s0 =
    match get_exchange_rate source s0 with
    | (Ok exchange_rate, s1) =>
        (if eth_weth (Str.upper from_currency) (Str.upper to_currency)
         then Ok amount
         else converted exchange_rate amount
                (Str.upper from_currency) (Str.upper to_currency), s1)
    | (Raise e, s1) => (Raise e, s1)
    end).
  { intros s0. unfold bind at 1.
    destruct (get_exchange_rate source s0) as [[t|e] s1]; [|reflexivity].
    cbv zeta. unfold eth_weth, converted.
    destruct (_ || _); [reflexivity|].
    unfold bind, lift, ret, raise. cbv zeta.
    destruct (Py.isnan (Dict.get_default t (Str.upper from_currency) _))
      as [[]|]; simpl; try reflexivity.
    destruct (Py.isnan (Dict.get_default t (Str.upper to_currency) _))
      as [[]|]; simpl; try reflexivity.
    destruct (Py.rmul _ _); reflexivity. }
  unfold convert_token_value, awake, exec.
  unfold bind at 1 2. unfold gets at 1. unfold when.
  destruct (_started s); simpl.
  - apply K.
  - apply K.
Qed.

(** ** One refresh cycle *)

Lemma refreshed_id s : refreshed (_exchange_rate s) [] s = s.
Proof. unfold refreshed. rewrite app_nil_r. destruct s. reflexivity. Qed.

Lemma shown_nil s : shown s [] = [].
Proof. unfold shown. now destruct (_show_update_exchange_rates_from_data_feeds_errors s). Qed.

Lemma shown_app s l1 l2 : shown s (l1 ++ l2) = shown s l1 ++ shown s l2.
Proof. unfold shown. now destruct (_show_update_exchange_rates_from_data_feeds_errors s). Qed.

Lemma refresh_asset_total data_feed has_errors item s :
  (exists src, Py.getitem (snd item) "source" = Ok (VStr src)) ->
  refresh_asset data_feed has_errors item s =
  (Ok (has_errors || missed data_feed item),
   refreshed
     (rates_after_item data_feed (_exchange_rate s) item)
     (shown s (if missed data_feed item
               then [NetworkNoDataFound (Str.upper (fst item))
                                        (DataFeed.name data_feed)]
               else []))
     s).
Proof.
  intros [src T].
  unfold refresh_asset, rates_after_item, found, missed, source_matches,
    price_of. cbv zeta. rewrite T.
  unfold bind, lift, gets, modify, ret, when, logger, Py.lower. simpl.
  destruct (String.eqb _ _); simpl.
  - destruct (Py.truthy _); simpl.
    + rewrite orb_false_r, shown_nil. unfold refreshed.
      rewrite app_nil_r. reflexivity.
    + rewrite orb_true_r. unfold shown, refreshed.
      destruct (_show_update_exchange_rates_from_data_feeds_errors s) eqn:F;
        simpl.
      * reflexivity.
      * rewrite app_nil_r. destruct s; reflexivity.
  - rewrite orb_false_r, shown_nil. now rewrite refreshed_id.
Qed.

Lemma refresh_items_total data_feed items has_errors s :
  sources_typed items ->
  for_fold items has_errors (refresh_asset data_feed) s =
  (Ok (has_errors || existsb (missed data_feed) items),
   refreshed (rates_after_feed items (_exchange_rate s) data_feed)
             (shown s (misses_of_feed items data_feed)) s).
Proof.
  revert has_errors s.
  induction items as [|item items IH]; intros has_errors s T.
  - simpl. rewrite orb_false_r, shown_nil, refreshed_id. reflexivity.
  - simpl for_fold. unfold bind.
    rewrite refresh_asset_total.
    2:{ destruct item as [k c]. apply (T k c). now left. }
    rewrite IH by (intros k c I; apply (T k c); now right).
    simpl existsb. rewrite orb_assoc. f_equal.
    unfold rates_after_feed, misses_of_feed. simpl fold_left.
    simpl flat_map. rewrite shown_app.
    unfold refreshed, shown. simpl.
    rewrite <- app_assoc. reflexivity.
Qed.

Lemma refresh_feed_total data_feed has_errors s :
  sources_typed (global_config (_exchange_rate_config s)) ->
  refresh_feed has_errors data_feed s =
  (Ok (has_errors
       || existsb (missed data_feed) (global_config (_exchange_rate_config s))),
   refreshed
     (rates_after_feed (global_config (_exchange_rate_config s))
                       (_exchange_rate s) data_feed)
     (shown s (misses_of_feed (global_config (_exchange_rate_config s))
                              data_feed)) s).
Proof.
  intros T. unfold refresh_feed, try_except, bind, gets.
  now rewrite refresh_items_total.
Qed.

Lemma refresh_feeds_total feeds has_errors s :
  sources_typed (global_config (_exchange_rate_config s)) ->
  for_fold feeds has_errors refresh_feed s =
  (Ok (has_errors
       || existsb (fun d => existsb (missed d)
                              (global_config (_exchange_rate_config s)))
                  feeds),
   refreshed
     (rates_after feeds (global_config (_exchange_rate_config s))
                  (_exchange_rate s))
     (shown s (misses feeds (global_config (_exchange_rate_config s)))) s).
Proof.
  revert has_errors s.
  induction feeds as [|d feeds IH]; intros has_errors s T.
  - simpl. rewrite orb_false_r, shown_nil, refreshed_id. reflexivity.
  - simpl for_fold. unfold bind. rewrite refresh_feed_total by assumption.
    rewrite IH by exact T.
    simpl existsb. rewrite orb_assoc. f_equal.
    unfold rates_after, misses. simpl fold_left. simpl flat_map.
    rewrite shown_app. unfold refreshed, shown. simpl.
    rewrite <- app_assoc. reflexivity.
Qed.

Lemma snapshots_total feeds s :
  for_each feeds
    (fun data_feed =>
       modify (fun s =>
                 with_all_data_feed_exchange_rate
                   (Dict.set (_all_data_feed_exchange_rate s)
                             (DataFeed.name data_feed)
                             (DataFeed.price_dict data_feed)) s)) s =
  (Ok tt,
   with_all_data_feed_exchange_rate
     (snapshots_after feeds (_all_data_feed_exchange_rate s)) s).
Proof.
  revert s. induction feeds as [|d feeds IH]; intros s.
  - simpl. destruct s; reflexivity.
  - simpl for_each. unfold bind, modify at 1. rewrite IH. reflexivity.
Qed.

Lemma existsb_missed_misses feeds items :
  existsb (fun d => existsb (missed d) items) feeds
  = nonempty (misses feeds items).
Proof.
  unfold misses. induction feeds as [|d feeds IH]; simpl; [reflexivity|].
  rewrite IH. clear IH.
  assert (E : existsb (missed d) items = nonempty (misses_of_feed items d)).
  { unfold misses_of_feed. induction items as [|i items IHi]; simpl;
      [reflexivity|].
    destruct (missed d i); simpl; [reflexivity | exact IHi]. }
  rewrite E. destruct (misses_of_feed items d); reflexivity.
Qed.

(** With string sources throughout, a cycle completes. *)
Lemma update_total s :
  sources_typed (global_config (_exchange_rate_config s)) ->
  update_exchange_rates_from_data_feeds s = (Ok tt, cycled s).
Proof.
  intros T. unfold update_exchange_rates_from_data_feeds, cycled.
  unfold bind at 1. unfold gets at 1. unfold bind at 1.
  rewrite snapshots_total. unfold bind at 1.
  rewrite refresh_feeds_total by exact T.
  cbv zeta. simpl orb. rewrite existsb_missed_misses. simpl.
  unfold when, modify, ret.
  destruct (nonempty _); reflexivity.
Qed.

(** ** Which feed decides the merged rate of an asset *)

Lemma rates_after_item_other d rates item a :
  Str.upper (fst item) <> a ->
  Dict.get (rates_after_item d rates item) a = Dict.get rates a.
Proof.
  intros N. unfold rates_after_item. destruct (found d item); [|reflexivity].
  apply get_set_neq. congruence.
Qed.

Lemma rates_after_feed_other d items rates a :
  (forall k, In k (Dict.keys items) -> Str.upper k <> a) ->
  Dict.get (rates_after_feed items rates d) a = Dict.get rates a.
Proof.
  unfold rates_after_feed. revert rates.
  induction items as [|item items IH]; intros rates H; simpl; [reflexivity|].
  rewrite IH by (intros k I; apply H; now right).
  apply rates_after_item_other, H. now left.
Qed.

Lemma rates_after_feed_get d items rates a config :
  keys_normal items ->
  Dict.get items a = Some config ->
  Dict.get (rates_after_feed items rates d) a =
  if found d (a, config) then Some (price_of d (a, config))
  else Dict.get rates a.
Proof.
  unfold rates_after_feed. revert rates.
  induction items as [|[k c] items IH]; intros rates [W U] G;
    [discriminate|].
  simpl in G. inversion W as [|? ? N W']; subst. simpl fold_left.
  destruct (String.eqb a k) eqn:E.
  - apply String.eqb_eq in E. subst k. injection G as ->.
    assert (Ua : Str.upper a = a) by (apply U; now left).
    fold (rates_after_feed items (rates_after_item d rates (a, config)) d).
    rewrite rates_after_feed_other.
    + unfold rates_after_item, found, price_of. simpl. rewrite Ua.
      destruct (_ && _); [apply get_set_eq | reflexivity].
    + intros k I. rewrite (U k) by now right. intros ->. contradiction.
  - apply String.eqb_neq in E.
    rewrite IH; [| split; [exact W' | intros k' I; apply U; now right]
                 | exact G].
    destruct (found d (a, config)); [reflexivity|].
    apply rates_after_item_other. simpl.
    rewrite (U k) by now left. congruence.
Qed.

Lemma find_append {A : Type} (p : A -> bool) l1 l2 :
  find p (l1 ++ l2) =
  match find p l1 with Some x => Some x | None => find p l2 end.
Proof.
  induction l1 as [|x l1 IH]; simpl; [reflexivity|].
  destruct (p x); [reflexivity | exact IH].
Qed.

(** The last feed of the list that serves the asset decides its rate; when
    none does, the rate stays. *)
Lemma rates_after_get feeds items rates a config :
  keys_normal items ->
  Dict.get items a = Some config ->
  Dict.get (rates_after feeds items rates) a =
  match find (fun d => found d (a, config)) (rev feeds) with
  | Some d => Some (price_of d (a, config))
  | None => Dict.get rates a
  end.
Proof.
  intros K G. unfold rates_after. revert rates.
  induction feeds as [|d feeds IH]; intros rates; simpl; [reflexivity|].
  rewrite IH. rewrite find_append.
  destruct (find _ (rev feeds)); [reflexivity|].
  simpl. rewrite (@rates_after_feed_get d items rates a config K G).
  destruct (found d (a, config)); reflexivity.
Qed.

Lemma find_none_all {A : Type} (p : A -> bool) l :
  (forall x, In x l -> p x = false) -> find p l = None.
Proof.
  induction l as [|x l IH]; intros H; simpl; [reflexivity|].
  rewrite (H x) by now left. apply IH. intros; apply H; now right.
Qed.

Lemma found_unmatched d item :
  source_matches d (snd item) = false -> found d item = false.
Proof. unfold found. now intros ->. Qed.

Lemma in_misses feeds items d item :
  In d feeds -> In item items -> missed d item = true ->
  In (NetworkNoDataFound (Str.upper (fst item)) (DataFeed.name d))
     (misses feeds items).
Proof.
  intros Id Ii Hm. unfold misses. apply in_flat_map. exists d.
  split; [exact Id|]. unfold misses_of_feed. apply in_flat_map.
  exists item. split; [exact Ii|]. rewrite Hm. now left.
Qed.

(** ** [global_config] has each key once, in upper case *)

Lemma in_keys_update {V : Type} (d : dict V) items k :
  In k (Dict.keys (Dict.update d items)) ->
  In k (Dict.keys d) \/ In k (Dict.keys items).
Proof.
  unfold Dict.keys. intros I. apply in_map_iff in I.
  destruct I as ([k' v] & E & I). simpl in E. subst k'.
  apply in_update in I. destruct I as [I|I]; [left|right];
    apply in_map_iff; exists (k, v); auto.
Qed.

Lemma upper_keys_upper d r k :
  upper_keys d = Ok r -> In k (Dict.keys r) -> Str.upper k = k.
Proof.
  unfold upper_keys. destruct (Py.items d) as [its|]; simpl; [|discriminate].
  intros [= <-] I. apply in_keys_update in I. destruct I as [[]|I].
  unfold Dict.keys in I. rewrite map_map in I. simpl in I.
  apply in_map_iff in I. destruct I as (kv & <- & _). apply upper_idem.
Qed.

Lemma resolve_upper s cfg k :
  resolve s = Ok cfg ->
  In k (Dict.keys (fst cfg)) \/ In k (Dict.keys (snd cfg)) ->
  Str.upper k = k.
Proof.
  unfold resolve. cbv zeta.
  match goal with |- rbind ?r _ = _ -> _ => destruct r as [raw|e] end;
    simpl; [|discriminate].
  destruct (upper_keys (snd raw)) as [g|e] eqn:G; simpl; [|discriminate].
  destruct (upper_keys (fst raw)) as [c|e] eqn:C; simpl; [|discriminate].
  intros [= <-]. simpl.
  intros [I|I]; eapply upper_keys_upper; [exact C | exact I | exact G | exact I].
Qed.

Lemma committed_normal s cfg :
  resolve s = Ok cfg -> keys_normal (global_config (committed cfg)).
Proof.
  intros R. destruct (resolve_wf _ R) as [Wc Wg]. split.
  - now apply committed_wf.
  - simpl. intros k I. apply in_keys_update in I.
    eapply resolve_upper; [exact R | tauto].
Qed.

Lemma init_config_normal : stable normal_state init_config.
Proof.
  intros s H. unfold exec, normal_state.
  destruct (resolve s) as [cfg|e] eqn:R.
  - destruct (default_rates (global_config (committed cfg))) eqn:D.
    + rewrite (init_config_done _ R D). simpl.
      eapply committed_normal, R.
    + rewrite (init_config_half _ R D). simpl.
      eapply committed_normal, R.
  - rewrite (init_config_failed _ R). simpl. exact H.
Qed.

Lemma run_op_normal o s : normal_state s -> normal_state (run_op o s).
Proof.
  revert s. destruct o; simpl run_op;
    try (by_method normal_state;
         stable_methods ltac:(apply init_config_normal);
         simpl; auto; fail).
  intros s H. exact H.
Qed.

Lemma run_normal ops s : normal_state s -> normal_state (run ops s).
Proof.
  unfold run. revert s.
  induction ops as [|o ops IH]; simpl; intros s H; [exact H|].
  apply IH, run_op_normal, H.
Qed.

(** ** Every listed asset is configured, and no other *)

Lemma rmap_maps {A B : Type} (f : A -> result B) l ys x :
  rmap f l = Ok ys -> In x l -> exists y, f x = Ok y /\ In y ys.
Proof.
  revert ys. induction l as [|x0 l IH]; intros ys H I; [destruct I|].
  apply rmap_ok_inv in H. destruct H as (y0 & ys' & Hx & Hl & ->).
  destruct I as [<-|I].
  - exists y0. split; [assumption | now left].
  - destruct (IH _ Hl I) as (y & Hf & Hin).
    exists y. split; [assumption | now right].
Qed.

Lemma keys_set {V : Type} (d : dict V) k v k' :
  In k' (Dict.keys (Dict.set d k v)) <-> k' = k \/ In k' (Dict.keys d).
Proof.
  induction d as [|[k0 v0] d IH]; simpl.
  - intuition congruence.
  - destruct (String.eqb k k0) eqn:E; simpl.
    + apply String.eqb_eq in E. subst k0. intuition congruence.
    + rewrite IH. intuition.
Qed.

Lemma keys_update {V : Type} (d : dict V) items k :
  In k (Dict.keys (Dict.update d items))
  <-> In k (Dict.keys d) \/ In k (Dict.keys items).
Proof.
  unfold Dict.update. revert d.
  induction items as [|[k1 v1] items IH]; intros d; simpl.
  - tauto.
  - rewrite IH, keys_set. intuition congruence.
Qed.

Lemma upper_keys_maps d r k :
  upper_keys (VDict d) = Ok r ->
  In k (Dict.keys d) -> In (Str.upper k) (Dict.keys r).
Proof.
  unfold upper_keys. simpl. intros [= <-] I.
  apply keys_update. right. unfold Dict.keys in *. rewrite map_map. simpl.
  apply in_map_iff in I. destruct I as (kv & <- & I).
  apply in_map_iff. exists kv. split; [reflexivity | assumption].
Qed.

Lemma upper_keys_from d r k v :
  upper_keys (VDict d) = Ok r ->
  In (k, v) r -> exists k0, In (k0, v) d /\ k = Str.upper k0.
Proof.
  unfold upper_keys. simpl. intros [= <-] I.
  apply in_update in I. destruct I as [[]|I].
  apply in_map_iff in I. destruct I as ([k0 v0] & E & I).
  simpl in E. injection E as <- ->. eauto.
Qed.

Lemma conversion_item_inv e k v :
  conversion_item e = Ok (k, v) ->
  exists d src,
    Py.index e 0 = Ok (VStr k) /\ Py.index e 1 = Ok d
    /\ Py.index e 2 = Ok src
    /\ v = VDict [("default", d); ("source", src)].
Proof.
  unfold conversion_item.
  destruct (Py.index e 0) as [k0|]; simpl; [|discriminate].
  destruct (Py.index e 1) as [d|]; simpl; [|discriminate].
  destruct (Py.index e 2) as [src|]; simpl; [|discriminate].
  destruct k0; simpl; try discriminate.
  intros [= <- <-]. exists d, src. repeat split.
Qed.

Lemma fetcher_item_inv e k v :
  fetcher_item e = Ok (k, v) ->
  exists src,
    Py.index e 0 = Ok (VStr k) /\ Py.index e 1 = Ok src
    /\ v = VDict [("default", VFloat NaN); ("source", src)].
Proof.
  unfold fetcher_item.
  destruct (Py.index e 0) as [k0|]; simpl; [|discriminate].
  destruct (Py.index e 1) as [src|]; simpl; [|discriminate].
  destruct k0; simpl; try discriminate.
  intros [= <- <-]. exists src. repeat split.
Qed.

(** Without an override, lines 91 to 98 step by step. *)
Lemma resolve_lists_inv s cfg :
  _exchange_rate_config_override s = None ->
  resolve s = Ok cfg ->
  exists ces citems fes fitems,
    entries (exchange_rate_conversion s) = Ok ces
    /\ rmap conversion_item ces = Ok citems
    /\ entries (exchange_rate_fetcher s) = Ok fes
    /\ rmap fetcher_item fes = Ok fitems
    /\ upper_keys (VDict (Dict.of_items citems)) = Ok (fst cfg)
    /\ upper_keys (VDict (Dict.of_items fitems)) = Ok (snd cfg).
Proof.
  intros O. unfold resolve, entries. cbv zeta. rewrite O.
  destruct (Py.iter (Py.or_ (exchange_rate_conversion s) (VList [])))
    as [ces|]; simpl; [|discriminate].
  destruct (rmap conversion_item ces) as [citems|] eqn:C; simpl;
    [|discriminate].
  destruct (Py.iter (Py.or_ (exchange_rate_fetcher s) (VList [])))
    as [fes|]; simpl; [|discriminate].
  destruct (rmap fetcher_item fes) as [fitems|] eqn:F; simpl;
    [|discriminate].
  intros [= <-]. exists ces, citems, fes, fitems. repeat split; assumption.
Qed.

Lemma in_keys {V : Type} (d : dict V) k v : In (k, v) d -> In k (Dict.keys d).
Proof.
  intros I. unfold Dict.keys. apply in_map_iff. exists (k, v). auto.
Qed.

Lemma keys_get {V : Type} (d : dict V) k :
  In k (Dict.keys d) <-> exists v, Dict.get d k = Some v.
Proof.
  split.
  - intros I. destruct (Dict.get d k) as [v|] eqn:G; [eauto|].
    apply get_none_keys in G. contradiction.
  - intros [v G]. apply get_some_in in G. eapply in_keys, G.
Qed.

(** The assets of [conversion_required] are those of the conversion list,
    in upper case, each with the entry built from an element of the list
    that names it. *)
Lemma listed_conversions s cfg ces :
  _exchange_rate_config_override s = None ->
  resolve s = Ok cfg ->
  entries (exchange_rate_conversion s) = Ok ces ->
  (forall e k,
      In e ces -> Py.index e 0 = Ok (VStr k) ->
      In (Str.upper k) (Dict.keys (fst cfg)))
  /\ (forall a entry,
         In (a, entry) (fst cfg) ->
         exists e k d,
           In e ces /\ Py.index e 0 = Ok (VStr k) /\ Str.upper k = a
           /\ Py.index e 1 = Ok d /\ Py.getitem entry "default" = Ok d).
Proof.
  intros O R E.
  destruct (resolve_lists_inv _ O R)
    as (ces' & citems & fes & fitems & E' & C & _ & _ & Uc & _).
  rewrite E in E'. injection E' as <-. split.
  - intros e k I K.
    destruct (rmap_maps _ _ _ C I) as ([k0 v] & Hf & Hin).
    destruct (conversion_item_inv _ Hf) as (d & src & K0 & _).
    rewrite K in K0. injection K0 as <-.
    apply (upper_keys_maps _ Uc).
    apply keys_update. right. eapply in_keys, Hin.
  - intros a entry I.
    destruct (@upper_keys_from _ _ _ _ Uc I) as (k0 & I0 & ->).
    apply in_update in I0. destruct I0 as [[]|I0].
    destruct (rmap_in _ _ _ C I0) as (e & Hin & Hf).
    destruct (conversion_item_inv _ Hf) as (d & src & K0 & K1 & _ & ->).
    exists e, k0, d. repeat split; assumption.
Qed.

(** The same for the fetch list and the mapping built from it. *)
Lemma listed_fetches s cfg fes :
  _exchange_rate_config_override s = None ->
  resolve s = Ok cfg ->
  entries (exchange_rate_fetcher s) = Ok fes ->
  (forall e k,
      In e fes -> Py.index e 0 = Ok (VStr k) ->
      In (Str.upper k) (Dict.keys (snd cfg)))
  /\ (forall a entry,
         In (a, entry) (snd cfg) ->
         exists e k,
           In e fes /\ Py.index e 0 = Ok (VStr k) /\ Str.upper k = a).
Proof.
  intros O R E.
  destruct (resolve_lists_inv _ O R)
    as (ces & citems & fes' & fitems & _ & _ & E' & F & _ & Uf).
  rewrite E in E'. injection E' as <-. split.
  - intros e k I K.
    destruct (rmap_maps _ _ _ F I) as ([k0 v] & Hf & Hin).
    destruct (fetcher_item_inv _ Hf) as (src & K0 & _).
    rewrite K in K0. injection K0 as <-.
    apply (upper_keys_maps _ Uf).
    apply keys_update. right. eapply in_keys, Hin.
  - intros a entry I.
    destruct (@upper_keys_from _ _ _ _ Uf I) as (k0 & I0 & ->).
    apply in_update in I0. destruct I0 as [[]|I0].
    destruct (rmap_in _ _ _ F I0) as (e & Hin & Hf).
    destruct (fetcher_item_inv _ Hf) as (src & K0 & _).
    exists e, k0. repeat split; assumption.
Qed.

(** Line 103 keeps the keys of [global_config]. *)
Lemma default_rates_keys g rates :
  wf_dict g -> default_rates g = Ok rates -> Dict.keys rates = Dict.keys g.
Proof.
  intros W H. unfold default_rates in H.
  change (rmap _ g) with (rmap default_item g) in H.
  destruct (rmap default_item g) as [its|e] eqn:R; simpl in H;
    [|discriminate].
  injection H as <-.
  rewrite of_items_wf.
  - now apply default_items_keys.
  - unfold wf_dict. now rewrite (default_items_keys _ R).
Qed.

(** ** Suppression of repeated reports *)

Ltac frame_reports :=
  unfold timeouts_muted, misses_muted, timeout_once, timeout_reports,
    miss_reports in *;
  simpl in *; rewrite ?filter_app; simpl; rewrite ?app_nil_r;
  try solve [intuition auto].

Lemma await_ready_run d s :
  await_ready d s =
  match DataFeed.get_ready d with
  | Ready => (Ok tt, s)
  | TimedOut =>
      (Ok tt,
       if _show_wait_till_ready_errors s
       then with_show_wait_till_ready_errors false
              (with_log
                 (log s ++ [WarningErrorInitializingDataFeed (DataFeed.name d)])
                 s)
       else s)
  | ReadyFailed e => (Raise e, s)
  end.
Proof.
  unfold await_ready. destruct (DataFeed.get_ready d); try reflexivity.
  unfold bind, gets, when.
  destruct (_show_wait_till_ready_errors s); reflexivity.
Qed.

Lemma awaits_reports feeds s :
  log (exec (for_each feeds await_ready) s) =
  log s ++ (if _show_wait_till_ready_errors s
            then timeout_report feeds else [])
  /\ _show_wait_till_ready_errors (exec (for_each feeds await_ready) s) =
     _show_wait_till_ready_errors s && negb (nonempty (timeout_report feeds)).
Proof.
  unfold timeout_report. revert s.
  induction feeds as [|d feeds IH]; intros s.
  - simpl. split; [|now rewrite andb_true_r].
    destruct (_show_wait_till_ready_errors s); now rewrite app_nil_r.
  - simpl for_each. simpl first_timeout. unfold exec, bind.
    rewrite await_ready_run.
    destruct (DataFeed.get_ready d) eqn:G.
    + apply IH.
    + destruct (_show_wait_till_ready_errors s) eqn:F.
      * destruct (IH (with_show_wait_till_ready_errors false
                        (with_log
                           (log s ++
                            [WarningErrorInitializingDataFeed
                               (DataFeed.name d)]) s))) as [L W].
        unfold exec in L, W. simpl in L, W.
        rewrite L, W, app_nil_r. split; reflexivity.
      * destruct (IH s) as [L W]. unfold exec in L, W.
        rewrite F in L, W. rewrite L, W. split; reflexivity.
    + simpl. split; [|now rewrite andb_true_r].
      destruct (_show_wait_till_ready_errors s); now rewrite app_nil_r.
Qed.

Lemma wait_till_ready_reports s :
  log (exec wait_till_ready s) =
  log s ++ (if _show_wait_till_ready_errors s
            then timeout_report (_data_feeds s) else [])
  /\ _show_wait_till_ready_errors (exec wait_till_ready s) =
     _show_wait_till_ready_errors s
     && negb (nonempty (timeout_report (_data_feeds s))).
Proof. apply (awaits_reports (_data_feeds s) s). Qed.

Lemma await_ready_muted reports d :
  stable (timeouts_muted reports) (await_ready d).
Proof.
  intros s [F L]. unfold exec, await_ready.
  destruct (DataFeed.get_ready d); simpl; try (split; assumption).
  unfold bind, gets, when. rewrite F. simpl. split; assumption.
Qed.

Lemma await_ready_once d : stable timeout_once (await_ready d).
Proof.
  intros s H. unfold exec, await_ready.
  destruct (DataFeed.get_ready d); simpl; try exact H.
  unfold bind, gets, when. unfold timeout_once in *.
  destruct (_show_wait_till_ready_errors s) eqn:F; simpl.
  - unfold timeout_reports in *. simpl.
    rewrite filter_app, length_app, H. reflexivity.
  - rewrite F. exact H.
Qed.

Lemma refresh_asset_muted reports d has_errors item :
  stable (misses_muted reports) (refresh_asset d has_errors item).
Proof.
  intros s [F L]. unfold exec, refresh_asset. cbv zeta.
  unfold bind at 1. unfold lift at 1.
  destruct (Py.getitem (snd item) "source") as [src|]; simpl;
    [|split; assumption].
  unfold bind at 1. unfold lift at 1.
  destruct (Py.lower src) as [l|]; simpl; [|split; assumption].
  destruct (String.eqb _ _); simpl; [|split; assumption].
  destruct (Py.truthy _); simpl; [split; assumption|].
  unfold bind, gets, when. rewrite F. simpl. split; assumption.
Qed.

Lemma init_config_timeouts_muted reports :
  stable (timeouts_muted reports) init_config.
Proof.
  unfold init_config. stable_methods fail; frame_reports.
Qed.

Lemma init_config_misses_muted reports :
  stable (misses_muted reports) init_config.
Proof.
  unfold init_config. stable_methods fail; frame_reports.
Qed.

Lemma init_config_timeout_once : stable timeout_once init_config.
Proof.
  unfold init_config. stable_methods fail; frame_reports.
Qed.

Lemma run_op_timeouts_muted reports o s :
  timeouts_muted reports s -> timeouts_muted reports (run_op o s).
Proof.
  revert s. destruct o; simpl run_op;
    try (by_method (timeouts_muted reports);
         stable_methods
           ltac:(first [ apply init_config_timeouts_muted
                       | apply await_ready_muted ]);
         frame_reports; fail).
  intros s H. exact H.
Qed.

Lemma run_op_misses_muted reports o s :
  misses_muted reports s -> misses_muted reports (run_op o s).
Proof.
  revert s. destruct o; simpl run_op;
    try (by_method (misses_muted reports);
         stable_methods
           ltac:(first [ apply init_config_misses_muted
                       | apply refresh_asset_muted ]);
         frame_reports; fail).
  intros s H. exact H.
Qed.

Lemma run_op_timeout_once o s : timeout_once s -> timeout_once (run_op o s).
Proof.
  revert s. destruct o; simpl run_op;
    try (by_method timeout_once;
         stable_methods
           ltac:(first [ apply init_config_timeout_once
                       | apply await_ready_once ]);
         frame_reports; fail).
  intros s H. exact H.
Qed.

Lemma run_invariant (P : ExchangeRateConversion -> Prop) :
  (forall o s, P s -> P (run_op o s)) ->
  forall ops s, P s -> P (run ops s).
Proof.
  intros Hop ops. unfold run.
  induction ops as [|o ops IH]; simpl; intros s H; [exact H|].
  apply IH, Hop, H.
Qed.

Lemma filter_misses feeds items :
  filter is_miss_report (misses feeds items) = misses feeds items.
Proof.
  unfold misses. induction feeds as [|d feeds IH]; simpl; [reflexivity|].
  rewrite filter_app, IH. f_equal.
  unfold misses_of_feed. clear IH.
  induction items as [|i items IHi]; simpl; [reflexivity|].
  rewrite filter_app, IHi. destruct (missed d i); reflexivity.
Qed.

(* ===================================================================== *)
(** * The claims *)
(* ===================================================================== *)

(** Splits a conjunction of closed facts and evaluates each. *)
Ltac evaluate :=
  repeat match goal with |- _ /\ _ => split end;
  try (vm_compute; reflexivity).

(** ** Refresh *)

(** C1, as amended.  In a refresh cycle over a configuration whose entries
    name their source by a string, the cycle completes, and for an asset of
    [global_config] and the last feed of the list whose name matches the
    asset's source without regard to case: when the feed's lookup returns a
    truthy price (present and not zero), the merged rate of the asset ends as
    that price; when it returns a falsy one (absent, or zero) and no other
    feed matches, the merged rate keeps its previous value, the suppression
    flag is cleared, and the miss is reported if the flag was up. *)
Theorem refresh_overwrites_served_assets
  (s : ExchangeRateConversion) (a : string) (config : pyval)
  (l1 l2 : list DataFeed.t) (d : DataFeed.t) :
  normal_state s ->
  sources_typed (global_config (_exchange_rate_config s)) ->
  Dict.get (global_config (_exchange_rate_config s)) a = Some config ->
  _data_feeds s = l1 ++ d :: l2 ->
  source_matches d config = true ->
  (forall d', In d' l2 -> source_matches d' config = false) ->
  outcome update_exchange_rates_from_data_feeds s = Ok tt /\
  (Py.truthy (DataFeed.get_price d a) = true ->
   Dict.get (_exchange_rate (exec update_exchange_rates_from_data_feeds s)) a
   = Some (DataFeed.get_price d a)) /\
  (Py.truthy (DataFeed.get_price d a) = false ->
   (forall d', In d' l1 -> source_matches d' config = false) ->
   Dict.get (_exchange_rate (exec update_exchange_rates_from_data_feeds s)) a
   = Dict.get (_exchange_rate s) a /\
   _show_update_exchange_rates_from_data_feeds_errors
     (exec update_exchange_rates_from_data_feeds s) = false /\
   (_show_update_exchange_rates_from_data_feeds_errors s = true ->
    In (NetworkNoDataFound a (DataFeed.name d))
       (log (exec update_exchange_rates_from_data_feeds s)))).
Proof.
  intros N T G F Md Ml2.
  assert (Ua : Str.upper a = a).
  { apply N. unfold Dict.keys. apply in_map_iff. exists (a, config).
    split; [reflexivity | now apply get_some_in]. }
  assert (R : _exchange_rate (cycled s) =
              rates_after (_data_feeds s)
                (global_config (_exchange_rate_config s)) (_exchange_rate s)).
  { unfold cycled. cbv zeta. destruct (nonempty _); reflexivity. }
  assert (Fl2 : find (fun d => found d (a, config)) (rev l2) = None).
  { apply find_none_all. intros x I. apply found_unmatched. simpl.
    apply Ml2. now apply in_rev. }
  unfold outcome, exec. rewrite update_total by exact T. simpl fst. simpl snd.
  split; [reflexivity|]. rewrite R.
  rewrite (@rates_after_get (_data_feeds s) _ (_exchange_rate s) a config N G).
  rewrite F, rev_app_distr. simpl rev. rewrite <- app_assoc.
  rewrite find_append, Fl2. simpl.
  unfold found, price_of. simpl. rewrite Md, Ua. simpl. split.
  - intros ->. reflexivity.
  - intros Hp Ml1. rewrite Hp.
    rewrite find_none_all.
    2:{ intros x I. rewrite Ml1 by now apply in_rev. reflexivity. }
    split; [reflexivity|].
    assert (I : In (NetworkNoDataFound a (DataFeed.name d))
                   (misses (_data_feeds s)
                      (global_config (_exchange_rate_config s)))).
    { rewrite <- Ua at 1.
      apply (@in_misses (_data_feeds s) _ d (a, config)).
      - rewrite F. apply in_or_app. right. now left.
      - now apply get_some_in.
      - unfold missed, price_of. simpl. now rewrite Md, Ua, Hp. }
    unfold cycled. cbv zeta.
    destruct (misses _ _) as [|m ms] eqn:Ms; [destruct I|].
    simpl nonempty. cbv iota. split; [reflexivity|].
    intros Sh. simpl. unfold shown. rewrite Sh.
    apply in_or_app. right. exact I.
Qed.

Lemma initial_normal fetcher conversion cc cg :
  normal_state (initial fetcher conversion cc cg).
Proof. split; [constructor | intros k []]. Qed.

Lemma initial_overlay fetcher conversion cc cg :
  overlay_state (initial fetcher conversion cc cg).
Proof. intros k v H. discriminate H. Qed.

Lemma refresh_overwrites_served_assets_witness :
  Dict.get
    (_exchange_rate
       (exec update_exchange_rates_from_data_feeds
          (configured [("BTC", VFloat 50000%float)])))
    "BTC" = Some (DataFeed.get_price (feedX [("BTC", VFloat 50000%float)]) "BTC")
  /\ Dict.get
       (_exchange_rate
          (exec update_exchange_rates_from_data_feeds
             (configured [("BTC", VFloat 50000%float)])))
       "USDT"
     = Dict.get (_exchange_rate (configured [("BTC", VFloat 50000%float)]))
                "USDT".
Proof.
  assert (N : normal_state (configured [("BTC", VFloat 50000%float)])).
  { apply run_normal, initial_normal. }
  assert (T : sources_typed
                (global_config
                   (_exchange_rate_config
                      (configured [("BTC", VFloat 50000%float)])))).
  { intros k c I. vm_compute in I.
    destruct I as [E|[E|[]]]; inversion E; eexists; reflexivity. }
  assert (F : _data_feeds (configured [("BTC", VFloat 50000%float)])
              = [] ++ feedX [("BTC", VFloat 50000%float)] :: []).
  { vm_compute. reflexivity. }
  assert (Gb : Dict.get
                 (global_config
                    (_exchange_rate_config
                       (configured [("BTC", VFloat 50000%float)]))) "BTC"
               = Some (VDict [("default", VFloat NaN);
                              ("source", VStr "feedX")])).
  { vm_compute. reflexivity. }
  assert (Gu : Dict.get
                 (global_config
                    (_exchange_rate_config
                       (configured [("BTC", VFloat 50000%float)]))) "USDT"
               = Some (VDict [("default", VFloat 1%float);
                              ("source", VStr "feedX")])).
  { vm_compute. reflexivity. }
  assert (Mb : source_matches (feedX [("BTC", VFloat 50000%float)])
                 (VDict [("default", VFloat NaN); ("source", VStr "feedX")])
               = true).
  { vm_compute. reflexivity. }
  assert (Mu : source_matches (feedX [("BTC", VFloat 50000%float)])
                 (VDict [("default", VFloat 1%float);
                         ("source", VStr "feedX")])
               = true).
  { vm_compute. reflexivity. }
  assert (L : forall (c : pyval) (d' : DataFeed.t),
             In d' [] -> source_matches d' c = false).
  { intros c d' []. }
  split.
  - refine (proj1 (proj2 (@refresh_overwrites_served_assets
                            _ _ _ _ _ _ N T Gb F Mb (L _))) _).
    vm_compute. reflexivity.
  - refine (proj1 (proj2 (proj2 (@refresh_overwrites_served_assets
                                   _ _ _ _ _ _ N T Gu F Mu (L _))) _ (L _))).
    vm_compute. reflexivity.
Defined.

(** C1 as stated fails on a price of zero: the feed's snapshot holds BTC at
    [0.0], the lookup returns it, and the merged rate keeps the [50000.0] of
    the cycle before. *)
Lemma zero_price_is_not_merged :
  In (feedX zero_prices) (_data_feeds zero_priced)
  /\ Dict.get (global_config (_exchange_rate_config zero_priced)) "BTC"
     = Some (VDict [("default", VFloat NaN); ("source", VStr "feedX")])
  /\ Dict.get (DataFeed.price_dict (feedX zero_prices)) "BTC"
     = Some (VFloat 0%float)
  /\ DataFeed.get_price (feedX zero_prices) "BTC" = VFloat 0%float
  /\ Dict.get (_exchange_rate zero_priced) "BTC" = Some (VFloat 50000%float)
  /\ Dict.get
       (_exchange_rate
          (exec update_exchange_rates_from_data_feeds zero_priced)) "BTC"
     = Some (VFloat 50000%float)
  /\ Dict.get
       (_exchange_rate
          (exec update_exchange_rates_from_data_feeds zero_priced)) "BTC"
     <> Some (VFloat 0%float).
Proof.
  evaluate.
  - vm_compute. tauto.
  - vm_compute. intros H. apply (f_equal is_zero_rate) in H.
    vm_compute in H. discriminate H.
Qed.

(** ** The conversion API *)

Lemma get_exchange_rate_none s :
  get_exchange_rate None s = (Raise invalid_source, s).
Proof. reflexivity. Qed.

Lemma get_exchange_rate_awake source s :
  outcome (get_exchange_rate source) (awake s)
  = outcome (get_exchange_rate source) s.
Proof.
  destruct (awake_tables s) as (A & R & _).
  now apply get_exchange_rate_ext.
Qed.

Lemma adjust_token_rate_outcome asset_name price source s :
  outcome (adjust_token_rate asset_name price source) s =
  match outcome (get_exchange_rate source) s with
  | Ok exchange_rate =>
      if Dict.mem (conversion_required (_exchange_rate_config s))
                  (Str.upper asset_name)
         && Dict.mem (_exchange_rate s) (Str.upper asset_name)
      then let? rate := subscript exchange_rate (Str.upper asset_name) in
           Py.mul rate price
      else Ok price
  | Raise e => Raise e
  end.
Proof.
  rewrite <- get_exchange_rate_awake.
  unfold outcome at 1. rewrite adjust_token_rate_unfold.
  destruct (get_exchange_rate_tables source (awake s)) as (_ & R & C).
  destruct (awake_tables s) as (_ & R' & C').
  unfold exec in R, C. unfold outcome.
  destruct (get_exchange_rate source (awake s)) as [[t|e] s1]; simpl in *;
    [|reflexivity].
  now rewrite R, C, R', C'.
Qed.

Lemma convert_token_value_outcome amount from_currency to_currency source s :
  outcome (convert_token_value amount from_currency to_currency source) s =
  match outcome (get_exchange_rate source) s with
  | Ok exchange_rate =>
      if eth_weth (Str.upper from_currency) (Str.upper to_currency)
      then Ok amount
      else converted exchange_rate amount
             (Str.upper from_currency) (Str.upper to_currency)
  | Raise e => Raise e
  end.
Proof.
  rewrite <- get_exchange_rate_awake.
  unfold outcome at 1. rewrite convert_token_value_unfold. unfold outcome.
  destruct (get_exchange_rate source (awake s)) as [[t|e] s1]; reflexivity.
Qed.

(** C2, as amended.  When [get_exchange_rate(source)] raises,
    [adjust_token_rate] raises the same exception.  When it resolves to a
    table: for an asset whose upper-case name is in [conversion_required], in
    the merged rates and in the table with a numeric entry, the result is
    that entry times the price; for an asset whose upper-case name is not in
    [conversion_required], the result is the price unchanged. *)
Theorem adjust_token_rate_on_resolved_source
  (s : ExchangeRateConversion) (asset_name : string) (price : float)
  (source : option string) :
  match outcome (get_exchange_rate source) s with
  | Raise e =>
      outcome (adjust_token_rate asset_name price source) s = Raise e
  | Ok table =>
      (forall rate,
          Dict.mem (conversion_required (_exchange_rate_config s))
                   (Str.upper asset_name) = true ->
          Dict.mem (_exchange_rate s) (Str.upper asset_name) = true ->
          Dict.get table (Str.upper asset_name) = Some (VFloat rate) ->
          outcome (adjust_token_rate asset_name price source) s
          = Ok (PrimFloat.mul rate price))
      /\ (Dict.mem (conversion_required (_exchange_rate_config s))
                   (Str.upper asset_name) = false ->
          outcome (adjust_token_rate asset_name price source) s = Ok price)
  end.
Proof.
  rewrite adjust_token_rate_outcome.
  destruct (outcome (get_exchange_rate source) s) as [table|e];
    [|reflexivity].
  split.
  - intros rate -> -> G. simpl. unfold subscript. rewrite G. reflexivity.
  - intros ->. reflexivity.
Qed.

Lemma adjust_token_rate_on_resolved_source_witness :
  outcome (adjust_token_rate "usdt" 10%float (Some "feedX")) refreshed_once
  = Ok 10%float
  /\ outcome (adjust_token_rate "btc" 10%float (Some "config")) refreshed_once
     = Ok 10%float.
Proof.
  split.
  - apply (proj1 (adjust_token_rate_on_resolved_source
                    refreshed_once "usdt" 10%float (Some "feedX"))
             1%float); reflexivity.
  - apply (proj2 (adjust_token_rate_on_resolved_source
                    refreshed_once "btc" 10%float (Some "config")));
      reflexivity.
Defined.

(** C2 as stated fails when the source is left out: an asset that is not in
    [conversion_required] does not get its price back, the call raises. *)
Lemma adjust_token_rate_without_source_raises :
  Dict.mem (conversion_required (_exchange_rate_config refreshed_once)) "XYZ"
  = false
  /\ outcome (adjust_token_rate "XYZ" 10%float None) refreshed_once
     = Raise invalid_source
  /\ outcome (adjust_token_rate "XYZ" 10%float None) refreshed_once
     <> Ok 10%float.
Proof. evaluate. vm_compute. discriminate. Qed.

(** C3, as amended.  Whenever [get_exchange_rate(source)] resolves,
    converting between ETH and WETH in either direction returns the amount
    unchanged, whatever the table holds; when it raises, the conversion
    raises the same exception. *)
Theorem eth_weth_are_equal_on_resolved_source
  (s : ExchangeRateConversion) (amount : float) (source : option string) :
  match outcome (get_exchange_rate source) s with
  | Ok _ =>
      outcome (convert_token_value amount "ETH" "WETH" source) s = Ok amount
      /\ outcome (convert_token_value amount "WETH" "ETH" source) s
         = Ok amount
  | Raise e =>
      outcome (convert_token_value amount "ETH" "WETH" source) s = Raise e
      /\ outcome (convert_token_value amount "WETH" "ETH" source) s
         = Raise e
  end.
Proof.
  rewrite !convert_token_value_outcome.
  destruct (outcome (get_exchange_rate source) s); split; reflexivity.
Qed.

(** C3 as stated fails: with the source left out, as the claim writes the
    call, the conversion raises instead of returning the amount. *)
Lemma eth_weth_without_source_raises :
  outcome (convert_token_value 2%float "ETH" "WETH" None) refreshed_once
  = Raise invalid_source
  /\ outcome (convert_token_value 2%float "WETH" "ETH" None) refreshed_once
     = Raise invalid_source
  /\ outcome (convert_token_value 2%float "ETH" "WETH" None) refreshed_once
     <> Ok 2%float.
Proof. evaluate. vm_compute. discriminate. Qed.

Lemma nan_is_nan : PrimFloat.is_nan NaN = true.
Proof. reflexivity. Qed.

Lemma get_default_float (table : dict pyval) k x :
  Dict.get_default table k (VFloat NaN) = VFloat x ->
  PrimFloat.is_nan x = false ->
  Dict.get table k = Some (VFloat x).
Proof.
  unfold Dict.get_default. destruct (Dict.get table k) as [v|].
  - now intros ->.
  - intros E. apply (f_equal (fun v => match v with
                                       | VFloat y => PrimFloat.is_nan y
                                       | _ => false
                                       end)) in E.
    rewrite nan_is_nan in E. congruence.
Qed.

(** C4, as amended.  For a pair of assets other than ETH and WETH and a
    source that resolves to a table: when both rates are numbers or absent
    (an absent rate counts as NaN) and one of them is NaN, the conversion
    fails with the conversion error; and when the conversion returns a
    value, both assets are present in the table with rates that are not NaN
    and the value is [amount * rate_from / rate_to], so no rate was
    defaulted. *)
Theorem conversion_fails_on_nan_rate
  (s : ExchangeRateConversion) (amount : float)
  (from_currency to_currency : string) (source : option string)
  (table : dict pyval) :
  outcome (get_exchange_rate source) s = Ok table ->
  eth_weth (Str.upper from_currency) (Str.upper to_currency) = false ->
  (forall x y,
      Dict.get_default table (Str.upper from_currency) (VFloat NaN) = VFloat x ->
      Dict.get_default table (Str.upper to_currency) (VFloat NaN) = VFloat y ->
      PrimFloat.is_nan x || PrimFloat.is_nan y = true ->
      outcome (convert_token_value amount from_currency to_currency source) s
      = Raise (conversion_error (Str.upper from_currency)
                                (Str.upper to_currency)))
  /\ (forall v,
         outcome (convert_token_value amount from_currency to_currency source) s
         = Ok v ->
         exists x y,
           Dict.get table (Str.upper from_currency) = Some (VFloat x)
           /\ Dict.get table (Str.upper to_currency) = Some (VFloat y)
           /\ PrimFloat.is_nan x = false
           /\ PrimFloat.is_nan y = false
           /\ v = PrimFloat.div (PrimFloat.mul amount x) y).
Proof.
  intros R P. rewrite convert_token_value_outcome, R, P.
  unfold converted. cbv zeta. split.
  - intros x y -> -> H. simpl.
    destruct (PrimFloat.is_nan x); simpl in *; [reflexivity|].
    now rewrite H.
  - intros v.
    destruct (Dict.get_default table (Str.upper from_currency) (VFloat NaN))
      as [|x| | |] eqn:F; simpl; try discriminate.
    destruct (PrimFloat.is_nan x) eqn:Nx; simpl; [discriminate|].
    destruct (Dict.get_default table (Str.upper to_currency) (VFloat NaN))
      as [|y| | |] eqn:T; simpl; try discriminate.
    destruct (PrimFloat.is_nan y) eqn:Ny; simpl; [discriminate|].
    destruct (PrimFloat.eqb y PrimFloat.zero); [discriminate|].
    intros [= <-]. exists x, y.
    repeat split; auto using get_default_float.
Qed.

Lemma conversion_fails_on_nan_rate_witness :
  outcome (convert_token_value 2%float "btc" "doge" (Some "config"))
          refreshed_once
  = Raise (ValueError "Unable to convert 'BTC' to 'DOGE'. Aborting.")
  /\ exists x y,
       Dict.get (_exchange_rate refreshed_once) "BTC" = Some (VFloat x)
       /\ Dict.get (_exchange_rate refreshed_once) "USDT" = Some (VFloat y)
       /\ PrimFloat.is_nan x = false
       /\ PrimFloat.is_nan y = false
       /\ 100000%float = PrimFloat.div (PrimFloat.mul 2%float x) y.
Proof.
  split.
  - apply (proj1 (@conversion_fails_on_nan_rate
                    refreshed_once 2%float "btc" "doge" (Some "config")
                    (_exchange_rate refreshed_once) eq_refl eq_refl)
             50000%float NaN); reflexivity.
  - apply (proj2 (@conversion_fails_on_nan_rate
                    refreshed_once 2%float "btc" "usdt" (Some "config")
                    (_exchange_rate refreshed_once) eq_refl eq_refl)
             100000%float). reflexivity.
Defined.

(** C4 as stated fails on the pair ETH and WETH: neither has a merged rate,
    and the conversion returns the amount without any error. *)
Lemma eth_weth_convert_without_rates :
  Dict.get (_exchange_rate refreshed_once) "ETH" = None
  /\ Dict.get (_exchange_rate refreshed_once) "WETH" = None
  /\ outcome (convert_token_value 2%float "ETH" "WETH" (Some "config"))
             refreshed_once
     = Ok 2%float.
Proof. evaluate. Qed.

(** C7, as amended.  [get_exchange_rate("default")] returns the snapshot
    stored under the default feed name and raises when there is none; for a
    known feed name other than ["default"] it returns that feed's snapshot;
    for ["config"], when no snapshot is stored under that name, it returns
    the merged rates; every other source, ["unknownSource"] included when no
    feed has that name, raises the invalid-source error. *)
Theorem get_exchange_rate_by_source
  (s : ExchangeRateConversion) (source : option string) :
  (source = Some "default" ->
   outcome (get_exchange_rate source) s =
   match Dict.get (_all_data_feed_exchange_rate s) DEFAULT_DATA_FEED_NAME with
   | Some snapshot => Ok snapshot
   | None => Raise invalid_data_feed
   end)
  /\ (forall name snapshot,
         source = Some name ->
         name <> "default" ->
         Dict.get (_all_data_feed_exchange_rate s) name = Some snapshot ->
         outcome (get_exchange_rate source) s = Ok snapshot)
  /\ (source = Some "config" ->
      Dict.get (_all_data_feed_exchange_rate s) "config" = None ->
      outcome (get_exchange_rate source) s = Ok (_exchange_rate s))
  /\ (source <> Some "default" ->
      source <> Some "config" ->
      (forall name,
          source = Some name ->
          Dict.get (_all_data_feed_exchange_rate s) name = None) ->
      outcome (get_exchange_rate source) s = Raise invalid_source).
Proof.
  unfold outcome, get_exchange_rate, bind, gets. simpl.
  repeat split.
  - intros ->. simpl. unfold Dict.mem, subscript, lift.
    destruct (Dict.get _ DEFAULT_DATA_FEED_NAME); reflexivity.
  - intros name snapshot -> N G. simpl.
    apply String.eqb_neq in N. rewrite N.
    unfold Dict.mem, subscript, lift. rewrite G. reflexivity.
  - intros -> G. simpl. unfold Dict.mem. rewrite G. reflexivity.
  - intros Nd Nc G. destruct source as [name|]; [|reflexivity]. simpl.
    assert (Ed : String.eqb name "default" = false).
    { apply String.eqb_neq. congruence. }
    assert (Ec : String.eqb name "config" = false).
    { apply String.eqb_neq. congruence. }
    rewrite Ed, Ec. unfold Dict.mem. rewrite (G name eq_refl). reflexivity.
Qed.

Lemma get_exchange_rate_by_source_witness :
  outcome (get_exchange_rate (Some "unknownSource")) refreshed_once
  = Raise invalid_source
  /\ outcome (get_exchange_rate (Some "config")) refreshed_once
     = Ok (_exchange_rate refreshed_once)
  /\ outcome (get_exchange_rate (Some "feedX")) refreshed_once
     = Ok good_prices
  /\ outcome (get_exchange_rate (Some "default")) refreshed_once
     = Raise invalid_data_feed.
Proof.
  split; [|split; [|split]].
  - apply (get_exchange_rate_by_source refreshed_once (Some "unknownSource"));
      [discriminate | discriminate | intros name [= <-]; reflexivity].
  - apply (get_exchange_rate_by_source refreshed_once (Some "config"));
      reflexivity.
  - apply (proj1 (proj2 (get_exchange_rate_by_source
                           refreshed_once (Some "feedX")))
             "feedX" good_prices); [reflexivity | discriminate | reflexivity].
  - apply (proj1 (get_exchange_rate_by_source
                    refreshed_once (Some "default")) eq_refl).
Defined.

(** C7 as stated fails when a feed is itself called ["config"]: the source
    ["config"] then yields that feed's snapshot, not the merged rates. *)
Lemma feed_named_config_shadows_merged_rates :
  outcome (get_exchange_rate (Some "config")) shadowed
  = Ok [("X", VFloat 2%float)]
  /\ _exchange_rate shadowed
     = [("BTC", VFloat NaN); ("USDT", VFloat 1%float)]
  /\ outcome (get_exchange_rate (Some "config")) shadowed
     <> Ok (_exchange_rate shadowed).
Proof.
  evaluate. vm_compute. intros H.
  apply (f_equal (fun r => match r with
                           | Ok t => length t
                           | Raise _ => 0
                           end)) in H.
  discriminate H.
Qed.

(** C10.  With the source left out, [adjust_token_rate] and
    [convert_token_value] raise the invalid-source error of
    [get_exchange_rate] whatever the asset, price, amount or pair, and leave
    the state the lazy start leaves; so either method returns a value only
    for a source that is ["default"], ["config"] or the name of a feed with
    a snapshot. *)
Theorem omitted_source_always_raises (s : ExchangeRateConversion) :
  (forall asset_name price,
      adjust_token_rate asset_name price None s
      = (Raise invalid_source, awake s))
  /\ (forall amount from_currency to_currency,
         convert_token_value amount from_currency to_currency None s
         = (Raise invalid_source, awake s))
  /\ (forall asset_name price source v,
         outcome (adjust_token_rate asset_name price source) s = Ok v ->
         source = Some "default" \/ source = Some "config"
         \/ exists name,
              source = Some name
              /\ Dict.mem (_all_data_feed_exchange_rate s) name = true)
  /\ (forall amount from_currency to_currency source v,
         outcome (convert_token_value amount from_currency to_currency source) s
         = Ok v ->
         source = Some "default" \/ source = Some "config"
         \/ exists name,
              source = Some name
              /\ Dict.mem (_all_data_feed_exchange_rate s) name = true).
Proof.
  assert (K : forall source,
             (exists t, outcome (get_exchange_rate source) s = Ok t) ->
             source = Some "default" \/ source = Some "config"
             \/ exists name,
                  source = Some name
                  /\ Dict.mem (_all_data_feed_exchange_rate s) name = true).
  { intros [name|] [t H]; [|discriminate H].
    unfold outcome, get_exchange_rate, bind, gets in H. simpl in H.
    destruct (String.eqb name "default") eqn:Ed.
    - apply String.eqb_eq in Ed. subst. now left.
    - destruct (Dict.mem _ name) eqn:Mn; [right; right; eauto|].
      destruct (String.eqb name "config") eqn:Ec; [|discriminate H].
      apply String.eqb_eq in Ec. subst. right. now left. }
  repeat split.
  - intros a p. rewrite adjust_token_rate_unfold.
    now rewrite get_exchange_rate_none.
  - intros x f t. rewrite convert_token_value_unfold.
    now rewrite get_exchange_rate_none.
  - intros a p source v H. apply K.
    rewrite adjust_token_rate_outcome in H.
    destruct (outcome (get_exchange_rate source) s); [eauto | discriminate].
  - intros x f t source v H. apply K.
    rewrite convert_token_value_outcome in H.
    destruct (outcome (get_exchange_rate source) s); [eauto | discriminate].
Qed.

Lemma omitted_source_always_raises_witness :
  (Some "feedX" = Some "default" \/ Some "feedX" = Some "config"
   \/ exists name,
        Some "feedX" = Some name
        /\ Dict.mem (_all_data_feed_exchange_rate refreshed_once) name = true)
  /\ (Some "config" = Some "default" \/ Some "config" = Some "config"
      \/ exists name,
           Some "config" = Some name
           /\ Dict.mem (_all_data_feed_exchange_rate refreshed_once) name
              = true).
Proof.
  split.
  - apply (proj1 (proj2 (proj2 (omitted_source_always_raises refreshed_once)))
             "usdt" 10%float (Some "feedX") 10%float).
    vm_compute. reflexivity.
  - apply (proj2 (proj2 (proj2 (omitted_source_always_raises refreshed_once)))
             2%float "btc" "usdt" (Some "config") 100000%float).
    vm_compute. reflexivity.
Defined.

(** ** Configuration *)

(** C5.  Once lines 85 to 98 have produced the two mappings, the
    [conversion_required] that [init_config] assigns is the resolved one and
    every key of it is in [global_config] with exactly the same entry; a
    resolution that raises leaves the mappings alone; so [global_config]
    holds all of [conversion_required] in the initial state and after any
    sequence of operations. *)
Theorem global_config_holds_conversion_required :
  (forall s cfg,
      resolve s = Ok cfg ->
      conversion_required (_exchange_rate_config (exec init_config s))
      = fst cfg
      /\ forall k entry,
           Dict.get
             (conversion_required (_exchange_rate_config (exec init_config s)))
             k = Some entry ->
           Dict.get
             (global_config (_exchange_rate_config (exec init_config s)))
             k = Some entry)
  /\ (forall ops fetcher conversion cc cg k entry,
         Dict.get
           (conversion_required
              (_exchange_rate_config
                 (run ops (initial fetcher conversion cc cg))))
           k = Some entry ->
         Dict.get
           (global_config
              (_exchange_rate_config
                 (run ops (initial fetcher conversion cc cg))))
           k = Some entry).
Proof.
  split.
  - intros s cfg R. destruct (resolve_wf _ R) as [Wc _].
    assert (E : _exchange_rate_config (exec init_config s) = committed cfg).
    { unfold exec.
      destruct (default_rates (global_config (committed cfg))) eqn:D.
      - now rewrite (init_config_done _ R D).
      - now rewrite (init_config_half _ R D). }
    rewrite E. split; [reflexivity|]. now apply committed_overlay.
  - intros ops fetcher conversion cc cg.
    apply (run_overlay ops), initial_overlay.
Qed.

Lemma global_config_holds_conversion_required_witness :
  Dict.get (global_config (_exchange_rate_config (exec init_config colliding)))
           "USDT"
  = Some (VDict [("default", VFloat 1%float); ("source", VStr "feedX")])
  /\ Dict.get
       (global_config
          (_exchange_rate_config
             (run [GetInstance; SetDataFeeds (Fresh [feedX good_prices]);
                   UpdateExchangeRatesFromDataFeeds]
                  (initial scenario_fetcher scenario_conversion_numeric
                           coin_cap coin_gecko))))
       "USDT"
     = Some (VDict [("default", VFloat 1%float); ("source", VStr "feedX")]).
Proof.
  split.
  - apply (proj2 (proj1 global_config_holds_conversion_required
                    colliding
                    ([("USDT", VDict [("default", VFloat 1%float);
                                      ("source", VStr "feedX")])],
                     [("USDT", VDict [("default", VFloat NaN);
                                      ("source", VStr "feedY")])])
                    eq_refl)).
    reflexivity.
  - apply (proj2 global_config_holds_conversion_required
             [GetInstance; SetDataFeeds (Fresh [feedX good_prices]);
              UpdateExchangeRatesFromDataFeeds]
             scenario_fetcher scenario_conversion_numeric coin_cap coin_gecko).
    vm_compute. reflexivity.
Defined.

(** C6, as amended.  After an [init_config] that reports no error, the
    merged rate of every asset of [conversion_required] is the default of its
    entry, stored as it was configured, without conversion to a number; and
    without an override the merged rate of every asset of [global_config]
    that is not in [conversion_required] is NaN.  Without an override the
    assets are those of the two lists, in upper case: every element of the
    conversion list puts its asset into [conversion_required], with the
    default of an element that names the asset as its merged rate; every
    element of the fetch list puts its asset into [global_config], with the
    merged rate NaN unless the asset is in [conversion_required]; and the
    merged rates hold no asset that neither list names.  With the fetch list
    [[("BTC","feedX")]] and the conversion list [[("USDT","1.0","feedX")]]
    the merged rates are BTC: NaN and USDT: the string ["1.0"]; with the
    number [1.0] in the list they are BTC: NaN and USDT: [1.0]. *)
Theorem merged_rates_start_at_defaults :
  (forall s,
      log (exec init_config s) = log s ->
      (forall a entry,
          Dict.get
            (conversion_required (_exchange_rate_config (exec init_config s)))
            a = Some entry ->
          exists d,
            Py.getitem entry "default" = Ok d
            /\ Dict.get (_exchange_rate (exec init_config s)) a = Some d)
      /\ (_exchange_rate_config_override s = None ->
          forall a,
            Dict.mem
              (global_config (_exchange_rate_config (exec init_config s))) a
            = true ->
            Dict.mem
              (conversion_required
                 (_exchange_rate_config (exec init_config s))) a
            = false ->
            Dict.get (_exchange_rate (exec init_config s)) a
            = Some (VFloat NaN)))
  /\ (forall s conversion_list fetch_list,
         _exchange_rate_config_override s = None ->
         entries (exchange_rate_conversion s) = Ok conversion_list ->
         entries (exchange_rate_fetcher s) = Ok fetch_list ->
         log (exec init_config s) = log s ->
         (forall e k,
             In e conversion_list ->
             Py.index e 0 = Ok (VStr k) ->
             Dict.mem
               (conversion_required
                  (_exchange_rate_config (exec init_config s)))
               (Str.upper k)
             = true
             /\ exists e' k' d,
                  In e' conversion_list
                  /\ Py.index e' 0 = Ok (VStr k')
                  /\ Str.upper k' = Str.upper k
                  /\ Py.index e' 1 = Ok d
                  /\ Dict.get (_exchange_rate (exec init_config s))
                              (Str.upper k)
                     = Some d)
         /\ (forall e k,
                In e fetch_list ->
                Py.index e 0 = Ok (VStr k) ->
                Dict.mem
                  (global_config (_exchange_rate_config (exec init_config s)))
                  (Str.upper k)
                = true
                /\ (Dict.mem
                      (conversion_required
                         (_exchange_rate_config (exec init_config s)))
                      (Str.upper k)
                    = false ->
                    Dict.get (_exchange_rate (exec init_config s))
                             (Str.upper k)
                    = Some (VFloat NaN)))
         /\ (forall a,
                Dict.mem (_exchange_rate (exec init_config s)) a = true ->
                exists e k,
                  (In e conversion_list \/ In e fetch_list)
                  /\ Py.index e 0 = Ok (VStr k)
                  /\ Str.upper k = a))
  /\ (forall s,
         _exchange_rate_config_override s = None ->
         exchange_rate_fetcher s = scenario_fetcher ->
         (exchange_rate_conversion s = scenario_conversion ->
          _exchange_rate (exec init_config s)
          = [("BTC", VFloat NaN); ("USDT", VStr "1.0")])
         /\ (exchange_rate_conversion s = scenario_conversion_numeric ->
             _exchange_rate (exec init_config s)
             = [("BTC", VFloat NaN); ("USDT", VFloat 1%float)])).
Proof.
  assert (P1 : forall s,
             log (exec init_config s) = log s ->
             (forall a entry,
                 Dict.get
                   (conversion_required
                      (_exchange_rate_config (exec init_config s)))
                   a = Some entry ->
                 exists d,
                   Py.getitem entry "default" = Ok d
                   /\ Dict.get (_exchange_rate (exec init_config s)) a
                      = Some d)
             /\ (_exchange_rate_config_override s = None ->
                 forall a,
                   Dict.mem
                     (global_config
                        (_exchange_rate_config (exec init_config s))) a
                   = true ->
                   Dict.mem
                     (conversion_required
                        (_exchange_rate_config (exec init_config s))) a
                   = false ->
                   Dict.get (_exchange_rate (exec init_config s)) a
                   = Some (VFloat NaN))).
  { intros s Q. destruct (init_config_quiet _ Q) as (cfg & rates & R & D & E).
    rewrite E. simpl.
    destruct (resolve_wf _ R) as [Wc Wg].
    pose proof (committed_overlay cfg Wc) as Ov.
    pose proof (committed_wf cfg Wg) as Wm.
    split.
    + intros a entry G. apply Ov in G.
      eapply default_rates_get; eassumption.
    + intros O a Mg Mc.
      apply mem_true_get in Mg. destruct Mg as [entry G].
      apply mem_false_get in Mc.
      destruct (default_rates_get _ Wm D G) as (d & Hd & Hr).
      rewrite Hr. f_equal.
      simpl in G. rewrite get_update in G by exact Wc. rewrite Mc in G.
      apply get_some_in in G.
      destruct (resolve_lists _ O R) as [_ Hn].
      rewrite (Hn _ _ G) in Hd. congruence. }
  split; [exact P1|]. split.
  - intros s conversion_list fetch_list O Ec Ef Q.
    destruct (P1 s Q) as [Pa Pb]. specialize (Pb O).
    destruct (init_config_quiet _ Q) as (cfg & rates & R & D & E).
    rewrite E in *. simpl in Pa, Pb. simpl.
    destruct (resolve_wf _ R) as [Wc Wg].
    pose proof (committed_wf cfg Wg) as Wm.
    destruct (listed_conversions _ O R Ec) as [Cf Cb].
    destruct (listed_fetches _ O R Ef) as [Ff Fb].
    split; [|split].
    + intros e k I K.
      pose proof (Cf e k I K) as Ik. apply keys_get in Ik.
      destruct Ik as [entry G]. split.
      * unfold Dict.mem. now rewrite G.
      * destruct (Pa _ _ G) as (d & Hd & Hr).
        destruct (Cb _ _ (get_some_in _ _ G))
          as (e' & k' & d' & I' & K' & U' & D' & Hd').
        exists e', k', d'. repeat split; try assumption. congruence.
    + intros e k I K.
      pose proof (Ff e k I K) as Ik.
      assert (M : Dict.mem (Dict.update (snd cfg) (fst cfg)) (Str.upper k)
                  = true).
      { apply mem_true_get, keys_get, keys_update. now left. }
      split; [exact M|]. intros Mc. now apply Pb.
    + intros a Ma. apply mem_true_get, keys_get in Ma.
      rewrite (default_rates_keys Wm D) in Ma. simpl in Ma.
      apply keys_update in Ma. unfold Dict.keys in Ma.
      destruct Ma as [Ma|Ma]; apply in_map_iff in Ma;
        destruct Ma as ([a' entry] & Ea & Ia); simpl in Ea; subst a'.
      * destruct (Fb _ _ Ia) as (e & k & I & K & U).
        exists e, k. auto.
      * destruct (Cb _ _ Ia) as (e & k & d & I & K & U & _).
        exists e, k. auto.
  - intros s O F. split; intros C.
    + assert (R : resolve s =
                  Ok ([("USDT", VDict [("default", VStr "1.0");
                                       ("source", VStr "feedX")])],
                      [("BTC", VDict [("default", VFloat NaN);
                                      ("source", VStr "feedX")])])).
      { unfold resolve. rewrite O, F, C. reflexivity. }
      unfold exec. now rewrite (@init_config_done s _ _ R eq_refl).
    + assert (R : resolve s =
                  Ok ([("USDT", VDict [("default", VFloat 1%float);
                                       ("source", VStr "feedX")])],
                      [("BTC", VDict [("default", VFloat NaN);
                                      ("source", VStr "feedX")])])).
      { unfold resolve. rewrite O, F, C. reflexivity. }
      unfold exec. now rewrite (@init_config_done s _ _ R eq_refl).
Qed.

Lemma merged_rates_start_at_defaults_witness :
  (exists d,
      Py.getitem (VDict [("default", VStr "1.0"); ("source", VStr "feedX")])
                 "default" = Ok d
      /\ Dict.get (_exchange_rate (exec init_config fresh_as_written)) "USDT"
         = Some d)
  /\ Dict.get (_exchange_rate (exec init_config fresh_as_written)) "BTC"
     = Some (VFloat NaN)
  /\ Dict.mem
       (conversion_required
          (_exchange_rate_config (exec init_config two_entries)))
       (Str.upper "dai")
     = true
  /\ Dict.get (_exchange_rate (exec init_config two_entries))
              (Str.upper "eth")
     = Some (VFloat NaN)
  /\ _exchange_rate (exec init_config fresh_as_written)
     = [("BTC", VFloat NaN); ("USDT", VStr "1.0")]
  /\ _exchange_rate (exec init_config fresh)
     = [("BTC", VFloat NaN); ("USDT", VFloat 1%float)].
Proof.
  split; [|split; [|split; [|split; [|split]]]].
  - apply (proj1 (proj1 merged_rates_start_at_defaults
                    fresh_as_written eq_refl) "USDT").
    reflexivity.
  - apply (proj2 (proj1 merged_rates_start_at_defaults
                    fresh_as_written eq_refl) eq_refl "BTC");
      reflexivity.
  - refine (proj1 (proj1
              (proj1 (proj2 merged_rates_start_at_defaults)
                 two_entries _ _ eq_refl eq_refl eq_refl _)
              (VList [VStr "dai"; VFloat 1%float; VStr "feedX"]) "dai"
              _ eq_refl)).
    + vm_compute. reflexivity.
    + right. left. reflexivity.
  - refine (proj2 (proj1 (proj2
              (proj1 (proj2 merged_rates_start_at_defaults)
                 two_entries _ _ eq_refl eq_refl eq_refl _))
              (VList [VStr "eth"; VStr "feedX"]) "eth" _ eq_refl) _).
    + vm_compute. reflexivity.
    + right. left. reflexivity.
    + vm_compute. reflexivity.
  - apply (proj1 (proj2 (proj2 merged_rates_start_at_defaults)
                    fresh_as_written eq_refl eq_refl) eq_refl).
  - apply (proj2 (proj2 (proj2 merged_rates_start_at_defaults)
                    fresh eq_refl eq_refl) eq_refl).
Defined.

(** C6 as stated fails on its own scenario: the default rate ["1.0"] of the
    conversion list is stored as that string, so the merged rates are not
    BTC: NaN, USDT: 1.0. *)
Lemma string_default_is_not_a_number :
  _exchange_rate (exec init_config fresh_as_written)
  = [("BTC", VFloat NaN); ("USDT", VStr "1.0")]
  /\ _exchange_rate (exec init_config fresh_as_written)
     <> [("BTC", VFloat NaN); ("USDT", VFloat 1%float)].
Proof.
  evaluate. vm_compute. intros H.
  apply (f_equal (fun t => match Dict.get t "USDT" with
                           | Some (VStr _) => true
                           | _ => false
                           end)) in H.
  discriminate H.
Qed.

(** C9, as amended.  [init_config] returns normally on every input.  When
    building the two mappings raises (an entry with too few elements, a key
    that is not a string, an override whose mappings are not dicts), the
    error is reported and both the effective configuration and the merged
    rates stay as they were; without an override every error is of that
    kind.  A default rate that is not a number is no error: it is stored as
    it is. *)
Theorem init_config_never_raises :
  (forall s, outcome init_config s = Ok tt)
  /\ (forall s e,
         resolve s = Raise e ->
         _exchange_rate_config (exec init_config s) = _exchange_rate_config s
         /\ _exchange_rate (exec init_config s) = _exchange_rate s
         /\ log (exec init_config s) = log s ++ [ErrorInitiatingConfig])
  /\ (forall s,
         _exchange_rate_config_override s = None ->
         log (exec init_config s) <> log s ->
         _exchange_rate_config (exec init_config s) = _exchange_rate_config s
         /\ _exchange_rate (exec init_config s) = _exchange_rate s
         /\ log (exec init_config s) = log s ++ [ErrorInitiatingConfig])
  /\ (forall s default source,
         _exchange_rate_config_override s = None ->
         exchange_rate_fetcher s = VNone ->
         exchange_rate_conversion s
         = VList [VList [VStr "USDT"; default; source]] ->
         log (exec init_config s) = log s
         /\ _exchange_rate (exec init_config s) = [("USDT", default)]).
Proof.
  split; [exact init_config_returns|].
  assert (K : forall s e,
             resolve s = Raise e ->
             _exchange_rate_config (exec init_config s)
             = _exchange_rate_config s
             /\ _exchange_rate (exec init_config s) = _exchange_rate s
             /\ log (exec init_config s) = log s ++ [ErrorInitiatingConfig]).
  { intros s e R. unfold exec. rewrite (init_config_failed _ R).
    repeat split. }
  split; [exact K|]. split.
  - intros s O L. destruct (resolve s) as [cfg|e] eqn:R; [|eapply K, R].
    destruct (resolve_lists_total _ O R) as [rates D].
    exfalso. apply L. unfold exec. now rewrite (init_config_done _ R D).
  - intros s default source O F C.
    assert (R : resolve s =
                Ok ([("USDT", VDict [("default", default);
                                     ("source", source)])], [])).
    { unfold resolve. rewrite O, F, C. reflexivity. }
    unfold exec. rewrite (@init_config_done s _ _ R eq_refl).
    split; reflexivity.
Qed.

Lemma init_config_never_raises_witness :
  (_exchange_rate_config (exec init_config short_entry)
   = _exchange_rate_config short_entry
   /\ _exchange_rate (exec init_config short_entry)
      = _exchange_rate short_entry
   /\ log (exec init_config short_entry)
      = log short_entry ++ [ErrorInitiatingConfig])
  /\ (_exchange_rate_config (exec init_config short_entry)
      = _exchange_rate_config short_entry
      /\ _exchange_rate (exec init_config short_entry)
         = _exchange_rate short_entry
      /\ log (exec init_config short_entry)
         = log short_entry ++ [ErrorInitiatingConfig])
  /\ (log (exec init_config (worded_default (VStr "abc")))
      = log (worded_default (VStr "abc"))
      /\ _exchange_rate (exec init_config (worded_default (VStr "abc")))
         = [("USDT", VStr "abc")]).
Proof.
  split; [|split].
  - apply (proj1 (proj2 init_config_never_raises) short_entry IndexError).
    vm_compute. reflexivity.
  - apply (proj1 (proj2 (proj2 init_config_never_raises)) short_entry).
    + vm_compute. reflexivity.
    + vm_compute. discriminate.
  - apply (proj2 (proj2 (proj2 init_config_never_raises))
             (worded_default (VStr "abc")) (VStr "abc") (VStr "feedX"));
      vm_compute; reflexivity.
Defined.

(** C9 as stated fails twice.  A default rate that is not a number raises
    nothing: no error is reported and the merged rates are replaced.  And an
    override whose [global_config] entry has no default is reported as an
    error after the effective configuration has been replaced, with the
    merged rates left as they were. *)
Lemma malformed_config_is_not_atomic :
  (log (exec init_config reworded) = log reworded
   /\ _exchange_rate reworded = good_prices
   /\ _exchange_rate (exec init_config reworded)
      = [("BTC", VFloat NaN); ("USDT", VStr "abc")]
   /\ _exchange_rate (exec init_config reworded) <> _exchange_rate reworded)
  /\ (log (exec (set_global_exchange_rate_config (Fresh headless))
                refreshed_once)
      = log refreshed_once ++ [ErrorInitiatingConfig]
      /\ _exchange_rate
           (exec (set_global_exchange_rate_config (Fresh headless))
                 refreshed_once)
         = _exchange_rate refreshed_once
      /\ global_config
           (_exchange_rate_config
              (exec (set_global_exchange_rate_config (Fresh headless))
                 refreshed_once))
         = [("ETH", VDict [("source", VStr "feedX")])]
      /\ _exchange_rate_config
           (exec (set_global_exchange_rate_config (Fresh headless))
                 refreshed_once)
         <> _exchange_rate_config refreshed_once).
Proof.
  split.
  - evaluate. vm_compute. intros H.
    apply (f_equal (fun t => match Dict.get t "USDT" with
                             | Some (VStr _) => true
                             | _ => false
                             end)) in H.
    discriminate H.
  - evaluate. vm_compute. intros H.
    apply (f_equal (fun c => length (global_config c))) in H.
    discriminate H.
Qed.

(** ** Suppression of repeated reports *)

Lemma cycled_reports s :
  log (cycled s) =
  log s ++ shown s (misses (_data_feeds s)
                           (global_config (_exchange_rate_config s)))
  /\ _show_update_exchange_rates_from_data_feeds_errors (cycled s) =
     _show_update_exchange_rates_from_data_feeds_errors s
     && negb (nonempty (misses (_data_feeds s)
                               (global_config (_exchange_rate_config s)))).
Proof.
  unfold cycled. cbv zeta. destruct (nonempty _); simpl.
  - split; [reflexivity | now rewrite andb_false_r].
  - split; [reflexivity | now rewrite andb_true_r].
Qed.

Lemma timeout_report_short feeds : length (timeout_report feeds) <= 1.
Proof. unfold timeout_report. destruct (first_timeout feeds); simpl; lia. Qed.

Lemma initial_timeout_once fetcher conversion cc cg :
  timeout_once (initial fetcher conversion cc cg).
Proof. reflexivity. Qed.

(** C8, as amended.  Readiness timeouts: a [wait_till_ready] that starts
    with the flag up reports the first feed that times out, and nothing
    else, and takes the flag down; with the flag down it reports nothing;
    once the flag is down, no operation raises it again or adds a timeout
    report; so a process lifetime has no timeout report while the flag is
    up and exactly one once it is down.  Lookup misses: a
    refresh cycle that starts with the flag up and completes reports every
    miss of that cycle, one report for each asset missed at each feed, and
    takes the flag down if there was any; with the flag down it reports
    nothing; once the flag is down, no operation raises it again or adds a
    miss report. *)
Theorem reports_are_suppressed_after_first :
  (forall s,
      log (exec wait_till_ready s) =
      log s ++ (if _show_wait_till_ready_errors s
                then timeout_report (_data_feeds s) else [])
      /\ _show_wait_till_ready_errors (exec wait_till_ready s) =
         _show_wait_till_ready_errors s
         && negb (nonempty (timeout_report (_data_feeds s)))
      /\ length (timeout_report (_data_feeds s)) <= 1)
  /\ (forall ops s,
         _show_wait_till_ready_errors s = false ->
         _show_wait_till_ready_errors (run ops s) = false
         /\ timeout_reports (run ops s) = timeout_reports s)
  /\ (forall ops fetcher conversion cc cg,
         length (timeout_reports (run ops (initial fetcher conversion cc cg)))
         = if _show_wait_till_ready_errors
                (run ops (initial fetcher conversion cc cg))
           then 0 else 1)
  /\ (forall s,
         sources_typed (global_config (_exchange_rate_config s)) ->
         outcome update_exchange_rates_from_data_feeds s = Ok tt
         /\ log (exec update_exchange_rates_from_data_feeds s) =
            log s ++ (if _show_update_exchange_rates_from_data_feeds_errors s
                      then misses (_data_feeds s)
                                  (global_config (_exchange_rate_config s))
                      else [])
         /\ _show_update_exchange_rates_from_data_feeds_errors
              (exec update_exchange_rates_from_data_feeds s) =
            _show_update_exchange_rates_from_data_feeds_errors s
            && negb (nonempty (misses (_data_feeds s)
                                 (global_config (_exchange_rate_config s)))))
  /\ (forall ops s,
         _show_update_exchange_rates_from_data_feeds_errors s = false ->
         _show_update_exchange_rates_from_data_feeds_errors (run ops s) = false
         /\ miss_reports (run ops s) = miss_reports s).
Proof.
  split; [|split; [|split; [|split]]].
  - intros s. destruct (wait_till_ready_reports s) as [L F].
    repeat split; [exact L | exact F | apply timeout_report_short].
  - intros ops s F.
    apply (run_invariant (timeouts_muted (timeout_reports s))).
    + intros o s0. apply run_op_timeouts_muted.
    + split; [exact F | reflexivity].
  - intros ops fetcher conversion cc cg.
    apply (run_invariant timeout_once).
    + intros o s0. apply run_op_timeout_once.
    + apply initial_timeout_once.
  - intros s T. unfold outcome, exec. rewrite update_total by exact T.
    destruct (cycled_reports s) as [L F]. simpl fst. simpl snd.
    repeat split; [exact L | exact F].
  - intros ops s F.
    apply (run_invariant (misses_muted (miss_reports s))).
    + intros o s0. apply run_op_misses_muted.
    + split; [exact F | reflexivity].
Qed.

Lemma reports_are_suppressed_after_first_witness :
  log (exec wait_till_ready sluggish)
  = log sluggish ++ [WarningErrorInitializingDataFeed "feedX"]
  /\ (_show_wait_till_ready_errors
     (run [WaitTillReady; RequestLoopTurn; InitConfig]
          (exec wait_till_ready sluggish)) = false
   /\ timeout_reports
        (run [WaitTillReady; RequestLoopTurn; InitConfig]
             (exec wait_till_ready sluggish))
      = timeout_reports (exec wait_till_ready sluggish))
  /\ (outcome update_exchange_rates_from_data_feeds unserved = Ok tt
      /\ log (exec update_exchange_rates_from_data_feeds unserved) =
         log unserved
         ++ (if _show_update_exchange_rates_from_data_feeds_errors unserved
             then misses (_data_feeds unserved)
                         (global_config (_exchange_rate_config unserved))
             else [])
      /\ _show_update_exchange_rates_from_data_feeds_errors
           (exec update_exchange_rates_from_data_feeds unserved) =
         _show_update_exchange_rates_from_data_feeds_errors unserved
         && negb (nonempty (misses (_data_feeds unserved)
                              (global_config
                                 (_exchange_rate_config unserved)))))
  /\ (_show_update_exchange_rates_from_data_feeds_errors
        (run [UpdateExchangeRatesFromDataFeeds; RequestLoopTurn]
             (exec update_exchange_rates_from_data_feeds unserved)) = false
      /\ miss_reports
           (run [UpdateExchangeRatesFromDataFeeds; RequestLoopTurn]
                (exec update_exchange_rates_from_data_feeds unserved))
         = miss_reports (exec update_exchange_rates_from_data_feeds unserved)).
Proof.
  split; [|split; [|split]].
  - refine (eq_trans
              (proj1 (proj1 reports_are_suppressed_after_first sluggish)) _).
    vm_compute. reflexivity.
  - apply (proj1 (proj2 reports_are_suppressed_after_first)).
    vm_compute. reflexivity.
  - apply (proj1 (proj2 (proj2 (proj2 reports_are_suppressed_after_first)))).
    intros k c I. vm_compute in I.
    destruct I as [E|[E|[]]]; inversion E; eexists; reflexivity.
  - apply (proj2 (proj2 (proj2 (proj2 reports_are_suppressed_after_first)))).
    vm_compute. reflexivity.
Defined.

(** C8 as stated fails for lookup misses: in the first cycle both BTC and
    USDT are missing from feedX, and the second miss is reported like the
    first. *)
Lemma second_miss_of_a_cycle_is_reported :
  _show_update_exchange_rates_from_data_feeds_errors unserved = true
  /\ miss_reports unserved = []
  /\ miss_reports (exec update_exchange_rates_from_data_feeds unserved)
     = [NetworkNoDataFound "BTC" "feedX"; NetworkNoDataFound "USDT" "feedX"]
  /\ length
       (miss_reports (exec update_exchange_rates_from_data_feeds unserved))
     = 2.
Proof. evaluate. Qed.

(* ===================================================================== *)
(** * Further properties of the class *)
(* ===================================================================== *)

(** ** Starting and stopping *)

Lemma start_run s :
  start s =
  (Ok tt,
   with_started true
     (with_fetch_exchange_rate_task true
        (with_data_feeds (map DataFeed.start (_data_feeds s)) s))).
Proof.
  unfold start, stop, bind, modify. simpl.
  rewrite map_map. reflexivity.
Qed.

Lemma stop_run s :
  stop s =
  (Ok tt,
   with_started false
     (with_fetch_exchange_rate_task false
        (with_data_feeds (map DataFeed.stop (_data_feeds s)) s))).
Proof. reflexivity. Qed.

(** X1.  [start] returns normally and leaves the loop marked as started, a
    polling task scheduled and every feed started, the feeds being the same
    ones in the same order; the cache is untouched; and starting again
    changes nothing. *)
Theorem start_is_idempotent (s : ExchangeRateConversion) :
  outcome start s = Ok tt
  /\ _started (exec start s) = true
  /\ _fetch_exchange_rate_task (exec start s) = true
  /\ _data_feeds (exec start s) = map DataFeed.start (_data_feeds s)
  /\ (forall d, In d (_data_feeds (exec start s)) ->
                DataFeed.started d = true)
  /\ cache (exec start s) = cache s
  /\ log (exec start s) = log s
  /\ exec start (exec start s) = exec start s.
Proof.
  unfold outcome, exec. rewrite !start_run. simpl.
  repeat match goal with |- _ /\ _ => split end; try reflexivity.
  - intros d I. apply in_map_iff in I. destruct I as (d0 & <- & _).
    reflexivity.
  - rewrite map_map. reflexivity.
Qed.

(** X2.  [stop] returns normally, also when nothing was started, and leaves
    the loop marked as not started, no polling task and every feed stopped;
    the cache is untouched; stopping after a start, or stopping twice, is
    the same as stopping once. *)
Theorem stop_undoes_start (s : ExchangeRateConversion) :
  outcome stop s = Ok tt
  /\ _started (exec stop s) = false
  /\ _fetch_exchange_rate_task (exec stop s) = false
  /\ _data_feeds (exec stop s) = map DataFeed.stop (_data_feeds s)
  /\ (forall d, In d (_data_feeds (exec stop s)) ->
                DataFeed.started d = false)
  /\ cache (exec stop s) = cache s
  /\ log (exec stop s) = log s
  /\ exec stop (exec start s) = exec stop s
  /\ exec stop (exec stop s) = exec stop s.
Proof.
  unfold outcome, exec. rewrite !start_run, !stop_run. simpl.
  repeat match goal with |- _ /\ _ => split end; try reflexivity.
  - intros d I. apply in_map_iff in I. destruct I as (d0 & <- & _).
    reflexivity.
  - rewrite map_map. reflexivity.
  - rewrite map_map. reflexivity.
Qed.

Lemma start_is_idempotent_witness :
  DataFeed.started (DataFeed.start (feedX good_prices)) = true.
Proof.
  apply (proj1 (proj2 (proj2 (proj2 (proj2
           (start_is_idempotent (configured good_prices))))))).
  vm_compute. left. reflexivity.
Defined.

Lemma stop_undoes_start_witness :
  DataFeed.started (DataFeed.stop (feedX good_prices)) = false.
Proof.
  apply (proj1 (proj2 (proj2 (proj2 (proj2
           (stop_undoes_start (configured good_prices))))))).
  vm_compute. left. reflexivity.
Defined.

(** ** The conversion API and the cache *)

Lemma cache_stable (c : Config * dict pyval * dict (dict pyval) * bool * bool)
  (source : option string) asset_name price amount from_currency to_currency :
  stable (fun s => cache s = c) (get_exchange_rate source)
  /\ stable (fun s => cache s = c)
            (adjust_token_rate asset_name price source)
  /\ stable (fun s => cache s = c)
            (convert_token_value amount from_currency to_currency source).
Proof.
  repeat split; stable_methods fail; unfold cache in *; simpl; auto.
Qed.

Lemma adjust_token_rate_state asset_name price source s :
  exec (adjust_token_rate asset_name price source) s
  = exec (get_exchange_rate source) (awake s).
Proof.
  unfold exec. rewrite adjust_token_rate_unfold.
  destruct (get_exchange_rate source (awake s)) as [[t|e] s1]; reflexivity.
Qed.

Lemma convert_token_value_state amount from_currency to_currency source s :
  exec (convert_token_value amount from_currency to_currency source) s
  = exec (get_exchange_rate source) (awake s).
Proof.
  unfold exec. rewrite convert_token_value_unfold.
  destruct (get_exchange_rate source (awake s)) as [[t|e] s1]; reflexivity.
Qed.

Lemma get_exchange_rate_log source s :
  exec (get_exchange_rate source) s =
  if source_is source "default"
     && negb (Dict.mem (_all_data_feed_exchange_rate s) DEFAULT_DATA_FEED_NAME)
  then with_log (log s ++ [ErrorDefaultFeedMissing]) s
  else s.
Proof.
  unfold exec, get_exchange_rate, bind, gets.
  destruct (source_is source "default"); simpl.
  - destruct (Dict.mem _ DEFAULT_DATA_FEED_NAME); reflexivity.
  - destruct (source_in source _); [destruct source; reflexivity|].
    destruct (source_is source "config"); reflexivity.
Qed.

(** X3.  [get_exchange_rate], [adjust_token_rate] and
    [convert_token_value] never write the cache: whatever the arguments and
    whether they return or raise, the resolved configuration, the merged
    rates, the snapshots and the two suppression flags are afterwards what
    they were. *)
Theorem conversion_api_leaves_cache
  (s : ExchangeRateConversion) (source : option string)
  (asset_name : string) (price amount : float)
  (from_currency to_currency : string) :
  cache (exec (get_exchange_rate source) s) = cache s
  /\ cache (exec (adjust_token_rate asset_name price source) s) = cache s
  /\ cache (exec (convert_token_value amount from_currency to_currency source)
                 s) = cache s.
Proof.
  destruct (cache_stable (cache s) source asset_name price amount
              from_currency to_currency) as (G & A & C).
  repeat split; [apply G | apply A | apply C]; reflexivity.
Qed.

(** X4.  What [adjust_token_rate] and [convert_token_value] leave behind
    does not depend on the asset, the price, the amount or the pair: it is
    the state of [get_exchange_rate(source)] after the lazy start.  The loop
    is marked as started afterwards even when the call raises; when it was
    started already, the feeds and the task are not touched; and the only
    report either call can add is the one of a missing default feed. *)
Theorem conversion_calls_start_lazily
  (s : ExchangeRateConversion) (source : option string)
  (asset_name : string) (price amount : float)
  (from_currency to_currency : string) :
  exec (adjust_token_rate asset_name price source) s
  = exec (convert_token_value amount from_currency to_currency source) s
  /\ _started (exec (adjust_token_rate asset_name price source) s) = true
  /\ (_started s = true ->
      _data_feeds (exec (adjust_token_rate asset_name price source) s)
      = _data_feeds s
      /\ _fetch_exchange_rate_task
           (exec (adjust_token_rate asset_name price source) s)
         = _fetch_exchange_rate_task s)
  /\ (_started s = false ->
      _data_feeds (exec (adjust_token_rate asset_name price source) s)
      = map DataFeed.start (_data_feeds s)
      /\ _fetch_exchange_rate_task
           (exec (adjust_token_rate asset_name price source) s)
         = true)
  /\ log (exec (adjust_token_rate asset_name price source) s)
     = log s
       ++ (if source_is source "default"
              && negb (Dict.mem (_all_data_feed_exchange_rate s)
                                DEFAULT_DATA_FEED_NAME)
           then [ErrorDefaultFeedMissing] else []).
Proof.
  rewrite adjust_token_rate_state, convert_token_value_state.
  split; [reflexivity|].
  rewrite get_exchange_rate_log.
  destruct (awake_tables s) as (A & _ & _). rewrite A.
  assert (W : awake s
              = if _started s then s
                else with_started true
                       (with_fetch_exchange_rate_task true
                          (with_data_feeds
                             (map DataFeed.start (_data_feeds s)) s))).
  { unfold awake, exec. rewrite start_run. reflexivity. }
  rewrite W.
  destruct (_started s) eqn:St;
    destruct (source_is source "default" && negb (Dict.mem _ _)); simpl;
    rewrite ?app_nil_r; repeat split; try assumption; try reflexivity;
    intros; discriminate.
Qed.

Lemma conversion_calls_start_lazily_witness :
  (_data_feeds (exec (adjust_token_rate "usdt" 10%float None)
                     (configured good_prices))
   = map DataFeed.start (_data_feeds (configured good_prices))
   /\ _fetch_exchange_rate_task
        (exec (adjust_token_rate "usdt" 10%float None)
              (configured good_prices)) = true)
  /\ (_data_feeds (exec (adjust_token_rate "usdt" 10%float None)
                        (exec start (configured good_prices)))
      = _data_feeds (exec start (configured good_prices))
      /\ _fetch_exchange_rate_task
           (exec (adjust_token_rate "usdt" 10%float None)
                 (exec start (configured good_prices)))
         = _fetch_exchange_rate_task (exec start (configured good_prices))).
Proof.
  split.
  - apply (proj1 (proj2 (proj2 (proj2
             (conversion_calls_start_lazily (configured good_prices) None
                "usdt" 10%float 10%float "ETH" "WETH"))))).
    vm_compute. reflexivity.
  - apply (proj1 (proj2 (proj2
             (conversion_calls_start_lazily
                (exec start (configured good_prices)) None
                "usdt" 10%float 10%float "ETH" "WETH")))).
    vm_compute. reflexivity.
Defined.

(** X5.  Asset names count without regard to case: two names with the same
    upper-case form give the same result and the same final state in
    [adjust_token_rate], and likewise two pairs in [convert_token_value]. *)
Theorem asset_names_are_case_insensitive
  (s : ExchangeRateConversion) (source : option string)
  (price amount : float) (a a' b b' : string) :
  Str.upper a = Str.upper a' ->
  Str.upper b = Str.upper b' ->
  adjust_token_rate a price source s = adjust_token_rate a' price source s
  /\ convert_token_value amount a b source s
     = convert_token_value amount a' b' source s.
Proof.
  intros Ea Eb.
  rewrite !adjust_token_rate_unfold, !convert_token_value_unfold.
  now rewrite Ea, Eb.
Qed.

Lemma asset_names_are_case_insensitive_witness :
  adjust_token_rate "usdt" 10%float (Some "config") refreshed_once
  = adjust_token_rate "UsDt" 10%float (Some "config") refreshed_once
  /\ convert_token_value 2%float "usdt" "btc" (Some "config") refreshed_once
     = convert_token_value 2%float "UsDt" "BTC" (Some "config") refreshed_once.
Proof.
  apply (@asset_names_are_case_insensitive refreshed_once (Some "config")
           10%float 2%float "usdt" "UsDt" "btc" "BTC");
    vm_compute; reflexivity.
Defined.

(** X6.  For a pair other than ETH and WETH and a source that resolves to a
    table in which both assets have a rate that is a number and not NaN:
    [convert_token_value] raises ZeroDivisionError when the rate of the
    target asset is zero, and returns [amount * rate_from / rate_to]
    otherwise. *)
Theorem conversion_divides_by_target_rate
  (s : ExchangeRateConversion) (amount : float)
  (from_currency to_currency : string) (source : option string)
  (table : dict pyval) (x y : float) :
  outcome (get_exchange_rate source) s = Ok table ->
  eth_weth (Str.upper from_currency) (Str.upper to_currency) = false ->
  Dict.get table (Str.upper from_currency) = Some (VFloat x) ->
  Dict.get table (Str.upper to_currency) = Some (VFloat y) ->
  PrimFloat.is_nan x = false ->
  PrimFloat.is_nan y = false ->
  outcome (convert_token_value amount from_currency to_currency source) s
  = if PrimFloat.eqb y 0%float then Raise ZeroDivisionError
    else Ok (PrimFloat.div (PrimFloat.mul amount x) y).
Proof.
  intros R P Gx Gy Nx Ny.
  rewrite convert_token_value_outcome, R, P.
  unfold converted, Dict.get_default. cbv zeta. rewrite Gx, Gy. simpl.
  rewrite Nx. simpl. rewrite Ny. simpl. reflexivity.
Qed.

Lemma conversion_divides_by_target_rate_witness :
  outcome (convert_token_value 2%float "usdt" "btc" (Some "config"))
          zero_cycled
  = Raise ZeroDivisionError
  /\ outcome (convert_token_value 2%float "btc" "usdt" (Some "config"))
             refreshed_once
     = Ok 100000%float.
Proof.
  split.
  - apply (@conversion_divides_by_target_rate zero_cycled 2%float
             "usdt" "btc" (Some "config") (_exchange_rate zero_cycled)
             1%float 0%float);
      vm_compute; reflexivity.
  - apply (@conversion_divides_by_target_rate refreshed_once 2%float
             "btc" "usdt" (Some "config") (_exchange_rate refreshed_once)
             50000%float 1%float);
      vm_compute; reflexivity.
Defined.

(** X7.  [adjust_token_rate] tests the asset against [conversion_required]
    and the merged rates but reads the rate from the table of the source: an
    asset that passes the test and is missing from that table makes the call
    raise KeyError, and one whose entry there is not a number makes it raise
    TypeError. *)
Theorem adjust_token_rate_missing_in_source
  (s : ExchangeRateConversion) (asset_name : string) (price : float)
  (source : option string) (table : dict pyval) :
  outcome (get_exchange_rate source) s = Ok table ->
  Dict.mem (conversion_required (_exchange_rate_config s))
           (Str.upper asset_name) = true ->
  Dict.mem (_exchange_rate s) (Str.upper asset_name) = true ->
  (Dict.get table (Str.upper asset_name) = None ->
   outcome (adjust_token_rate asset_name price source) s = Raise KeyError)
  /\ (forall entry,
         Dict.get table (Str.upper asset_name) = Some entry ->
         (forall x, entry <> VFloat x) ->
         outcome (adjust_token_rate asset_name price source) s
         = Raise TypeError).
Proof.
  intros R Mc Mr. rewrite adjust_token_rate_outcome, R, Mc, Mr. simpl.
  unfold subscript. split.
  - intros ->. reflexivity.
  - intros entry -> N. simpl.
    destruct entry; try reflexivity. now destruct (N f).
Qed.

Lemma adjust_token_rate_missing_in_source_witness :
  outcome (adjust_token_rate "usdt" 10%float (Some "feedX")) partly_served
  = Raise KeyError
  /\ outcome (adjust_token_rate "usdt" 10%float (Some "config"))
             (exec init_config fresh_as_written)
     = Raise TypeError.
Proof.
  split.
  - apply (proj1 (@adjust_token_rate_missing_in_source partly_served
                    "usdt" 10%float (Some "feedX")
                    [("BTC", VFloat 50000%float)] eq_refl eq_refl eq_refl)).
    vm_compute. reflexivity.
  - apply (proj2 (@adjust_token_rate_missing_in_source
                    (exec init_config fresh_as_written)
                    "usdt" 10%float (Some "config")
                    [("BTC", VFloat NaN); ("USDT", VStr "1.0")]
                    eq_refl eq_refl eq_refl) (VStr "1.0")).
    + vm_compute. reflexivity.
    + intros x. discriminate.
Defined.

(** ** More on the refresh cycle *)

Lemma snapshots_after_get feeds (snapshots : dict (dict pyval)) n :
  Dict.get (snapshots_after feeds snapshots) n =
  match find (named n) (rev feeds) with
  | Some d => Some (DataFeed.price_dict d)
  | None => Dict.get snapshots n
  end.
Proof.
  unfold snapshots_after. revert snapshots.
  induction feeds as [|d feeds IH]; intros snapshots; simpl; [reflexivity|].
  rewrite IH, find_append.
  destruct (find (named n) (rev feeds)); [reflexivity|].
  simpl. unfold named. destruct (String.eqb (DataFeed.name d) n) eqn:E.
  - apply String.eqb_eq in E. subst n. apply get_set_eq.
  - apply String.eqb_neq in E. apply get_set_neq. congruence.
Qed.

Lemma update_snapshots s :
  _all_data_feed_exchange_rate (exec update_exchange_rates_from_data_feeds s)
  = snapshots_after (_data_feeds s) (_all_data_feed_exchange_rate s).
Proof.
  assert (St : stable
                 (fun s' => _all_data_feed_exchange_rate s'
                            = snapshots_after (_data_feeds s)
                                (_all_data_feed_exchange_rate s))
                 (has_errors <- for_fold (_data_feeds s) false refresh_feed ;;
                  when has_errors
                    (modify
                       (with_show_update_exchange_rates_from_data_feeds_errors
                          false)))).
  { stable_methods fail; simpl; auto. }
  unfold update_exchange_rates_from_data_feeds, exec.
  unfold bind at 1. unfold gets at 1. unfold bind at 1.
  rewrite snapshots_total. apply St. reflexivity.
Qed.

(** X8.  After a refresh cycle, whether it completed or raised, the snapshot
    kept under a name is the price map of the last feed of the list with
    that name, and the snapshot kept under a name that no feed of the list
    has is the one that was there before: snapshots are replaced whole and
    never removed. *)
Theorem snapshots_are_replaced_whole
  (s : ExchangeRateConversion) (name : string) :
  Dict.get
    (_all_data_feed_exchange_rate
       (exec update_exchange_rates_from_data_feeds s)) name
  = match find (named name) (rev (_data_feeds s)) with
    | Some d => Some (DataFeed.price_dict d)
    | None => Dict.get (_all_data_feed_exchange_rate s) name
    end.
Proof. rewrite update_snapshots. apply snapshots_after_get. Qed.

Lemma in_get_wf {V : Type} (d : dict V) k v :
  wf_dict d -> In (k, v) d -> Dict.get d k = Some v.
Proof.
  unfold wf_dict. induction d as [|[k' v'] d IH]; intros W I; [destruct I|].
  inversion W as [|? ? N W']; subst. simpl.
  destruct I as [E|I].
  - injection E as -> ->. now rewrite String.eqb_refl.
  - destruct (String.eqb k k') eqn:E.
    + apply String.eqb_eq in E. subst k'. exfalso. apply N.
      unfold Dict.keys. apply in_map_iff. exists (k, v). auto.
    + apply IH; assumption.
Qed.

Lemma rates_after_unserved feeds items rates a config :
  keys_normal items ->
  Dict.get items a = Some config ->
  (forall d, In d feeds -> found d (a, config) = false) ->
  Dict.get (rates_after feeds items rates) a = Dict.get rates a.
Proof.
  intros K G H. rewrite (@rates_after_get feeds items rates a config K G).
  rewrite find_none_all; [reflexivity|].
  intros d I. apply H. now apply in_rev.
Qed.

Lemma rates_after_other feeds items rates a :
  (forall k, In k (Dict.keys items) -> Str.upper k <> a) ->
  Dict.get (rates_after feeds items rates) a = Dict.get rates a.
Proof.
  intros H. unfold rates_after. revert rates.
  induction feeds as [|d feeds IH]; intros rates; simpl; [reflexivity|].
  rewrite IH. now apply rates_after_feed_other.
Qed.

Lemma misses_name feeds items a n :
  keys_normal items ->
  In (NetworkNoDataFound a n) (misses feeds items) ->
  exists d config,
    In d feeds /\ DataFeed.name d = n /\ Dict.get items a = Some config
    /\ missed d (a, config) = true.
Proof.
  intros [W U] I. unfold misses in I. apply in_flat_map in I.
  destruct I as (d & Id & I). unfold misses_of_feed in I.
  apply in_flat_map in I. destruct I as ([k c] & Ii & I).
  destruct (missed d (k, c)) eqn:M; [|destruct I].
  destruct I as [E|[]]. simpl in E. injection E as Ek En.
  assert (Uk : Str.upper k = k).
  { apply U. unfold Dict.keys. apply in_map_iff. exists (k, c). auto. }
  rewrite Uk in Ek. subst k. exists d, c.
  repeat split; auto using in_get_wf.
Qed.

(** X9.  In a refresh cycle over string sources, an asset of
    [global_config] whose source matches the name of no feed in the list
    keeps its merged rate, and the cycle reports no miss for it: such an
    asset goes stale silently. *)
Theorem unmatched_source_is_silent
  (s : ExchangeRateConversion) (a : string) (config : pyval) :
  normal_state s ->
  sources_typed (global_config (_exchange_rate_config s)) ->
  Dict.get (global_config (_exchange_rate_config s)) a = Some config ->
  (forall d, In d (_data_feeds s) -> source_matches d config = false) ->
  outcome update_exchange_rates_from_data_feeds s = Ok tt
  /\ Dict.get (_exchange_rate (exec update_exchange_rates_from_data_feeds s))
              a
     = Dict.get (_exchange_rate s) a
  /\ forall name,
       In (NetworkNoDataFound a name)
          (log (exec update_exchange_rates_from_data_feeds s)) ->
       In (NetworkNoDataFound a name) (log s).
Proof.
  intros N T G H. unfold outcome, exec. rewrite update_total by exact T.
  simpl fst. simpl snd. split; [reflexivity|].
  assert (R : _exchange_rate (cycled s) =
              rates_after (_data_feeds s)
                (global_config (_exchange_rate_config s)) (_exchange_rate s)).
  { unfold cycled. cbv zeta. destruct (nonempty _); reflexivity. }
  split.
  - rewrite R. apply (@rates_after_unserved _ _ _ a config N G).
    intros d I. apply found_unmatched. simpl. now apply H.
  - intros name I. destruct (cycled_reports s) as [L _]. rewrite L in I.
    apply in_app_or in I. destruct I as [I|I]; [exact I|].
    unfold shown in I.
    destruct (_show_update_exchange_rates_from_data_feeds_errors s);
      [|destruct I].
    destruct (@misses_name _ _ a name N I) as (d & c & Id & _ & Gc & M).
    rewrite G in Gc. injection Gc as <-.
    unfold missed in M. simpl in M. rewrite (H d Id) in M. discriminate.
Qed.

Lemma keys_rates_after_item d rates item :
  In (Str.upper (fst item)) (Dict.keys rates) ->
  Dict.keys (rates_after_item d rates item) = Dict.keys rates.
Proof.
  intros I. unfold rates_after_item. destruct (found d item); [|reflexivity].
  now apply keys_set_present.
Qed.

Lemma keys_rates_after_feed d items rates :
  (forall k, In k (Dict.keys items) -> In (Str.upper k) (Dict.keys rates)) ->
  Dict.keys (rates_after_feed items rates d) = Dict.keys rates.
Proof.
  unfold rates_after_feed. revert rates.
  induction items as [|item items IH]; intros rates H; simpl; [reflexivity|].
  assert (E : Dict.keys (rates_after_item d rates item) = Dict.keys rates).
  { apply keys_rates_after_item, H. now left. }
  rewrite IH; [exact E|].
  intros k I. rewrite E. apply H. now right.
Qed.

Lemma keys_rates_after feeds items rates :
  (forall k, In k (Dict.keys items) -> In (Str.upper k) (Dict.keys rates)) ->
  Dict.keys (rates_after feeds items rates) = Dict.keys rates.
Proof.
  unfold rates_after. revert rates.
  induction feeds as [|d feeds IH]; intros rates H; simpl; [reflexivity|].
  assert (E : Dict.keys (rates_after_feed items rates d) = Dict.keys rates).
  { now apply keys_rates_after_feed. }
  rewrite IH; [exact E|]. intros k I. rewrite E. now apply H.
Qed.

Lemma cycled_rates s :
  _exchange_rate (cycled s) =
  rates_after (_data_feeds s) (global_config (_exchange_rate_config s))
              (_exchange_rate s).
Proof. unfold cycled. cbv zeta. destruct (nonempty _); reflexivity. Qed.

(** X10.  When the merged rates hold every asset of [global_config] in its
    upper-case form, a refresh cycle over string sources changes values
    only: the merged rates have the same assets in the same order
    afterwards. *)
Theorem refresh_keeps_the_assets (s : ExchangeRateConversion) :
  sources_typed (global_config (_exchange_rate_config s)) ->
  (forall k,
      In k (Dict.keys (global_config (_exchange_rate_config s))) ->
      In (Str.upper k) (Dict.keys (_exchange_rate s))) ->
  Dict.keys (_exchange_rate (exec update_exchange_rates_from_data_feeds s))
  = Dict.keys (_exchange_rate s).
Proof.
  intros T H. unfold exec. rewrite update_total by exact T. simpl snd.
  rewrite cycled_rates. now apply keys_rates_after.
Qed.

(** X11.  After an [init_config] that reports no error, the merged rates
    have exactly the assets of [global_config], in the same order: whatever
    the table held before is gone. *)
Theorem init_config_replaces_merged_rates (s : ExchangeRateConversion) :
  log (exec init_config s) = log s ->
  Dict.keys (_exchange_rate (exec init_config s))
  = Dict.keys (global_config (_exchange_rate_config (exec init_config s))).
Proof.
  intros Q. destruct (init_config_quiet _ Q) as (cfg & rates & R & D & E).
  rewrite E. simpl. destruct (resolve_wf _ R) as [_ Wg].
  pose proof (committed_wf cfg Wg) as Wm.
  unfold default_rates in D.
  change (rmap _ (global_config (committed cfg)))
    with (rmap default_item (global_config (committed cfg))) in D.
  destruct (rmap default_item (global_config (committed cfg)))
    as [its|e] eqn:Rm; simpl in D; [|discriminate].
  injection D as <-.
  pose proof (default_items_keys _ Rm) as K.
  rewrite of_items_wf; [exact K|]. unfold wf_dict. now rewrite K.
Qed.

(** X12.  In a refresh cycle over string sources, the merged rates depend
    on the feeds only: running a second cycle at once, with the feeds as
    they were, changes the merged rate of no asset. *)
Theorem refresh_twice_is_refresh_once
  (s : ExchangeRateConversion) (a : string) :
  normal_state s ->
  sources_typed (global_config (_exchange_rate_config s)) ->
  Dict.get
    (_exchange_rate
       (exec update_exchange_rates_from_data_feeds
          (exec update_exchange_rates_from_data_feeds s))) a
  = Dict.get (_exchange_rate (exec update_exchange_rates_from_data_feeds s)) a.
Proof.
  intros N T. unfold exec. rewrite (update_total s) by exact T. simpl snd.
  assert (C : _exchange_rate_config (cycled s) = _exchange_rate_config s).
  { unfold cycled. cbv zeta. destruct (nonempty _); reflexivity. }
  assert (F : _data_feeds (cycled s) = _data_feeds s).
  { unfold cycled. cbv zeta. destruct (nonempty _); reflexivity. }
  rewrite (update_total (cycled s)) by (rewrite C; exact T). simpl snd.
  rewrite (cycled_rates (cycled s)), C, F, cycled_rates.
  destruct (Dict.get (global_config (_exchange_rate_config s)) a)
    as [config|] eqn:G.
  - rewrite !(@rates_after_get _ _ _ a config N G).
    destruct (find _ (rev (_data_feeds s))); reflexivity.
  - apply rates_after_other. intros k I Ek.
    destruct N as [_ U]. rewrite (U k I) in Ek. subst k.
    apply get_none_keys in G. contradiction.
Qed.

(** Proves [sources_typed] of a concrete configuration. *)
Ltac typed_sources :=
  intros ? ? I; vm_compute in I;
  repeat (destruct I as [E|I]; [inversion E; eexists; reflexivity|]);
  destruct I.

Lemma unmatched_source_is_silent_witness :
  Dict.get
    (_exchange_rate (exec update_exchange_rates_from_data_feeds mismatched))
    "USDT"
  = Dict.get (_exchange_rate mismatched) "USDT".
Proof.
  refine (proj1 (proj2 (@unmatched_source_is_silent mismatched "USDT"
                          (VDict [("default", VFloat 1%float);
                                  ("source", VStr "feedX")]) _ _ _ _))).
  - apply run_normal, initial_normal.
  - typed_sources.
  - vm_compute. reflexivity.
  - intros d I. vm_compute in I. destruct I as [<-|[]].
    vm_compute. reflexivity.
Defined.

Lemma refresh_keeps_the_assets_witness :
  Dict.keys
    (_exchange_rate
       (exec update_exchange_rates_from_data_feeds (configured good_prices)))
  = Dict.keys (_exchange_rate (configured good_prices)).
Proof.
  apply (@refresh_keeps_the_assets (configured good_prices)).
  - typed_sources.
  - intros k I. vm_compute in I.
    destruct I as [<-|[<-|[]]]; vm_compute; tauto.
Defined.

Lemma init_config_replaces_merged_rates_witness :
  Dict.keys (_exchange_rate (exec init_config reworded))
  = Dict.keys
      (global_config (_exchange_rate_config (exec init_config reworded))).
Proof.
  apply (@init_config_replaces_merged_rates reworded).
  vm_compute. reflexivity.
Defined.

Lemma refresh_twice_is_refresh_once_witness :
  Dict.get
    (_exchange_rate
       (exec update_exchange_rates_from_data_feeds
          (exec update_exchange_rates_from_data_feeds
             (configured good_prices)))) "BTC"
  = Dict.get
      (_exchange_rate
         (exec update_exchange_rates_from_data_feeds
            (configured good_prices))) "BTC".
Proof.
  apply (@refresh_twice_is_refresh_once (configured good_prices) "BTC").
  - apply run_normal, initial_normal.
  - typed_sources.
Defined.

(** ** More on the configuration *)

Lemma init_config_required : stable required_state init_config.
Proof.
  intros s H. unfold exec, required_state.
  assert (K : forall cfg, resolve s = Ok cfg -> keys_normal (fst cfg)).
  { intros cfg R. destruct (resolve_wf _ R) as [Wc _]. split; [exact Wc|].
    intros k I. eapply resolve_upper; [exact R | now left]. }
  destruct (resolve s) as [cfg|e] eqn:R.
  - destruct (default_rates (global_config (committed cfg))) eqn:D.
    + rewrite (init_config_done _ R D). simpl. now apply K.
    + rewrite (init_config_half _ R D). simpl. now apply K.
  - rewrite (init_config_failed _ R). simpl. exact H.
Qed.

Lemma run_op_required o s : required_state s -> required_state (run_op o s).
Proof.
  revert s. destruct o; simpl run_op;
    try (by_method required_state;
         stable_methods ltac:(apply init_config_required);
         simpl; auto; fail).
  intros s H. exact H.
Qed.

(** X13.  From the initial state and after any sequence of operations, the
    keys of [global_config] and of [conversion_required] are in upper case
    and each occurs once. *)
Theorem config_keys_are_upper_case
  (ops : list op) (fetcher conversion : pyval) (cc cg : DataFeed.t) :
  let c := _exchange_rate_config (run ops (initial fetcher conversion cc cg)) in
  NoDup (Dict.keys (global_config c))
  /\ (forall k, In k (Dict.keys (global_config c)) -> Str.upper k = k)
  /\ NoDup (Dict.keys (conversion_required c))
  /\ (forall k, In k (Dict.keys (conversion_required c)) -> Str.upper k = k).
Proof.
  assert (G : normal_state (run ops (initial fetcher conversion cc cg))).
  { apply run_normal, initial_normal. }
  assert (C : required_state (run ops (initial fetcher conversion cc cg))).
  { apply (run_invariant required_state).
    - intros o s. apply run_op_required.
    - split; [constructor | intros k []]. }
  destruct G as [G1 G2], C as [C1 C2]. repeat split; assumption.
Qed.

Lemma config_keys_are_upper_case_witness :
  Str.upper "USDT" = "USDT".
Proof.
  apply (proj1 (proj2 (config_keys_are_upper_case
                         [GetInstance]
                         (VList [VList [VStr "usdt"; VStr "feedY"]])
                         scenario_conversion_numeric coin_cap coin_gecko))).
  vm_compute. left. reflexivity.
Defined.





Lemma resolve_ext s1 s2 :
  _exchange_rate_config_override s1 = _exchange_rate_config_override s2 ->
  exchange_rate_fetcher s1 = exchange_rate_fetcher s2 ->
  exchange_rate_conversion s1 = exchange_rate_conversion s2 ->
  resolve s1 = resolve s2.
Proof. intros O F C. unfold resolve. now rewrite O, F, C. Qed.

Lemma resolve_override s o :
  _exchange_rate_config_override s = Some o ->
  resolve s =
  (let? global_config :=
     upper_keys (Dict.get_default o "global_config" (VDict [])) in
   let? conversion_required :=
     upper_keys (Dict.get_default o "conversion_required" (VDict [])) in
   Ok (conversion_required, global_config)).
Proof. intros O. unfold resolve. rewrite O. reflexivity. Qed.

(** X15.  While an override is installed, the two lists of
    [global_config_map] play no part: whatever they hold, malformed or not,
    [init_config] leaves the same configuration and merged rates and makes
    the same reports. *)
Theorem override_shadows_config_lists
  (s : ExchangeRateConversion) (o : dict pyval) (fetcher conversion : pyval) :
  _exchange_rate_config_override s = Some o ->
  let s' :=
    with_exchange_rate_fetcher fetcher
      (with_exchange_rate_conversion conversion s) in
  _exchange_rate_config (exec init_config s')
  = _exchange_rate_config (exec init_config s)
  /\ _exchange_rate (exec init_config s') = _exchange_rate (exec init_config s)
  /\ log (exec init_config s') = log (exec init_config s).
Proof.
  intros O s'.
  assert (R : resolve s' = resolve s).
  { rewrite (resolve_override s O). now apply resolve_override. }
  unfold exec.
  destruct (resolve s) as [cfg|e] eqn:Rs.
  - destruct (default_rates (global_config (committed cfg))) eqn:D.
    + rewrite (init_config_done _ R D), (init_config_done _ Rs D).
      repeat split.
    + rewrite (init_config_half _ R D), (init_config_half _ Rs D).
      repeat split.
  - rewrite (init_config_failed _ R), (init_config_failed _ Rs).
    repeat split.
Qed.

Lemma override_shadows_config_lists_witness :
  _exchange_rate
    (exec init_config
       (with_exchange_rate_fetcher (VStr "nonsense")
          (with_exchange_rate_conversion (VList [VList [VStr "USDT"]])
             overridden)))
  = _exchange_rate (exec init_config overridden).
Proof.
  apply (proj1 (proj2 (@override_shadows_config_lists overridden
                         [("conversion_required",
                           VDict [("usdt",
                                   VDict [("default", VFloat 1%float);
                                          ("source", VStr "feedX")])])]
                         (VStr "nonsense") (VList [VList [VStr "USDT"]])
                         eq_refl))).
Defined.

(** X16.  Once the shared instance exists and [global_config] has an asset,
    [get_instance] changes nothing.  While [global_config] is empty it
    resolves the configuration again on every call: when that resolution
    raises, each call adds one more error report and leaves the class where
    the next call does the same. *)
Theorem get_instance_retries_while_empty (s : ExchangeRateConversion) :
  _erc_shared_instance s = true ->
  (global_config (_exchange_rate_config s) <> [] ->
   get_instance s = (Ok tt, s))
  /\ (forall e n,
         global_config (_exchange_rate_config s) = [] ->
         resolve s = Raise e ->
         log (run (repeat GetInstance n) s)
         = log s ++ repeat ErrorInitiatingConfig n
         /\ global_config (_exchange_rate_config (run (repeat GetInstance n) s))
            = []).
Proof.
  intros I. split.
  - intros N. unfold get_instance, bind, gets. rewrite I. simpl.
    destruct (global_config (_exchange_rate_config s)); [contradiction|].
    reflexivity.
  - intros e n. revert s I. induction n as [|n IH]; intros s I G R.
    + simpl. now rewrite app_nil_r.
    + simpl repeat. unfold run. simpl fold_left.
      assert (E : exec get_instance s
                  = with_log (log s ++ [ErrorInitiatingConfig])
                      (with_data_feeds (chosen_feeds s) s)).
      { unfold exec, get_instance, bind, gets. rewrite I.
        change (negb true) with false. cbv beta iota. rewrite G.
        change (negb (Py.truthy (VDict []))) with true. cbv beta iota.
        now rewrite (init_config_failed _ R). }
      rewrite E.
      destruct (IH (with_log (log s ++ [ErrorInitiatingConfig])
                      (with_data_feeds (chosen_feeds s) s)))
        as [L G']; [exact I | exact G | | ].
      * rewrite <- R. now apply resolve_ext.
      * unfold run in L, G'. rewrite L, G'. simpl.
        rewrite <- app_assoc. split; reflexivity.
Qed.

Lemma get_instance_retries_while_empty_witness :
  get_instance refreshed_once = (Ok tt, refreshed_once)
  /\ log (run (repeat GetInstance 3) (exec get_instance short_fetch))
     = log (exec get_instance short_fetch)
       ++ repeat ErrorInitiatingConfig 3.
Proof.
  split.
  - apply (proj1 (@get_instance_retries_while_empty refreshed_once eq_refl)).
    vm_compute. discriminate.
  - apply (proj2 (@get_instance_retries_while_empty
                    (exec get_instance short_fetch) eq_refl)
             IndexError 3);
      vm_compute; reflexivity.
Defined.

(** ** More on the polling loop *)

Lemma awaits_outcome feeds s :
  outcome (for_each feeds await_ready) s =
  match first_failure feeds with
  | Some e => Raise e
  | None => Ok tt
  end.
Proof.
  unfold outcome. revert s.
  induction feeds as [|d feeds IH]; intros s; [reflexivity|].
  simpl for_each. simpl first_failure. unfold bind.
  rewrite await_ready_run.
  destruct (DataFeed.get_ready d); simpl; try apply IH. reflexivity.
Qed.

Lemma wait_till_ready_frame
  (c : Config * dict pyval * dict (dict pyval) * bool * list DataFeed.t
       * bool) :
  stable (fun s => (_exchange_rate_config s, _exchange_rate s,
                    _all_data_feed_exchange_rate s,
                    _show_update_exchange_rates_from_data_feeds_errors s,
                    _data_feeds s, _ready_notifier s) = c)
         wait_till_ready.
Proof. stable_methods fail; simpl; auto. Qed.

Lemma wait_till_ready_facts (s : ExchangeRateConversion) :
  outcome wait_till_ready s =
  match first_failure (_data_feeds s) with
  | Some e => Raise e
  | None => Ok tt
  end
  /\ _exchange_rate_config (exec wait_till_ready s) = _exchange_rate_config s
  /\ _exchange_rate (exec wait_till_ready s) = _exchange_rate s
  /\ _all_data_feed_exchange_rate (exec wait_till_ready s)
     = _all_data_feed_exchange_rate s
  /\ _show_update_exchange_rates_from_data_feeds_errors
       (exec wait_till_ready s)
     = _show_update_exchange_rates_from_data_feeds_errors s
  /\ _data_feeds (exec wait_till_ready s) = _data_feeds s.
Proof.
  split; [apply (awaits_outcome (_data_feeds s) s)|].
  pose proof (@wait_till_ready_frame _ s eq_refl) as H.
  injection H as H1 H2 H3 H4 H5 H6. repeat split; assumption.
Qed.

(** X17.  [wait_till_ready] returns as soon as every feed either is ready
    or has timed out, so a feed that never becomes ready does not stop it;
    it raises only the exception of the first feed whose [get_ready] fails
    otherwise.  Either way it leaves the configuration, the merged rates,
    the snapshots, the feeds and the lookup-miss flag as they were. *)
Theorem wait_till_ready_only_waits (s : ExchangeRateConversion) :
  outcome wait_till_ready s =
  match first_failure (_data_feeds s) with
  | Some e => Raise e
  | None => Ok tt
  end
  /\ _exchange_rate_config (exec wait_till_ready s) = _exchange_rate_config s
  /\ _exchange_rate (exec wait_till_ready s) = _exchange_rate s
  /\ _all_data_feed_exchange_rate (exec wait_till_ready s)
     = _all_data_feed_exchange_rate s
  /\ _show_update_exchange_rates_from_data_feeds_errors
       (exec wait_till_ready s)
     = _show_update_exchange_rates_from_data_feeds_errors s
  /\ _data_feeds (exec wait_till_ready s) = _data_feeds s.
Proof.
  split; [apply (awaits_outcome (_data_feeds s) s)|].
  pose proof (@wait_till_ready_frame _ s eq_refl) as H.
  injection H as H1 H2 H3 H4 H5 H6. repeat split; assumption.
Qed.

Lemma request_loop_turn_run s :
  request_loop_turn s =
  match wait_till_ready s with
  | (Ok _, s1) =>
      match update_exchange_rates_from_data_feeds s1 with
      | (Ok _, s2) => (Ok tt, with_ready_notifier true s2)
      | (Raise e, s2) => handled e s2
      end
  | (Raise e, s1) => handled e s1
  end.
Proof.
  unfold request_loop_turn, try_except. unfold bind at 1.
  destruct (wait_till_ready s) as [[[]|e] s1]; [|destruct e; reflexivity].
  unfold bind at 1.
  destruct (update_exchange_rates_from_data_feeds s1) as [[[]|e] s2];
    [reflexivity | destruct e; reflexivity].
Qed.

(** *** The refresh cycle is never cancelled: it awaits nothing *)

Lemma uncancelled_ret {A : Type} (a : A) : uncancelled (ret a).
Proof. intros s. discriminate. Qed.

Lemma uncancelled_gets {A : Type} (f : ExchangeRateConversion -> A) :
  uncancelled (gets f).
Proof. intros s. discriminate. Qed.

Lemma uncancelled_modify f : uncancelled (modify f).
Proof. intros s. discriminate. Qed.

Lemma uncancelled_logger e : uncancelled (logger e).
Proof. intros s. discriminate. Qed.

Lemma uncancelled_lift {A : Type} (r : result A) :
  r <> Raise CancelledError -> uncancelled (lift r).
Proof. intros N s. exact N. Qed.

Lemma uncancelled_bind {A B : Type} (c : M A) (k : A -> M B) :
  uncancelled c -> (forall a, uncancelled (k a)) -> uncancelled (bind c k).
Proof.
  intros Hc Hk s. unfold bind. specialize (Hc s).
  destruct (c s) as [[a|e] s1]; [apply Hk | simpl in *; congruence].
Qed.

Lemma uncancelled_when (b : bool) (c : M unit) :
  uncancelled c -> uncancelled (when b c).
Proof. destruct b; [auto | intros _ s; discriminate]. Qed.

Lemma uncancelled_for_each {A : Type} (l : list A) (body : A -> M unit) :
  (forall x, uncancelled (body x)) -> uncancelled (for_each l body).
Proof.
  intros H. induction l as [|x l IH]; simpl.
  - apply uncancelled_ret.
  - apply uncancelled_bind; auto.
Qed.

Lemma uncancelled_for_fold {A B : Type} (l : list A) (acc : B)
  (body : B -> A -> M B) :
  (forall b x, uncancelled (body b x)) -> uncancelled (for_fold l acc body).
Proof.
  intros H. revert acc. induction l as [|x l IH]; intros acc; simpl.
  - apply uncancelled_ret.
  - apply uncancelled_bind; auto.
Qed.

Lemma getitem_uncancelled v k : Py.getitem v k <> Raise CancelledError.
Proof.
  destruct v; simpl; try discriminate. destruct (Dict.get d k); discriminate.
Qed.

Lemma lower_uncancelled v : Py.lower v <> Raise CancelledError.
Proof. destruct v; discriminate. Qed.

Lemma refresh_asset_uncancelled d has_errors item :
  uncancelled (refresh_asset d has_errors item).
Proof.
  unfold refresh_asset. cbv zeta.
  apply uncancelled_bind; [apply uncancelled_lift, getitem_uncancelled|].
  intros src.
  apply uncancelled_bind; [apply uncancelled_lift, lower_uncancelled|].
  intros src_lower.
  destruct (String.eqb _ _); [|apply uncancelled_ret].
  destruct (Py.truthy _).
  - apply uncancelled_bind; [apply uncancelled_modify|].
    intros _. apply uncancelled_ret.
  - apply uncancelled_bind; [apply uncancelled_gets|]. intros show.
    apply uncancelled_bind;
      [apply uncancelled_when, uncancelled_logger|].
    intros _. apply uncancelled_ret.
Qed.

Lemma refresh_feed_uncancelled has_errors d :
  uncancelled (refresh_feed has_errors d).
Proof.
  intros s. unfold refresh_feed, try_except.
  assert (H : uncancelled
                (items <- gets (fun s => global_config (_exchange_rate_config s)) ;;
                 for_fold items has_errors (refresh_asset d))).
  { apply uncancelled_bind; [apply uncancelled_gets|]. intros items.
    apply uncancelled_for_fold. intros b x.
    apply refresh_asset_uncancelled. }
  specialize (H s).
  destruct (bind _ _ s) as [[b|e] s1]; [discriminate|].
  unfold bind, logger, modify, raise. simpl in *. exact H.
Qed.

Lemma update_uncancelled :
  uncancelled update_exchange_rates_from_data_feeds.
Proof.
  unfold update_exchange_rates_from_data_feeds.
  apply uncancelled_bind; [apply uncancelled_gets|]. intros feeds.
  apply uncancelled_bind.
  { apply uncancelled_for_each. intros d. apply uncancelled_modify. }
  intros _. apply uncancelled_bind.
  { apply uncancelled_for_fold. intros b d. apply refresh_feed_uncancelled. }
  intros has_errors. apply uncancelled_when, uncancelled_modify.
Qed.

Lemma handled_uncancelled e s :
  e <> CancelledError ->
  handled e s = (Ok tt, with_log (log s ++ [ErrorSendingRequests]) s).
Proof. intros N. destruct e; try reflexivity. contradiction. Qed.

Lemma run_op_notified o s : notified s -> notified (run_op o s).
Proof.
  revert s. destruct o; simpl run_op;
    try (by_method notified;
         stable_methods ltac:(progress unfold init_config);
         unfold notified; simpl; auto; fail).
  intros s H. exact H.
Qed.

(** X18.  A turn of the polling loop raises nothing but the cancellation of
    its task: it ends in [CancelledError] exactly when the first feed whose
    [get_ready] fails was cancelled, and then it reports nothing further and
    leaves the state the wait left; every other failure of a feed is reported
    as an error, with the readiness notifier as it was, and the turn
    returns.  When no feed fails and the sources are strings, the turn ends
    with the notifier set and is otherwise the wait followed by the refresh
    cycle.  Once set, the notifier is not cleared by any operation. *)
Theorem polling_turn_raises_only_cancellation (s : ExchangeRateConversion) :
  outcome request_loop_turn s
  = match first_failure (_data_feeds s) with
    | Some CancelledError => Raise CancelledError
    | _ => Ok tt
    end
  /\ (first_failure (_data_feeds s) = None ->
      sources_typed (global_config (_exchange_rate_config s)) ->
      exec request_loop_turn s
      = with_ready_notifier true
          (exec update_exchange_rates_from_data_feeds
             (exec wait_till_ready s)))
  /\ (forall e,
         first_failure (_data_feeds s) = Some e ->
         e <> CancelledError ->
         exec request_loop_turn s
         = with_log (log (exec wait_till_ready s) ++ [ErrorSendingRequests])
                    (exec wait_till_ready s)
         /\ _ready_notifier (exec request_loop_turn s) = _ready_notifier s)
  /\ (first_failure (_data_feeds s) = Some CancelledError ->
      exec request_loop_turn s = exec wait_till_ready s
      /\ _ready_notifier (exec request_loop_turn s) = _ready_notifier s)
  /\ (forall ops,
         _ready_notifier s = true -> _ready_notifier (run ops s) = true).
Proof.
  destruct (wait_till_ready_facts s) as (W & C & _ & _ & _ & _).
  pose proof (@wait_till_ready_frame _ s eq_refl) as Fr.
  unfold outcome, exec in *. rewrite request_loop_turn_run.
  destruct (wait_till_ready s) as [[[]|e0] s1] eqn:Ws; simpl in *.
  - destruct (first_failure (_data_feeds s)) as [e|] eqn:F; [discriminate|].
    split.
    { pose proof (update_uncancelled s1) as U.
      destruct (update_exchange_rates_from_data_feeds s1) as [[[]|e] s2];
        [reflexivity|].
      rewrite handled_uncancelled; [reflexivity|].
      simpl in U. congruence. }
    split.
    { intros _ T. rewrite update_total by (rewrite C; exact T). reflexivity. }
    split; [discriminate|]. split; [discriminate|].
    intros ops. apply (run_invariant notified).
    intros o s0. apply run_op_notified.
  - destruct (first_failure (_data_feeds s)) as [e|] eqn:F; [|discriminate].
    injection W as <-.
    split; [destruct e0; reflexivity|].
    split; [discriminate|]. split.
    { intros e [= <-] N. rewrite (handled_uncancelled _ N).
      split; [reflexivity|]. now injection Fr. }
    split.
    { intros [= ->]. split; [reflexivity|]. now injection Fr. }
    intros ops. apply (run_invariant notified).
    intros o s0. apply run_op_notified.
Qed.

Lemma polling_turn_raises_only_cancellation_witness :
  _ready_notifier (exec request_loop_turn sluggish) = true
  /\ _ready_notifier (exec request_loop_turn broken_feed) = false
  /\ log (exec request_loop_turn cancelled) = log cancelled
  /\ _ready_notifier
       (run [SetDataFeeds (Fresh [feedX []]); RequestLoopTurn; Stop;
             InitConfig]
            (exec request_loop_turn sluggish)) = true.
Proof.
  split; [|split; [|split]].
  - refine (eq_trans
              (f_equal _ready_notifier
                 (proj1 (proj2 (polling_turn_raises_only_cancellation
                                  sluggish)) _ _)) _).
    + vm_compute. reflexivity.
    + typed_sources.
    + reflexivity.
  - refine (eq_trans
              (proj2 (proj1 (proj2 (proj2
                 (polling_turn_raises_only_cancellation broken_feed)))
                 TypeError _ _)) _).
    + vm_compute. reflexivity.
    + discriminate.
    + vm_compute. reflexivity.
  - refine (eq_trans
              (f_equal log
                 (proj1 (proj1 (proj2 (proj2 (proj2
                    (polling_turn_raises_only_cancellation cancelled)))) _)))
              _).
    + vm_compute. reflexivity.
    + vm_compute. reflexivity.
  - apply (proj2 (proj2 (proj2 (proj2
             (polling_turn_raises_only_cancellation
                (exec request_loop_turn sluggish)))))).
    vm_compute. reflexivity.
Defined.

Lemma refresh_asset_untyped d has_errors item s :
  source_typed (snd item) = false ->
  exists e, refresh_asset d has_errors item s = (Raise e, s).
Proof.
  unfold source_typed, refresh_asset. cbv zeta. intros U.
  unfold bind at 1. unfold lift at 1.
  destruct (Py.getitem (snd item) "source") as [v|e]; [|eauto].
  unfold bind at 1. unfold lift at 1.
  destruct v; try discriminate U; simpl; eauto.
Qed.

Lemma refresh_items_untyped d items has_errors s :
  existsb (fun item => negb (source_typed (snd item))) items = true ->
  exists e s',
    for_fold items has_errors (refresh_asset d) s = (Raise e, s').
Proof.
  revert has_errors s.
  induction items as [|item items IH]; intros has_errors s E;
    [discriminate|].
  simpl in E. simpl for_fold. unfold bind.
  destruct (source_typed (snd item)) eqn:T.
  - rewrite refresh_asset_total.
    + apply IH. exact E.
    + unfold source_typed in T.
      destruct (Py.getitem (snd item) "source") as [[]|]; try discriminate T.
      eauto.
  - destruct (refresh_asset_untyped d has_errors item s T) as [e ->].
    eauto.
Qed.

Lemma update_raises_on_untyped
  (s : ExchangeRateConversion) (d : DataFeed.t) (rest : list DataFeed.t) :
  _data_feeds s = d :: rest ->
  existsb (fun item => negb (source_typed (snd item)))
          (global_config (_exchange_rate_config s)) = true ->
  (exists e,
      outcome update_exchange_rates_from_data_feeds s = Raise e)
  /\ (exists reports,
         log (exec update_exchange_rates_from_data_feeds s)
         = reports ++ [WarningErrorGettingData (DataFeed.name d)])
  /\ _show_update_exchange_rates_from_data_feeds_errors
       (exec update_exchange_rates_from_data_feeds s)
     = _show_update_exchange_rates_from_data_feeds_errors s
  /\ _all_data_feed_exchange_rate
       (exec update_exchange_rates_from_data_feeds s)
     = snapshots_after (_data_feeds s) (_all_data_feed_exchange_rate s).
Proof.
  intros F U.
  assert (Fl : stable
                 (fun s' =>
                    _show_update_exchange_rates_from_data_feeds_errors s'
                    = _show_update_exchange_rates_from_data_feeds_errors s)
                 (for_fold (global_config (_exchange_rate_config s)) false
                    (refresh_asset d))).
  { stable_methods fail; simpl; auto. }
  split; [|split; [|split; [|apply update_snapshots]]].
  all: unfold outcome, exec, update_exchange_rates_from_data_feeds;
    unfold bind at 1; unfold gets at 1; unfold bind at 1;
    rewrite snapshots_total; rewrite F; unfold bind at 1;
    simpl for_fold; unfold bind at 1;
    unfold refresh_feed at 1; unfold try_except;
    unfold bind at 1; unfold gets at 1; cbv beta iota;
    simpl _exchange_rate_config;
    set (s1 := with_all_data_feed_exchange_rate _ s);
    destruct (@refresh_items_untyped d
                (global_config (_exchange_rate_config s)) false s1 U)
      as (e & s' & R);
    pose proof (Fl s1 eq_refl) as Flag; unfold exec in Flag;
    rewrite R in *; simpl in *.
  - eauto.
  - eauto.
  - exact Flag.
Qed.

Lemma update_keeps_notifier c :
  stable (fun s => _ready_notifier s = c)
         update_exchange_rates_from_data_feeds.
Proof. stable_methods fail; simpl; auto. Qed.

(** X19.  When [global_config] has an entry whose source is missing or is
    not a string and the feed list is not empty, the refresh cycle raises
    while it visits the first feed: the exception leaves
    [update_exchange_rates_from_data_feeds] after a warning that names that
    feed, with the snapshots already replaced and the lookup-miss flag as
    it was; the polling turn then reports an error, does not set the
    readiness notifier and returns. *)
Theorem malformed_source_aborts_the_cycle
  (s : ExchangeRateConversion) (d : DataFeed.t) (rest : list DataFeed.t) :
  _data_feeds s = d :: rest ->
  existsb (fun item => negb (source_typed (snd item)))
          (global_config (_exchange_rate_config s)) = true ->
  (exists e,
      outcome update_exchange_rates_from_data_feeds s = Raise e)
  /\ (exists reports,
         log (exec update_exchange_rates_from_data_feeds s)
         = reports ++ [WarningErrorGettingData (DataFeed.name d)])
  /\ _show_update_exchange_rates_from_data_feeds_errors
       (exec update_exchange_rates_from_data_feeds s)
     = _show_update_exchange_rates_from_data_feeds_errors s
  /\ _all_data_feed_exchange_rate
       (exec update_exchange_rates_from_data_feeds s)
     = snapshots_after (_data_feeds s) (_all_data_feed_exchange_rate s)
  /\ (first_failure (_data_feeds s) = None ->
      outcome request_loop_turn s = Ok tt
      /\ _ready_notifier (exec request_loop_turn s) = _ready_notifier s
      /\ exists reports,
           log (exec request_loop_turn s)
           = reports ++ [WarningErrorGettingData (DataFeed.name d);
                         ErrorSendingRequests]).
Proof.
  intros F U.
  destruct (update_raises_on_untyped s F U) as (A & B & C & D).
  split; [exact A|]. split; [exact B|]. split; [exact C|].
  split; [exact D|]. intros W.
  destruct (wait_till_ready_facts s) as (Wo & Wc & _ & _ & _ & Wf).
  pose proof (@wait_till_ready_frame _ s eq_refl) as Fr.
  rewrite W in Wo. unfold outcome, exec in *.
  rewrite request_loop_turn_run.
  destruct (wait_till_ready s) as [[[]|e0] s1]; simpl in *; [|discriminate].
  assert (F1 : _data_feeds s1 = d :: rest) by (rewrite Wf; exact F).
  assert (U1 : existsb (fun item => negb (source_typed (snd item)))
                 (global_config (_exchange_rate_config s1)) = true)
    by (rewrite Wc; exact U).
  destruct (update_raises_on_untyped s1 F1 U1) as ([e A1] & [r B1] & _ & _).
  pose proof (@update_keeps_notifier _ s1 eq_refl) as Nt.
  pose proof (update_uncancelled s1) as Uc.
  unfold outcome, exec in *.
  destruct (update_exchange_rates_from_data_feeds s1) as [[[]|e1] s2];
    simpl in *; [discriminate|].
  rewrite handled_uncancelled by congruence. simpl.
  split; [reflexivity|]. split.
  - rewrite Nt. now injection Fr.
  - exists r. rewrite B1, <- app_assoc. reflexivity.
Qed.

Lemma malformed_source_aborts_the_cycle_witness :
  (exists e,
      outcome update_exchange_rates_from_data_feeds sourceless = Raise e)
  /\ _ready_notifier (exec request_loop_turn sourceless)
     = _ready_notifier sourceless.
Proof.
  assert (F : _data_feeds sourceless = feedX good_prices :: []).
  { vm_compute. reflexivity. }
  assert (U : existsb (fun item => negb (source_typed (snd item)))
                (global_config (_exchange_rate_config sourceless)) = true).
  { vm_compute. reflexivity. }
  split.
  - exact (proj1 (malformed_source_aborts_the_cycle sourceless F U)).
  - refine (proj1 (proj2 (proj2 (proj2 (proj2 (proj2
              (malformed_source_aborts_the_cycle sourceless F U)))) _))).
    vm_compute. reflexivity.
Defined.

(** ** Overrides, defaults and several feeds for one source *)

Lemma set_global_exchange_rate_config_run
  (config : argument (dict pyval)) s :
  set_global_exchange_rate_config config s =
  init_config
    (with_exchange_rate_config_override
       match _exchange_rate_config_override s with
       | None => held config None
       | Some _ => Some (Dict.update [] (read config []))
       end s).
Proof.
  unfold set_global_exchange_rate_config.
  unfold bind at 1. unfold gets at 1. cbv beta iota.
  destruct (_exchange_rate_config_override s); reflexivity.
Qed.

Lemma get_copy_none {V : Type} (d : dict V) k :
  Dict.get d k = None -> Dict.get (Dict.update [] d) k = None.
Proof.
  intros G. apply get_none_keys. intros I.
  apply in_keys_update in I. destruct I as [[]|I].
  apply get_none_keys in G. contradiction.
Qed.

(** X20.  An override that has neither a ["conversion_required"] nor a
    ["global_config"] entry, the empty override included, is no error: it
    empties both mappings and the merged rates. *)
Theorem empty_override_clears_config
  (s : ExchangeRateConversion) (o : dict pyval) :
  Dict.get o "conversion_required" = None ->
  Dict.get o "global_config" = None ->
  _exchange_rate_config (exec (set_global_exchange_rate_config (Fresh o)) s)
  = {| conversion_required := []; global_config := [] |}
  /\ _exchange_rate (exec (set_global_exchange_rate_config (Fresh o)) s) = []
  /\ log (exec (set_global_exchange_rate_config (Fresh o)) s) = log s.
Proof.
  intros C G. unfold exec. rewrite set_global_exchange_rate_config_run.
  match goal with |- context [init_config ?s0] => set (s1 := s0) end.
  assert (R : resolve s1 = Ok ([], [])).
  { subst s1. destruct (_exchange_rate_config_override s).
    - erewrite resolve_override by reflexivity.
      unfold Dict.get_default. simpl read.
      rewrite (get_copy_none _ _ C), (get_copy_none _ _ G). reflexivity.
    - erewrite resolve_override by reflexivity.
      unfold Dict.get_default. simpl held. rewrite C, G. reflexivity. }
  rewrite (@init_config_done s1 _ [] R eq_refl). repeat split.
Qed.

Lemma empty_override_clears_config_witness :
  _exchange_rate
    (exec (set_global_exchange_rate_config (Fresh [])) refreshed_once)
  = [].
Proof.
  apply (proj1 (proj2 (@empty_override_clears_config refreshed_once []
                         eq_refl eq_refl))).
Defined.

(** X21.  After an [init_config] that reports no error and until a refresh
    touches the asset, [adjust_token_rate] with the source ["config"]
    multiplies the price by the configured default rate of an asset of
    [conversion_required], when that default is a number and no feed has
    left a snapshot under the name ["config"]. *)
Theorem default_rate_applies_until_refreshed
  (s : ExchangeRateConversion) (asset_name : string) (entry : pyval)
  (rate price : float) :
  log (exec init_config s) = log s ->
  Dict.get (_all_data_feed_exchange_rate s) "config" = None ->
  Dict.get (conversion_required (_exchange_rate_config (exec init_config s)))
           (Str.upper asset_name) = Some entry ->
  Py.getitem entry "default" = Ok (VFloat rate) ->
  outcome (adjust_token_rate asset_name price (Some "config"))
          (exec init_config s)
  = Ok (PrimFloat.mul rate price).
Proof.
  intros Q A G D.
  destruct (init_config_quiet _ Q) as (cfg & rates & R & Dr & E).
  rewrite E in *. simpl in G.
  destruct (resolve_wf _ R) as [Wc Wg].
  pose proof (committed_overlay cfg Wc) as Gm. unfold overlay in Gm.
  specialize (Gm _ _ G).
  destruct (default_rates_get _ (committed_wf cfg Wg) Dr Gm) as (d & Hd & Hr).
  rewrite D in Hd. injection Hd as <-.
  rewrite adjust_token_rate_outcome.
  assert (T : outcome (get_exchange_rate (Some "config"))
                (with_exchange_rate rates
                   (with_exchange_rate_config (committed cfg)
                      (with_data_feeds (chosen_feeds s) s)))
              = Ok rates).
  { unfold outcome, get_exchange_rate, bind, gets. simpl.
    unfold Dict.mem. rewrite A. reflexivity. }
  rewrite T. simpl. unfold Dict.mem. rewrite G, Hr. simpl.
  unfold subscript. rewrite Hr. reflexivity.
Qed.

Lemma default_rate_applies_until_refreshed_witness :
  outcome (adjust_token_rate "usdt" 10%float (Some "config"))
          (exec init_config fresh)
  = Ok (PrimFloat.mul 1%float 10%float).
Proof.
  apply (@default_rate_applies_until_refreshed fresh "usdt"
           (VDict [("default", VFloat 1%float); ("source", VStr "feedX")])
           1%float 10%float);
    vm_compute; reflexivity.
Defined.

Lemma find_ext {A : Type} (p q : A -> bool) l :
  (forall x, p x = q x) -> find p l = find q l.
Proof.
  intros H. induction l as [|x l IH]; simpl; [reflexivity|].
  now rewrite H, IH.
Qed.

(** X22.  In a refresh cycle over string sources, the merged rate of an
    asset of [global_config] ends as the price of the last feed of the list
    that matches its source and returns a truthy price, and stays as it was
    when there is no such feed: among several feeds for one source the last
    one that serves the asset wins, and a later one that misses it erases
    nothing. *)
Theorem last_serving_feed_wins
  (s : ExchangeRateConversion) (a : string) (config : pyval) :
  normal_state s ->
  sources_typed (global_config (_exchange_rate_config s)) ->
  Dict.get (global_config (_exchange_rate_config s)) a = Some config ->
  Dict.get (_exchange_rate (exec update_exchange_rates_from_data_feeds s)) a
  = match find (fun d => source_matches d config
                         && Py.truthy (DataFeed.get_price d a))
               (rev (_data_feeds s)) with
    | Some d => Some (DataFeed.get_price d a)
    | None => Dict.get (_exchange_rate s) a
    end.
Proof.
  intros N T G.
  assert (Ua : Str.upper a = a).
  { apply N. unfold Dict.keys. apply in_map_iff. exists (a, config).
    split; [reflexivity | now apply get_some_in]. }
  unfold exec. rewrite update_total by exact T. simpl snd.
  rewrite cycled_rates.
  rewrite (@rates_after_get (_data_feeds s) _ (_exchange_rate s) a config N G).
  rewrite (find_ext (fun d => found d (a, config))
             (fun d => source_matches d config
                       && Py.truthy (DataFeed.get_price d a))).
  - unfold price_of. simpl. rewrite Ua. reflexivity.
  - intros d. unfold found, price_of. simpl. now rewrite Ua.
Qed.

Lemma last_serving_feed_wins_witness :
  Dict.get
    (_exchange_rate (exec update_exchange_rates_from_data_feeds two_feeds))
    "BTC"
  = Some (VFloat 50000%float).
Proof.
  refine (eq_trans
            (@last_serving_feed_wins two_feeds "BTC"
               (VDict [("default", VFloat NaN); ("source", VStr "feedX")])
               _ _ _) _).
  - apply run_normal, initial_normal.
  - typed_sources.
  - vm_compute. reflexivity.
  - vm_compute. reflexivity.
Defined.
